(** * pyhetdex: dither files, IFU centre files and list-valued configuration

    A shallow embedding of the parsers of [pyhetdex.het.dither],
    [pyhetdex.het.ifu_centers], [pyhetdex.common.file_tools] and of the list
    extension of [pyhetdex.tools.configuration], with the properties the
    specification states about them.

    Conventions of the embedding
    - a Python [str] is a [string] of ASCII characters; a text is the
      sequence of characters Python hands to the program, with the newline
      character at the end of its lines. A file is taken as its text where
      the two are the same, an ASCII file with no carriage return, and
      positions in it count characters ([FileTools]); the file as it lies on
      the disk, with its bytes, the translation of its newlines and positions
      that count bytes, is [TextIO], at the end;
    - a [dict] with string keys is a [gmap string _];
    - a Python float is a binary64 [PrimFloat.float];
    - a call that can raise returns a [result]: [Ok v] or [Raise e];
    - the builtins [float()] and [int()] on strings are parameters of the
      sections that use them ([None] stands for their [ValueError]);
    - [configparser], the library under [ConfigParser], is embedded as far
      as [get], [set], [has_option] and [add_section] go, with its
      [optionxform] and its interpolation as parameters. *)

From Stdlib Require Import String Ascii ZArith List Floats Uint63 DecimalString.
From stdpp Require Import gmap strings list fin_maps.

Set Warnings "-inexact-float".

Local Open Scope string_scope.
Local Open Scope list_scope.

(* ===================================================================== *)
(** * Exceptions and results *)
(* ===================================================================== *)

Inductive exn : Type :=
  | ValueError
  | UnboundLocalError (name : string)
  | DitherParseError (msg : string)
  | DitherPositionError
  | IFUCenterError (msg : string)
  | NoSectionError (section : string)
  | NoOptionError (option section : string)
  | DuplicateSectionError (section : string)
  | InterpolationError.

Inductive result (A : Type) : Type :=
  | Ok (a : A)
  | Raise (e : exn).
Arguments Ok {A} a.
Arguments Raise {A} e.

Definition bind {A B} (r : result A) (k : A -> result B) : result B :=
  match r with
  | Ok a => k a
  | Raise e => Raise e
  end.

Notation "'do' x <- r ; k" := (bind r (fun x => k))
  (at level 10, x pattern, r at level 100, k at level 200).

(** [conv o] : a builtin conversion whose failure is a [ValueError]. *)
Definition conv {A} (o : option A) : result A :=
  match o with
  | Some a => Ok a
  | None => Raise ValueError
  end.

(** Conversion of every element of a list, left to right, stopping at the
    first failure. *)
Fixpoint conv_all {A B} (f : A -> option B) (l : list A) : result (list B) :=
  match l with
  | [] => Ok []
  | a :: l' => do b <- conv (f a); do bs <- conv_all f l'; Ok (b :: bs)
  end.

(** A sequence of calls returns when each of them does. *)
Lemma bind_Ok {A B} (r : result A) (k : A -> result B) (b : B) :
  bind r k = Ok b -> exists a, r = Ok a /\ k a = Ok b.
Proof. destruct r as [a|e]; [by eauto|discriminate]. Qed.

Lemma conv_Ok {A} (o : option A) (a : A) : conv o = Ok a -> o = Some a.
Proof. destruct o; cbn; congruence. Qed.

(* ===================================================================== *)
(** * Python string operations *)
(* ===================================================================== *)

Module Py.

Definition nl : ascii := "010"%char.

(** [str.isspace] on one character, for the code points below 128. *)
Definition isspace (c : ascii) : bool :=
  let n := nat_of_ascii c in
  ((9 <=? n) && (n <=? 13) || (28 <=? n) && (n <=? 32))%nat.

Definition isdigit (c : ascii) : bool :=
  let n := nat_of_ascii c in ((48 <=? n) && (n <=? 57))%nat.

(** [s.startswith(p)] *)
Fixpoint startswith (p s : string) : bool :=
  match p, s with
  | EmptyString, _ => true
  | String a p', String b s' => Ascii.eqb a b && startswith p' s'
  | String _ _, EmptyString => false
  end.

(** [s[n:]] *)
Fixpoint drop_str (n : nat) (s : string) : string :=
  match n, s with
  | O, _ => s
  | S n', String _ s' => drop_str n' s'
  | S _, EmptyString => EmptyString
  end.

(** [str.split()] : the maximal runs of non-whitespace characters. [tok] is
    the run being read. *)
Fixpoint split_go (tok s : string) : list string :=
  match s with
  | EmptyString => if String.eqb tok "" then [] else [tok]
  | String c s' =>
      if isspace c
      then (if String.eqb tok "" then split_go "" s' else tok :: split_go "" s')
      else split_go (tok +:+ String c "") s'
  end.

Definition split (s : string) : list string := split_go "" s.

(** [str.split(sep)] for a non-empty separator: the pieces between the
    leftmost non-overlapping occurrences of [sep]. [skip] counts the
    characters of a matched separator still to pass. *)
Fixpoint split_sep_go (sep : string) (skip : nat) (tok s : string) : list string :=
  match s with
  | EmptyString => [tok]
  | String c s' =>
      match skip with
      | S k => split_sep_go sep k tok s'
      | O =>
          if startswith sep s
          then tok :: split_sep_go sep (String.length sep - 1) "" s'
          else split_sep_go sep 0 (tok +:+ String c "") s'
      end
  end.

(** [s.split(sep)]; an empty separator is a [ValueError]. *)
Definition split_sep (sep s : string) : result (list string) :=
  if String.eqb sep "" then Raise ValueError else Ok (split_sep_go sep 0 "" s).

(** [s.split(c)] for a one-character separator, which cannot fail. *)
Definition split_char (c : ascii) (s : string) : list string :=
  split_sep_go (String c "") 0 "" s.

Fixpoint lstrip (s : string) : string :=
  match s with
  | EmptyString => EmptyString
  | String c s' => if isspace c then lstrip s' else s
  end.

Fixpoint rstrip (s : string) : string :=
  match s with
  | EmptyString => EmptyString
  | String c s' =>
      match rstrip s' with
      | EmptyString => if isspace c then EmptyString else String c EmptyString
      | r => String c r
      end
  end.

(** [s.strip()] *)
Definition strip (s : string) : string := lstrip (rstrip s).

Definition lower_char (c : ascii) : ascii :=
  let n := nat_of_ascii c in
  if ((65 <=? n) && (n <=? 90))%nat then ascii_of_nat (n + 32) else c.

(** [s.lower()] on ASCII text *)
Fixpoint lower (s : string) : string :=
  match s with
  | EmptyString => EmptyString
  | String c s' => String (lower_char c) (lower s')
  end.

(** [re.findall(r'D\d', s)]: the non-overlapping matches of the letter D
    followed by one digit, left to right. [skip] is set on the second
    character of a match. *)
Fixpoint findall_Dd_go (skip : bool) (s : string) : list string :=
  match s with
  | EmptyString => []
  | String c s' =>
      if skip then findall_Dd_go false s'
      else match s' with
           | String d _ =>
               if Ascii.eqb c "D" && isdigit d
               then String c (String d "") :: findall_Dd_go true s'
               else findall_Dd_go false s'
           | EmptyString => []
           end
  end.

Definition findall_Dd (s : string) : list string := findall_Dd_go false s.

(** The distinct elements of a list, in order of first occurrence: the
    elements of [set(l)]. *)
Fixpoint distinct (l : list string) : list string :=
  match l with
  | [] => []
  | x :: l' => x :: filter (fun y => negb (String.eqb x y)) (distinct l')
  end.

(** [str(n)] and ["{}".format(n)] for a natural number *)
Definition str_of_nat (n : nat) : string := NilZero.string_of_uint (Nat.to_uint n).

(** [str(z)] for an integer *)
Definition str_of_Z (z : Z) : string := NilZero.string_of_int (Z.to_int z).

(** The lines a [for l in f] loop reads from the text [s], each with its
    newline. *)
Fixpoint readlines (s : string) : list string :=
  match s with
  | EmptyString => []
  | String c s' =>
      if Ascii.eqb c nl then String c EmptyString :: readlines s'
      else match readlines s' with
           | [] => [String c EmptyString]
           | l :: ls => String c l :: ls
           end
  end.

(** The text whose lines are [ls], each ended by a newline. *)
Definition unlines (ls : list string) : string :=
  fold_right (fun l r => l +:+ String nl r) "" ls.

(** [c in s] for a character [c] *)
Fixpoint contains (c : ascii) (s : string) : bool :=
  match s with
  | EmptyString => false
  | String a s' => Ascii.eqb a c || contains c s'
  end.

End Py.

(* ===================================================================== *)
(** * pyhetdex.common.file_tools *)
(* ===================================================================== *)

Module FileTools.

(** An open text file whose text is its bytes, one for each character and
    the newline for the end of a line: its text and the position of the
    cursor. On such a file the number [f.tell()] gives and the lengths
    [skip_comments] adds to it count the same thing. A file with carriage
    returns is not such a file: [TextIO] has the file in general, and
    [TextIO.skip_comments_view] shows that the two agree here. *)
Record file : Type := mkfile { content : string; pos : nat }.

Definition tell (f : file) : nat := pos f.
Definition seek (f : file) (p : nat) : file := mkfile (content f) p.

(** The files that are their text: ASCII, with no carriage return. *)
Definition cr : ascii := "013"%char.

Fixpoint plain (b : string) : bool :=
  match b with
  | EmptyString => true
  | String c b' =>
      (nat_of_ascii c <? 128)%nat && negb (Ascii.eqb c cr) && plain b'
  end.

(** What is left to read. *)
Definition remaining (f : file) : string := Py.drop_str (pos f) (content f).

Definition is_comment (l : string) : bool := Py.startswith "#" l.

(** The loop of [skip_comments] over the lines it reads: [p] grows by the
    length of every comment line and the loop breaks at the first other
    line. *)
Fixpoint skip_loop (ls : list string) (p : nat) : nat :=
  match ls with
  | [] => p
  | l :: ls' => if is_comment l then skip_loop ls' (p + String.length l) else p
  end.

Definition skip_comments (f : file) : file :=
  let p := tell f in
  seek f (skip_loop (Py.readlines (remaining f)) p).

(** The lines of a list from the first that is not a comment. *)
Fixpoint drop_comments (ls : list string) : list string :=
  match ls with
  | [] => []
  | l :: ls' => if is_comment l then drop_comments ls' else ls
  end.

Fixpoint take_comments (ls : list string) : list string :=
  match ls with
  | [] => []
  | l :: ls' => if is_comment l then l :: take_comments ls' else []
  end.

(** The text made of the lines [ls]. *)
Definition join (ls : list string) : string := fold_right String.append "" ls.

(** ** Facts about lines *)

Lemma join_cons (l : string) (ls : list string) : join (l :: ls) = l +:+ join ls.
Proof. reflexivity. Qed.

Lemma append_nil_l (b : string) : "" +:+ b = b.
Proof. reflexivity. Qed.

Lemma append_cons (x : ascii) (a b : string) :
  String x a +:+ b = String x (a +:+ b).
Proof. reflexivity. Qed.

Lemma append_assoc (a b c : string) : (a +:+ b) +:+ c = a +:+ (b +:+ c).
Proof.
  induction a as [|x a IH]; [reflexivity|]. by rewrite !append_cons, IH.
Qed.

Lemma join_readlines (s : string) : join (Py.readlines s) = s.
Proof.
  induction s as [|c s IH]; [reflexivity|].
  cbn [Py.readlines]. destruct (Ascii.eqb c Py.nl).
  - rewrite join_cons, IH. reflexivity.
  - destruct (Py.readlines s) as [|l ls] eqn:E; [by subst|].
    rewrite join_cons in *. by subst.
Qed.

Lemma readlines_head (c : ascii) (s : string) :
  exists l ls, Py.readlines (String c s) = String c l :: ls.
Proof.
  cbn [Py.readlines]. destruct (Ascii.eqb c Py.nl); [by eauto|].
  destruct (Py.readlines s); eauto.
Qed.

Lemma readlines_nonempty (s : string) :
  Forall (fun l => l <> "") (Py.readlines s).
Proof.
  induction s as [|c s IH]; [constructor|].
  cbn [Py.readlines]. destruct (Ascii.eqb c Py.nl).
  - constructor; [discriminate|done].
  - destruct (Py.readlines s) as [|l ls].
    + constructor; [discriminate|constructor].
    + inversion IH; subst. constructor; [discriminate|done].
Qed.

Lemma drop_str_add (p n : nat) (s : string) :
  Py.drop_str (p + n) s = Py.drop_str n (Py.drop_str p s).
Proof.
  revert s. induction p as [|p IH]; intros s; [reflexivity|].
  destruct s as [|c s]; cbn; [by destruct n|apply IH].
Qed.

Lemma drop_str_app (a b : string) :
  Py.drop_str (String.length a) (a +:+ b) = b.
Proof. induction a as [|c a IH]; [by destruct b|exact IH]. Qed.

Lemma string_length_app (a b : string) :
  String.length (a +:+ b) = String.length a + String.length b.
Proof.
  induction a as [|c a IH]; [reflexivity|].
  rewrite append_cons. cbn [String.length]. by rewrite IH.
Qed.

Lemma join_take_drop (ls : list string) :
  join (take_comments ls) +:+ join (drop_comments ls) = join ls.
Proof.
  induction ls as [|l ls IH]; [reflexivity|].
  cbn [take_comments drop_comments]. destruct (is_comment l); [|reflexivity].
  by rewrite !join_cons, append_assoc, IH.
Qed.

Lemma skip_loop_spec (ls : list string) (p : nat) :
  skip_loop ls p = p + String.length (join (take_comments ls)).
Proof.
  revert p. induction ls as [|l ls IH]; intros p; cbn [skip_loop take_comments].
  - cbn. lia.
  - destruct (is_comment l); [|cbn; lia].
    rewrite IH, join_cons, string_length_app. lia.
Qed.

Lemma remaining_skip_comments (f : file) :
  remaining (skip_comments f) = join (drop_comments (Py.readlines (remaining f))).
Proof.
  unfold skip_comments, remaining, seek, tell. cbn [pos content].
  rewrite skip_loop_spec, drop_str_add.
  generalize (Py.drop_str (pos f) (content f)); intros r.
  transitivity (Py.drop_str (String.length (join (take_comments (Py.readlines r))))
                  (join (take_comments (Py.readlines r))
                   +:+ join (drop_comments (Py.readlines r)))).
  - f_equal. by rewrite join_take_drop, join_readlines.
  - apply drop_str_app.
Qed.

(** Whether a text is a comment depends on its first character only. *)
Lemma is_comment_first (c : ascii) (s s' : string) :
  is_comment (String c s) = is_comment (String c s').
Proof.
  unfold is_comment. cbn. by destruct (Ascii.eqb "#" c).
Qed.

(** After dropping the leading comments, the text is empty or starts with a
    character other than the comment mark. *)
Lemma drop_comments_start (s : string) :
  is_comment (join (drop_comments (Py.readlines s))) = false.
Proof.
  pose proof (readlines_nonempty s) as Hne.
  induction (Py.readlines s) as [|l ls IH]; [reflexivity|].
  inversion Hne as [|? ? Hl Hls]; subst.
  cbn [drop_comments]. destruct (is_comment l) eqn:E; [by apply IH|].
  destruct l as [|c l]; [done|].
  rewrite join_cons, append_cons. by rewrite (is_comment_first c _ l).
Qed.

Lemma skip_loop_not_comment (s : string) (p : nat) :
  is_comment s = false -> skip_loop (Py.readlines s) p = p.
Proof.
  destruct s as [|c s]; [reflexivity|]. intros E.
  destruct (readlines_head c s) as (l & ls & ->).
  cbn [skip_loop]. by rewrite (is_comment_first c l s), E.
Qed.

(** On a file whose text is its bytes, [skip_comments] moves the cursor past
    the comment lines it starts with and leaves it at the start of the first
    line that is not a comment, or at the end of the input when every line
    left is one: what remains to read is the text of the lines from that
    line on, and it does not start with the comment mark. Calling
    [skip_comments] again from there gives back the same file object,
    position included. *)
Lemma skip_comments_idempotent (f : file) :
  pos (skip_comments f)
    = pos f + String.length (join (take_comments (Py.readlines (remaining f))))
  /\ remaining (skip_comments f)
     = join (drop_comments (Py.readlines (remaining f)))
  /\ is_comment (remaining (skip_comments f)) = false
  /\ skip_comments (skip_comments f) = skip_comments f.
Proof.
  split; [apply skip_loop_spec|].
  split; [apply remaining_skip_comments|].
  assert (Hc : is_comment (remaining (skip_comments f)) = false).
  { rewrite remaining_skip_comments. apply drop_comments_start. }
  split; [exact Hc|].
  unfold skip_comments at 1. unfold seek, tell.
  rewrite (skip_loop_not_comment _ _ Hc). by destruct (skip_comments f).
Qed.

(** ** Reading line by line *)

(** [f.readline()]: the line at the cursor, empty at the end of the file,
    and the file with the cursor after it. *)
Definition readline (f : file) : string * file :=
  match Py.readlines (remaining f) with
  | [] => ("", f)
  | l :: _ => (l, seek f (pos f + String.length l))
  end.

Lemma readlines_nil (s : string) : Py.readlines s = [] -> s = "".
Proof.
  destruct s as [|c s]; [done|]. destruct (readlines_head c s) as (l & ls & ->).
  discriminate.
Qed.

(** The lines left after the first are the lines of the text left after it. *)
Lemma readlines_tail (s l : string) (ls : list string) :
  Py.readlines s = l :: ls -> Py.readlines (Py.drop_str (String.length l) s) = ls.
Proof.
  revert l ls. induction s as [|c s IH]; intros l ls; [discriminate|].
  cbn [Py.readlines]. destruct (Ascii.eqb c Py.nl).
  - by intros [= <- <-].
  - destruct (Py.readlines s) as [|l' ls'] eqn:E.
    + intros [= <- <-]. apply readlines_nil in E as ->. reflexivity.
    + intros [= <- <-]. cbn. by apply IH.
Qed.

(** A loop of [readline] reads the lines of [readlines] one after the
    other. *)
Lemma readline_next (f : file) (l : string) (ls : list string) :
  Py.readlines (remaining f) = l :: ls ->
  readline f = (l, seek f (pos f + String.length l))
  /\ Py.readlines (remaining (seek f (pos f + String.length l))) = ls.
Proof.
  intros H. unfold readline. rewrite H. split; [done|].
  unfold remaining, seek. cbn [pos content]. rewrite drop_str_add.
  by apply readlines_tail.
Qed.

Lemma readline_eof (f : file) :
  Py.readlines (remaining f) = [] -> readline f = ("", f).
Proof. intros H. unfold readline. by rewrite H. Qed.

End FileTools.

(* ===================================================================== *)
(** * Reference instances of the builtins *)
(* ===================================================================== *)

(** [float()] and [int()] restricted to plain decimal literals (an optional
    sign, digits, and for floats an optional fractional part). They are used
    to run the parsers on concrete files; the theorems hold for every
    behaviour of the builtins. *)
Module Ref.

Definition digit_val (c : ascii) : Z := Z.of_nat (nat_of_ascii c - 48).

Fixpoint digits_go (acc : Z) (s : string) : option Z :=
  match s with
  | EmptyString => Some acc
  | String c s' =>
      if Py.isdigit c then digits_go (10 * acc + digit_val c) s' else None
  end.

Definition digits (s : string) : option Z :=
  match s with
  | EmptyString => None
  | _ => digits_go 0 s
  end.

Definition int_of_string (s : string) : option Z :=
  match s with
  | String "-" s' => Z.opp <$> digits s'
  | String "+" s' => digits s'
  | _ => digits s
  end.

(** Digits with at most one point: the digits read as one integer, and the
    number of digits after the point. *)
Fixpoint mantissa_go (acc : Z) (frac : option nat) (seen : bool) (s : string)
  : option (Z * nat) :=
  match s with
  | EmptyString => if seen then Some (acc, default 0%nat frac) else None
  | String c s' =>
      if Py.isdigit c
      then mantissa_go (10 * acc + digit_val c) (S <$> frac) true s'
      else if Ascii.eqb c "."
           then match frac with
                | None => mantissa_go acc (Some 0%nat) seen s'
                | Some _ => None
                end
           else None
  end.

Definition float_of_Z (z : Z) : float := PrimFloat.of_uint63 (Uint63.of_Z z).

Definition unsigned_float (s : string) : option float :=
  '(m, k) ← mantissa_go 0 None false s;
  Some (PrimFloat.div (float_of_Z m) (float_of_Z (10 ^ Z.of_nat k))).

Definition float_of_string (s : string) : option float :=
  match s with
  | String "-" s' => PrimFloat.opp <$> unsigned_float s'
  | String "+" s' => unsigned_float s'
  | _ => unsigned_float s
  end.

End Ref.

(* ===================================================================== *)
(** * pyhetdex.het.dither *)
(* ===================================================================== *)

Module Dither.

(** The public dictionaries of [_BaseDither]. *)
Record dither : Type := mkdither {
  basename : gmap string string;
  dx : gmap string float;
  dy : gmap string float;
  seeing : gmap string float;
  norm : gmap string float;
  airmass : gmap string float
}.

(** [_BaseDither.__init__] *)
Definition init : dither := mkdither ∅ ∅ ∅ ∅ ∅ ∅.

(** [EmptyDither._no_dither] *)
Definition _no_dither (d : dither) : dither :=
  let _d := "D1" in
  mkdither (<[_d := ""]> (basename d))
           (<[_d := 0%float]> (dx d)) (<[_d := 0%float]> (dy d))
           (<[_d := 1%float]> (seeing d)) (<[_d := 1%float]> (norm d))
           (<[_d := 1%float]> (airmass d)).

Definition EmptyDither : dither := _no_dither init.

(** The seven variables the loop of [_read_dither] unpacks a line into. They
    are unbound until a line unpacks, and keep their values from one
    iteration to the next. *)
Record locals : Type := mklocals {
  _bn : string; _d : string; _x : string; _y : string;
  _seeing : string; _norm : string; _airmass : string
}.

(** [_bn, _d, _x, _y, _seeing, _norm, _airmass = l.split()]: [None] is the
    [ValueError] of an unpacking with another number of fields. *)
Definition unpack (toks : list string) : option locals :=
  match toks with
  | [a; b; c; d; e; f; g] => Some (mklocals a b c d e f g)
  | _ => None
  end.

(** The message of the [DitherParseError], formatted with [n]. *)
Definition parse_error_msg (n : nat) : string :=
  "While extracting the dither number from the basename in the dither file, "
  +:+ Py.str_of_nat n
  +:+ " matches to 'D\d' expression where found. I expected one. What should I do?".

(** A cell of a row of dither positions: a number, or the text of one when
    the rows come from a file. *)
Inductive cell : Type :=
  | CStr (s : string)
  | CFloat (x : float).

(** [ifu_dxs] and [ifu_dys] of [DitherCreator]. *)
Record creator : Type := mkcreator {
  ifu_dxs : gmap string (list float);
  ifu_dys : gmap string (list float)
}.

Section Builtins.

(** [float(s)] *)
Variable float_of_string : string -> option float.

(** The order in which a set of strings is iterated is not fixed by the
    language: [hash_first s] is the rank, among the distinct elements [s],
    of the one that comes first. *)
Variable hash_first : list string -> nat.

(** [list(set(l))[0]]; [None] is the [IndexError] of the empty set. *)
Definition set_first (l : list string) : option string :=
  let s := Py.distinct l in
  s !! (hash_first s mod length s)%nat.

(** One iteration of the loop of [_read_dither] on the line [l]. *)
Definition read_line (l : string) (st : option locals * dither)
  : result (option locals * dither) :=
  let '(loc, d) := st in
  (* try: ... = l.split()  except ValueError: pass *)
  let loc := match unpack (Py.split l) with
             | Some v => Some v
             | None => loc
             end in
  match loc with
  | None => Raise (UnboundLocalError "_d")
  | Some v =>
      match set_first (Py.findall_Dd (_d v)) with
      | None => Raise (DitherParseError (parse_error_msg (String.length (_d v))))
      | Some k =>
          let v := mklocals (_bn v) k (_x v) (_y v) (_seeing v) (_norm v) (_airmass v) in
          let basename' := <[k := _bn v]> (basename d) in
          do x <- conv (float_of_string (_x v));
          do y <- conv (float_of_string (_y v));
          do s <- conv (float_of_string (_seeing v));
          do n <- conv (float_of_string (_norm v));
          do a <- conv (float_of_string (_airmass v));
          Ok (Some v,
              mkdither basename' (<[k := x]> (dx d)) (<[k := y]> (dy d))
                       (<[k := s]> (seeing d)) (<[k := n]> (norm d))
                       (<[k := a]> (airmass d)))
      end
  end.

(** [for l in f: ...] *)
Fixpoint read_lines (ls : list string) (st : option locals * dither)
  : result (option locals * dither) :=
  match ls with
  | [] => Ok st
  | l :: ls' => do st' <- read_line l st; read_lines ls' st'
  end.

(** [ParseDither._read_dither] on a file with the text [text], called on the
    dictionaries [d]. *)
Definition _read_dither (text : string) (d : dither) : result dither :=
  let f := FileTools.skip_comments (FileTools.mkfile text 0) in
  do st <- read_lines (Py.readlines (FileTools.remaining f)) (None, d);
  Ok (snd st).

(** [ParseDither(dither_file)] *)
Definition ParseDither (text : string) : result dither := _read_dither text init.

(** The conversion numpy applies to a cell of an array of [dtype=float]. *)
Definition to_float (c : cell) : option float :=
  match c with
  | CFloat x => Some x
  | CStr s => float_of_string s
  end.

(** One iteration of the loop of [_store_dither_positions]. The row
    [dp] is given as its head [dp[0]], the identifier, and its tail
    [dp[1:]]. *)
Definition store_row (c : creator) (dp : string * list cell) : result creator :=
  let '(key, tail) := dp in
  if (length tail mod 2 =? 1)%nat
  then Raise DitherPositionError
  else
    let n_x := (length tail / 2)%nat in
    do xs <- conv_all to_float (take n_x tail);
    do ys <- conv_all to_float (drop n_x tail);
    Ok (mkcreator (<[key := xs]> (ifu_dxs c)) (<[key := ys]> (ifu_dys c))).

Fixpoint _store_dither_positions (dither_positions : list (string * list cell))
  (c : creator) : result creator :=
  match dither_positions with
  | [] => Ok c
  | dp :: rest => do c' <- store_row c dp; _store_dither_positions rest c'
  end.

End Builtins.

(** ** The key sets of a parsed dither file *)

Definition same_keys (d : dither) : Prop :=
  dom (basename d) = dom (dx d) /\ dom (dx d) = dom (dy d)
  /\ dom (dy d) = dom (seeing d) /\ dom (seeing d) = dom (norm d)
  /\ dom (norm d) = dom (airmass d).

Section Facts.

Variable float_of_string : string -> option float.
Variable hash_first : list string -> nat.

Lemma read_line_keys l loc d loc' d' :
  read_line float_of_string hash_first l (loc, d) = Ok (loc', d') ->
  same_keys d -> same_keys d'.
Proof.
  unfold read_line.
  destruct (match unpack (Py.split l) with Some v => Some v | None => loc end)
    as [v|]; [|discriminate].
  destruct (set_first hash_first (Py.findall_Dd (_d v))) as [k|]; [|discriminate].
  cbn [_bn _x _y _seeing _norm _airmass].
  intros H.
  repeat (apply bind_Ok in H as (? & _ & H)).
  injection H as _ <-.
  unfold same_keys; cbn [basename dx dy seeing norm airmass].
  rewrite !dom_insert_L. intros (-> & -> & -> & -> & ->). done.
Qed.

Lemma read_lines_keys ls st st' :
  read_lines float_of_string hash_first ls st = Ok st' ->
  same_keys (snd st) -> same_keys (snd st').
Proof.
  revert st. induction ls as [|l ls IH]; intros st; cbn [read_lines].
  - by intros [= ->].
  - intros H. apply bind_Ok in H as ([loc1 d1] & H1 & H2).
    destruct st as [loc d]. intros Hk. apply (IH _ H2).
    exact (read_line_keys _ _ _ _ _ H1 Hk).
Qed.

(** C4. When [ParseDither] returns, the dictionaries [basename], [dx], [dy],
    [seeing], [norm] and [airmass] have the same set of keys. *)
Theorem ParseDither_same_keys (text : string) (d : dither) :
  ParseDither float_of_string hash_first text = Ok d ->
  dom (basename d) = dom (dx d) /\ dom (dx d) = dom (dy d)
  /\ dom (dy d) = dom (seeing d) /\ dom (seeing d) = dom (norm d)
  /\ dom (norm d) = dom (airmass d).
Proof.
  unfold ParseDither, _read_dither. intros H.
  apply bind_Ok in H as (st & H & [= <-]).
  apply (read_lines_keys _ _ _ H). by repeat split.
Qed.

(** ** Lines whose second field holds no dither key *)

(** The key is looked for in the second field of the line, and the number the
    message gives is the length of that field. *)
Lemma read_line_no_match l st v :
  unpack (Py.split l) = Some v ->
  Py.findall_Dd (_d v) = [] ->
  read_line float_of_string hash_first l st
    = Raise (DitherParseError (parse_error_msg (String.length (_d v)))).
Proof.
  intros Hu Hf. unfold read_line. destruct st as [loc d]. rewrite Hu.
  unfold set_first. by rewrite Hf.
Qed.

(** C1. On a data line whose basename field holds the key D1 and whose second
    field holds no match of the pattern, [ParseDither] does not derive the key
    from the basename: it raises [DitherParseError], and its message gives 5,
    the length of the second field, as the number of matches, not 0. *)
Theorem ParseDither_key_field_and_message :
  ParseDither float_of_string hash_first
    (Py.unlines ["SIMDEX-obs-1_D1_046 model 0.00 0.00 1.60 1.00 1.22"])
  = Raise (DitherParseError
      "While extracting the dither number from the basename in the dither file, 5 matches to 'D\d' expression where found. I expected one. What should I do?").
Proof. reflexivity. Qed.

(** ** Lines that do not unpack *)

(** C2. A file whose first line after the header comment is blank: the line
    does not split into seven fields, and [ParseDither] raises
    [UnboundLocalError] on it, where the same file without that line parses
    and gives the key D1. *)
Theorem ParseDither_blank_first_line :
  ParseDither float_of_string hash_first
    (Py.unlines ["# basename modelbase ditherx dithery seeing norm airmass";
                 "";
                 "SIMDEX-obs-1_D1_046 SIMDEX-obs-1_D1_046 0.00 0.00 1.60 1.00 1.22"])
  = Raise (UnboundLocalError "_d")
  /\ exists d,
      ParseDither Ref.float_of_string hash_first
        (Py.unlines ["# basename modelbase ditherx dithery seeing norm airmass";
                     "SIMDEX-obs-1_D1_046 SIMDEX-obs-1_D1_046 0.00 0.00 1.60 1.00 1.22"])
      = Ok d /\ basename d !! "D1" = Some "SIMDEX-obs-1_D1_046".
Proof.
  split; [reflexivity|]. eexists. split; [reflexivity|]. reflexivity.
Qed.

(** Every match of the pattern is the letter D followed by a digit. *)
Lemma findall_Dd_go_shape skip s k :
  k ∈ Py.findall_Dd_go skip s ->
  exists c, k = String "D" (String c "") /\ Py.isdigit c = true.
Proof.
  revert skip. induction s as [|a s IH]; intros skip; cbn [Py.findall_Dd_go].
  - by intros ?%elem_of_nil.
  - destruct skip; [by apply IH|].
    destruct s as [|b s']; [by intros ?%elem_of_nil|].
    destruct (Ascii.eqb a "D") eqn:Ea; cbn [andb]; [|by apply IH].
    destruct (Py.isdigit b) eqn:Eb; [|by apply IH].
    intros [->|Hin]%elem_of_cons; [|by eapply IH].
    apply Ascii.eqb_eq in Ea as ->. eauto.
Qed.

(** A key read back through the pattern gives itself, and nothing else. *)
Lemma findall_Dd_key c :
  Py.isdigit c = true ->
  Py.findall_Dd (String "D" (String c "")) = [String "D" (String c "")].
Proof. intros H. unfold Py.findall_Dd. cbn. by rewrite H. Qed.

Lemma distinct_elem l k : k ∈ Py.distinct l -> k ∈ l.
Proof.
  induction l as [|x l IH]; cbn [Py.distinct]; [done|].
  intros [->|Hin]%elem_of_cons; [by left|].
  right. apply IH. by apply list_elem_of_filter in Hin as [_ ?].
Qed.

Lemma set_first_elem l k : set_first hash_first l = Some k -> k ∈ l.
Proof.
  unfold set_first. intros H%list_elem_of_lookup_2. by apply distinct_elem.
Qed.

Lemma set_first_singleton k : set_first hash_first [k] = Some k.
Proof.
  unfold set_first. cbn [Py.distinct]. rewrite filter_nil. cbn [length].
  by rewrite Nat.mod_1_r.
Qed.

(** The dictionary [m] holds at [k] the number the text [s] converts to. *)
Definition holds (m : gmap string float) (k s : string) : Prop :=
  exists x, float_of_string s = Some x /\ m !! k = Some x.

(** What a line that parsed leaves behind: the variable [_d] holds the key,
    and the dictionaries hold at that key the values of the other
    variables. *)
Definition stored (v : locals) (d : dither) : Prop :=
  Py.findall_Dd (_d v) = [_d v]
  /\ basename d !! _d v = Some (_bn v)
  /\ holds (dx d) (_d v) (_x v) /\ holds (dy d) (_d v) (_y v)
  /\ holds (seeing d) (_d v) (_seeing v) /\ holds (norm d) (_d v) (_norm v)
  /\ holds (airmass d) (_d v) (_airmass v).

Lemma read_line_stored l st loc' d' :
  read_line float_of_string hash_first l st = Ok (loc', d') ->
  exists v, loc' = Some v /\ stored v d'.
Proof.
  unfold read_line. destruct st as [loc d].
  destruct (match unpack (Py.split l) with Some v => Some v | None => loc end)
    as [v|]; [|discriminate].
  destruct (set_first hash_first (Py.findall_Dd (_d v))) as [k|] eqn:Ek;
    [|discriminate].
  cbn [_bn _x _y _seeing _norm _airmass].
  intros H.
  apply bind_Ok in H as (x & Hx%conv_Ok & H).
  apply bind_Ok in H as (y & Hy%conv_Ok & H).
  apply bind_Ok in H as (se & Hs%conv_Ok & H).
  apply bind_Ok in H as (n & Hn%conv_Ok & H).
  apply bind_Ok in H as (a & Ha%conv_Ok & H).
  injection H as <- <-. eexists; split; [reflexivity|].
  apply set_first_elem, findall_Dd_go_shape in Ek as (c & -> & Hc).
  unfold stored, holds; cbn [_bn _d _x _y _seeing _norm _airmass
                             basename dx dy seeing norm airmass].
  rewrite !lookup_insert_eq.
  split; [by apply findall_Dd_key|]. repeat split; eauto.
Qed.

Lemma read_line_stale l v d :
  unpack (Py.split l) = None -> stored v d ->
  read_line float_of_string hash_first l (Some v, d) = Ok (Some v, d).
Proof.
  intros Hu (Hk & Hb & (x & Hx & Hdx) & (y & Hy & Hdy) & (se & Hs & Hds)
             & (n & Hn & Hdn) & (a & Ha & Hda)).
  unfold read_line. rewrite Hu, Hk, set_first_singleton.
  cbn [_bn _x _y _seeing _norm _airmass].
  rewrite Hx, Hy, Hs, Hn, Ha. cbn [conv bind].
  rewrite !insert_id by done. by destruct v, d.
Qed.

(** X1. Once a line has been parsed, a line that does not split into seven
    fields is processed with the variables of the line before it, which
    stores again what is stored already: the state is unchanged. *)
Lemma read_line_short_after_parsed l0 st0 st l :
  read_line float_of_string hash_first l0 st0 = Ok st ->
  unpack (Py.split l) = None ->
  read_line float_of_string hash_first l st = Ok st.
Proof.
  destruct st as [loc d]. intros (v & -> & Hst)%read_line_stored Hu.
  by apply read_line_stale.
Qed.

(** With no line parsed before it, such a line raises. *)
Lemma read_line_short_first l d :
  unpack (Py.split l) = None ->
  read_line float_of_string hash_first l (None, d)
    = Raise (UnboundLocalError "_d").
Proof. intros Hu. unfold read_line. by rewrite Hu. Qed.

(** ** Rows of dither positions *)

Lemma conv_all_app {A B} (f : A -> option B) (l1 l2 : list A) :
  conv_all f (l1 ++ l2)
  = do xs <- conv_all f l1; do ys <- conv_all f l2; Ok (xs ++ ys).
Proof.
  induction l1 as [|a l1 IH]; cbn [conv_all app].
  - cbn. by destruct (conv_all f l2).
  - destruct (f a) as [b|]; cbn; [|done]. rewrite IH.
    destruct (conv_all f l1); cbn; [|done]. by destruct (conv_all f l2).
Qed.

Lemma conv_all_length {A B} (f : A -> option B) (l : list A) (bs : list B) :
  conv_all f l = Ok bs -> length bs = length l.
Proof.
  revert bs. induction l as [|a l IH]; intros bs; cbn [conv_all].
  - by intros [= <-].
  - intros (b & _ & H)%bind_Ok. apply bind_Ok in H as (bs' & H & [= <-]).
    cbn. f_equal. by apply IH.
Qed.

(** Converting the two halves of a row is converting the row and halving
    the result. *)
Lemma conv_all_halves {A B} (f : A -> option B) (l : list A) (bs : list B) n :
  conv_all f l = Ok bs ->
  conv_all f (take n l) = Ok (take n bs) /\ conv_all f (drop n l) = Ok (drop n bs).
Proof.
  intros H. rewrite <- (take_drop n l), conv_all_app in H.
  apply bind_Ok in H as (xs & Hx & H). apply bind_Ok in H as (ys & Hy & [= <-]).
  pose proof (conv_all_length _ _ _ Hx) as Hlen.
  rewrite Hx, Hy.
  destruct (decide (n ≤ length l)%nat) as [Hle|Hgt].
  - rewrite length_take_le in Hlen by done.
    by rewrite take_app_length', drop_app_length'.
  - rewrite length_take_ge in Hlen by lia.
    rewrite drop_ge in Hy by lia. injection Hy as <-.
    rewrite app_nil_r. by rewrite take_ge, drop_ge by lia.
Qed.


End Facts.

(** ** The theorems on concrete files *)

Definition sample_file : string :=
  Py.unlines
    ["# basename          modelbase           ditherx dithery seeing norm airmass";
     "SIMDEX-obs-1_D1_046 SIMDEX-obs-1_D1_046   0.00   0.00    1.60  1.00  1.22";
     "SIMDEX-obs-1_D2_046 SIMDEX-obs-1_D2_046   0.61   1.07    1.60  1.00  1.22";
     "SIMDEX-obs-1_D3_046 SIMDEX-obs-1_D3_046   1.23   0.00    1.60  1.00  1.22"].

Definition sample_dither : dither :=
  let ks := ["D1"; "D2"; "D3"] in
  let bs := ["SIMDEX-obs-1_D1_046"; "SIMDEX-obs-1_D2_046"; "SIMDEX-obs-1_D3_046"] in
  let const (x : float) := list_to_map (zip ks [x; x; x]) in
  mkdither (list_to_map (zip ks bs))
           (list_to_map (zip ks [0.0; 0.61; 1.23]%float))
           (list_to_map (zip ks [0.0; 1.07; 0.0]%float))
           (const 1.6%float) (const 1.0%float) (const 1.22%float).

Lemma ParseDither_same_keys_sample :
  ParseDither Ref.float_of_string (fun _ => 0%nat) sample_file = Ok sample_dither
  /\ dom (basename sample_dither) = dom (dx sample_dither)
  /\ dom (dx sample_dither) = dom (dy sample_dither)
  /\ dom (dy sample_dither) = dom (seeing sample_dither)
  /\ dom (seeing sample_dither) = dom (norm sample_dither)
  /\ dom (norm sample_dither) = dom (airmass sample_dither).
Proof.
  assert (H : ParseDither Ref.float_of_string (fun _ => 0%nat) sample_file
              = Ok sample_dither) by (vm_compute; reflexivity).
  split; [exact H|].
  exact (ParseDither_same_keys Ref.float_of_string (fun _ => 0%nat)
           sample_file sample_dither H).
Defined.

(** After the first line of the sample file, a blank line changes nothing. *)
Lemma read_line_short_after_parsed_sample :
  exists st,
    read_line Ref.float_of_string (fun _ => 0%nat)
      "SIMDEX-obs-1_D1_046 SIMDEX-obs-1_D1_046   0.00   0.00    1.60  1.00  1.22"
      (None, init) = Ok st
    /\ read_line Ref.float_of_string (fun _ => 0%nat) (String Py.nl "") st = Ok st.
Proof.
  eexists. split; [vm_compute; reflexivity|].
  eapply (read_line_short_after_parsed Ref.float_of_string (fun _ => 0%nat)
            "SIMDEX-obs-1_D1_046 SIMDEX-obs-1_D1_046   0.00   0.00    1.60  1.00  1.22"
            (None, init));
    [vm_compute; reflexivity|reflexivity].
Defined.

(** [EmptyDither] has the one key D1, an empty basename, offsets 0 and
    seeing, normalisation and airmass 1. *)
Theorem EmptyDither_D1 :
  dom (basename EmptyDither) = {["D1"]}
  /\ basename EmptyDither = {["D1" := ""]}
  /\ dx EmptyDither = {["D1" := 0%float]} /\ dy EmptyDither = {["D1" := 0%float]}
  /\ seeing EmptyDither = {["D1" := 1%float]}
  /\ norm EmptyDither = {["D1" := 1%float]}
  /\ airmass EmptyDither = {["D1" := 1%float]}.
Proof.
  unfold EmptyDither, _no_dither, init; cbn [basename dx dy seeing norm airmass].
  rewrite !insert_empty, dom_singleton_L. by repeat split.
Qed.

(** A second field that holds the same key twice gives that key, whatever
    the order of the set; one that holds two keys gives one or the other
    with the order. *)
Theorem set_first_by_order (hash_first : list string -> nat) :
  set_first hash_first (Py.findall_Dd "obs_D1_046_D1") = Some "D1"
  /\ set_first (fun _ => 0%nat) (Py.findall_Dd "obs_D1_D2_046") = Some "D1"
  /\ set_first (fun _ => 1%nat) (Py.findall_Dd "obs_D1_D2_046") = Some "D2".
Proof. by repeat split. Qed.


(** ** The table of dither positions *)

(** [DitherCreator(fplane_file, shot, dither_positions)], as far as the
    positions go: the two dictionaries start empty. *)
Definition DitherCreator (float_of_string : string -> option float)
  (dither_positions : list (string * list cell)) : result creator :=
  _store_dither_positions float_of_string dither_positions (mkcreator ∅ ∅).

(** The x and the y shifts go in pairs: an identifier has both or none, and
    as many of the ones as of the others. *)
Definition paired (c : creator) : Prop :=
  forall key,
    match ifu_dxs c !! key, ifu_dys c !! key with
    | Some xs, Some ys => length xs = length ys
    | None, None => True
    | _, _ => False
    end.

Section TableFacts.

Variable float_of_string : string -> option float.

(** What a row that is stored has put in the dictionaries. *)
Lemma store_row_Ok c key tail c' :
  store_row float_of_string c (key, tail) = Ok c' ->
  exists fs n,
    length tail = (2 * n)%nat
    /\ conv_all (to_float float_of_string) tail = Ok fs
    /\ c' = mkcreator (<[key := take n fs]> (ifu_dxs c))
                      (<[key := drop n fs]> (ifu_dys c)).
Proof.
  unfold store_row.
  destruct (Nat.eqb_spec (length tail mod 2) 1) as [|Hmod]; [discriminate|].
  intros (xs & Hx & H)%bind_Ok. apply bind_Ok in H as (ys & Hy & [= <-]).
  pose proof (Nat.div_mod_eq (length tail) 2) as Hdiv.
  pose proof (Nat.mod_upper_bound (length tail) 2) as Hlt.
  set (n := (length tail / 2)%nat) in *.
  assert (Hfs : conv_all (to_float float_of_string) tail = Ok (xs ++ ys)).
  { rewrite <- (take_drop n tail) at 1. by rewrite conv_all_app, Hx, Hy. }
  apply conv_all_length in Hx. rewrite length_take in Hx.
  exists (xs ++ ys), n. split; [lia|]. split; [done|].
  by rewrite take_app_length', drop_app_length' by lia.
Qed.

Lemma store_row_paired c dp c' :
  store_row float_of_string c dp = Ok c' -> paired c -> paired c'.
Proof.
  destruct dp as [key tail].
  intros (fs & n & Hlen & Hfs%conv_all_length & ->)%store_row_Ok Hp key'.
  cbn [ifu_dxs ifu_dys]. destruct (decide (key = key')) as [<-|Hne].
  - rewrite !lookup_insert_eq, length_take, length_drop. lia.
  - rewrite !lookup_insert_ne by done. apply Hp.
Qed.

Lemma store_rows_app rows1 rows2 c :
  _store_dither_positions float_of_string (rows1 ++ rows2) c
  = do c1 <- _store_dither_positions float_of_string rows1 c;
    _store_dither_positions float_of_string rows2 c1.
Proof.
  revert c. induction rows1 as [|dp rows1 IH]; intros c; [reflexivity|].
  cbn [app _store_dither_positions].
  destruct (store_row float_of_string c dp); [apply IH|reflexivity].
Qed.

Lemma store_rows_paired rows c c' :
  _store_dither_positions float_of_string rows c = Ok c' ->
  paired c -> paired c'.
Proof.
  revert c. induction rows as [|dp rows IH]; intros c;
    cbn [_store_dither_positions].
  - by intros [= <-].
  - intros (c1 & H1 & H2)%bind_Ok Hp. eapply IH; [done|].
    by eapply store_row_paired.
Qed.

(** X2. In a [DitherCreator] that is built, every identifier has x shifts and y
    shifts, as many of the ones as of the others. *)
Theorem DitherCreator_paired rows c :
  DitherCreator float_of_string rows = Ok c -> paired c.
Proof. intros H. eapply store_rows_paired; [exact H|]. by intros key. Qed.

(** The rows leave alone the identifiers they do not name. *)
Lemma store_rows_other rows c c' key :
  _store_dither_positions float_of_string rows c = Ok c' ->
  key ∉ rows.*1 ->
  ifu_dxs c' !! key = ifu_dxs c !! key /\ ifu_dys c' !! key = ifu_dys c !! key.
Proof.
  revert c. induction rows as [|[k tail] rows IH]; intros c;
    cbn [_store_dither_positions].
  - by intros [= <-].
  - intros (c1 & H1 & H2)%bind_Ok Hk. rewrite fmap_cons in Hk.
    apply not_elem_of_cons in Hk as [Hne Hk].
    destruct (IH _ H2 Hk) as [-> ->].
    apply store_row_Ok in H1 as (fs & n & _ & _ & ->). cbn [ifu_dxs ifu_dys].
    by rewrite !lookup_insert_ne.
Qed.

(** X3. The last row of an identifier is the one that counts: when the table is
    stored, the identifier has the first half of the values of that row as x
    shifts and the second half as y shifts, whatever rows came before. *)
Theorem store_rows_last rows1 key tail rows2 c c' fs :
  _store_dither_positions float_of_string (rows1 ++ (key, tail) :: rows2) c
  = Ok c' ->
  key ∉ rows2.*1 ->
  conv_all (to_float float_of_string) tail = Ok fs ->
  ifu_dxs c' !! key = Some (take (length tail / 2) fs)
  /\ ifu_dys c' !! key = Some (drop (length tail / 2) fs).
Proof.
  rewrite store_rows_app. intros (c1 & _ & H)%bind_Ok Hk Hfs.
  cbn [_store_dither_positions] in H. apply bind_Ok in H as (c2 & H2 & H3).
  destruct (store_rows_other _ _ _ _ H3 Hk) as [-> ->].
  apply store_row_Ok in H2 as (fs' & n & Hlen & Hfs' & ->).
  rewrite Hfs in Hfs'. injection Hfs' as <-. cbn [ifu_dxs ifu_dys].
  rewrite !lookup_insert_eq, Hlen.
  replace (2 * n / 2)%nat with n; [done|].
  symmetry. rewrite Nat.mul_comm. apply Nat.div_mul. lia.
Qed.

Local Set Warnings "-clear-no-such-hyp".

(** X4. The identifiers of the table that is stored are those the dictionaries
    had and those of the rows. *)
Theorem store_rows_keys rows c c' :
  _store_dither_positions float_of_string rows c = Ok c' ->
  dom (ifu_dxs c') = dom (ifu_dxs c) ∪ list_to_set rows.*1
  /\ dom (ifu_dys c') = dom (ifu_dys c) ∪ list_to_set rows.*1.
Proof.
  revert c. induction rows as [|[k tail] rows IH]; intros c;
    cbn [_store_dither_positions].
  - intros [= <-]. cbn. split; set_solver.
  - intros (c1 & H1 & H2)%bind_Ok. destruct (IH _ H2) as [-> ->].
    apply store_row_Ok in H1 as (fs & n & _ & _ & ->). cbn [ifu_dxs ifu_dys].
    rewrite !dom_insert_L, fmap_cons. cbn. split; set_solver.
Qed.

End TableFacts.

Definition two_rows : list (string * list cell) :=
  [("000", [CStr "0.0"; CStr "1.0"]);
   ("001", [CFloat 0.5; CFloat 0.25; CFloat 1.5; CFloat 1.25]);
   ("000", [CStr "0.0"; CStr "-1.27"; CStr "0.0"; CStr "0.73"])].

Definition two_rows_stored : creator :=
  mkcreator {["000" := [0.0; -1.27]%float; "001" := [0.5; 0.25]%float]}
            {["000" := [0.0; 0.73]%float; "001" := [1.5; 1.25]%float]}.

Lemma DitherCreator_two_rows :
  DitherCreator Ref.float_of_string two_rows = Ok two_rows_stored.
Proof. vm_compute. reflexivity. Qed.

Lemma DitherCreator_paired_two_rows :
  DitherCreator Ref.float_of_string two_rows = Ok two_rows_stored
  /\ paired two_rows_stored.
Proof.
  split; [exact DitherCreator_two_rows|].
  exact (DitherCreator_paired Ref.float_of_string two_rows two_rows_stored
           DitherCreator_two_rows).
Defined.

Lemma store_rows_last_two_rows :
  ifu_dxs two_rows_stored !! "000" = Some [0.0; -1.27]%float
  /\ ifu_dys two_rows_stored !! "000" = Some [0.0; 0.73]%float.
Proof.
  exact (store_rows_last Ref.float_of_string
           [("000", [CStr "0.0"; CStr "1.0"]);
            ("001", [CFloat 0.5; CFloat 0.25; CFloat 1.5; CFloat 1.25])]
           "000" [CStr "0.0"; CStr "-1.27"; CStr "0.0"; CStr "0.73"] []
           (mkcreator ∅ ∅) two_rows_stored
           [0.0; -1.27; 0.0; 0.73]%float
           DitherCreator_two_rows (not_elem_of_nil _) eq_refl).
Defined.

Lemma store_rows_keys_two_rows :
  dom (ifu_dxs two_rows_stored) = ∅ ∪ list_to_set two_rows.*1
  /\ dom (ifu_dys two_rows_stored) = ∅ ∪ list_to_set two_rows.*1.
Proof.
  exact (store_rows_keys Ref.float_of_string two_rows (mkcreator ∅ ∅)
           two_rows_stored DitherCreator_two_rows).
Defined.

(** ** The key of a line, and files without a line of data *)

Section KeyFacts.

Variable float_of_string : string -> option float.
Variable hash_first : list string -> nat.

(** X5. A line that unpacks and is taken in is filed under a key that is one of
    the matches of the pattern in its second field, the only one when all
    the matches are the same: the base name of the line becomes the base
    name of that key, and its two shifts the shifts of that key, whatever
    the dictionaries held for it. *)
Theorem read_line_key l st loc' d' v :
  unpack (Py.split l) = Some v ->
  read_line float_of_string hash_first l st = Ok (loc', d') ->
  exists k,
    k ∈ Py.findall_Dd (_d v)
    /\ (forall k0, Py.distinct (Py.findall_Dd (_d v)) = [k0] -> k = k0)
    /\ loc' = Some (mklocals (_bn v) k (_x v) (_y v) (_seeing v) (_norm v)
                      (_airmass v))
    /\ basename d' = <[k := _bn v]> (basename st.2)
    /\ holds float_of_string (dx d') k (_x v)
    /\ holds float_of_string (dy d') k (_y v).
Proof.
  intros Hu. unfold read_line. destruct st as [loc d]. rewrite Hu.
  destruct (set_first hash_first (Py.findall_Dd (_d v))) as [k|] eqn:Ek;
    [|discriminate].
  cbn [_bn _x _y _seeing _norm _airmass].
  intros H.
  apply bind_Ok in H as (x & Hx%conv_Ok & H).
  apply bind_Ok in H as (y & Hy%conv_Ok & H).
  apply bind_Ok in H as (se & _ & H).
  apply bind_Ok in H as (n & _ & H).
  apply bind_Ok in H as (a & _ & H).
  injection H as <- <-. exists k.
  split; [by eapply set_first_elem|].
  split.
  { intros k0 Hk0. unfold set_first in Ek. rewrite Hk0 in Ek.
    apply list_elem_of_lookup_2 in Ek. by apply list_elem_of_singleton in Ek. }
  split; [done|]. split; [done|]. unfold holds. cbn [dx dy].
  split; [exists x|exists y]; by rewrite lookup_insert_eq.
Qed.

Lemma drop_comments_all ls :
  Forall (fun l => FileTools.is_comment l = true) ls ->
  FileTools.drop_comments ls = [].
Proof.
  induction 1 as [|l ls Hl _ IH]; [done|]. cbn [FileTools.drop_comments].
  by rewrite Hl.
Qed.

(** A text that holds comments only, or nothing, is parsed without exception
    and gives no key: the dictionaries are empty. *)
Lemma only_comments_text text :
  Forall (fun l => FileTools.is_comment l = true) (Py.readlines text) ->
  ParseDither float_of_string hash_first text = Ok init.
Proof.
  intros H. unfold ParseDither, _read_dither.
  rewrite FileTools.remaining_skip_comments.
  change (FileTools.remaining (FileTools.mkfile text 0)) with text.
  by rewrite (drop_comments_all _ H).
Qed.

End KeyFacts.

Lemma read_line_key_sample :
  exists k,
    k ∈ ["D2"; "D2"]
    /\ (forall k0, ["D2"] = [k0] -> k = k0)
    /\ Some (mklocals "SIMDEX-obs-1_D1_046" "D2" "0.61" "1.07" "1.60" "1.00" "1.22")
       = Some (mklocals "SIMDEX-obs-1_D1_046" k "0.61" "1.07" "1.60" "1.00" "1.22")
    /\ basename
         (mkdither {["D2" := "SIMDEX-obs-1_D1_046"]} {["D2" := 0.61%float]}
            {["D2" := 1.07%float]} {["D2" := 1.6%float]} {["D2" := 1%float]}
            {["D2" := 1.22%float]})
       = <[k := "SIMDEX-obs-1_D1_046"]> ∅
    /\ holds Ref.float_of_string {["D2" := 0.61%float]} k "0.61"
    /\ holds Ref.float_of_string {["D2" := 1.07%float]} k "1.07".
Proof.
  exact (read_line_key Ref.float_of_string (fun _ => 0%nat)
           "SIMDEX-obs-1_D1_046 D2_model_D2 0.61 1.07 1.60 1.00 1.22"
           (None, init) _ _
           (mklocals "SIMDEX-obs-1_D1_046" "D2_model_D2" "0.61" "1.07" "1.60"
              "1.00" "1.22")
           eq_refl eq_refl).
Defined.

End Dither.

(* ===================================================================== *)
(** * pyhetdex.het.ifu_centers *)
(* ===================================================================== *)

Module IFUCenter.

(** The per-channel dictionaries of [IFUCenter]. They are [defaultdict]s: a
    channel that is not a key reads as the empty list, or as the count 0. *)
Record ifu : Type := mkifu {
  xifu : gmap string (list float);
  yifu : gmap string (list float);
  n_fibers : gmap string Z;
  fib_number : gmap string (list Z);
  throughput : gmap string (list float)
}.

(** The dictionaries as [IFUCenter.__init__] creates them. *)
Definition init : ifu := mkifu ∅ ∅ ∅ ∅ ∅.

(** [m[k].append(x)] on a [defaultdict(list)] *)
Definition append {A} (k : string) (x : A) (m : gmap string (list A))
  : gmap string (list A) :=
  <[k := default [] (m !! k) ++ [x]]> m.

(** [m[k] += 1] on a [defaultdict(int)] *)
Definition incr (k : string) (m : gmap string Z) : gmap string Z :=
  <[k := (default 0 (m !! k) + 1)%Z]> m.

Definition zero_throughput_msg : string :=
  "In the fiber mapping file there is at least one fiber with positive fiber number and 0 throughput. What should I do?".

Section Builtins.

(** [float(s)] and [int(s)] *)
Variable float_of_string : string -> option float.
Variable int_of_string : string -> option Z.

(** One iteration of the loop of [_read_ifu_map] on the line [line]. *)
Definition read_row (line : string) (m : ifu) : result ifu :=
  if Py.startswith "#" line then Ok m
  else
    (* _x, _y, _channel, _fib_n, _t = line.split()[1:6] *)
    match take 5 (drop 1 (Py.split line)) with
    | [_x; _y; _channel; _fib_n; _t] =>
        match int_of_string _fib_n with
        | None => Ok m
        | Some _fib_n =>
            if (0 <? _fib_n)%Z
            then
              do t <- conv (float_of_string _t);
              if PrimFloat.ltb t 0
              then Raise (IFUCenterError zero_throughput_msg)
              else
                let n_fibers' := incr _channel (n_fibers m) in
                do x <- conv (float_of_string _x);
                do y <- conv (float_of_string _y);
                Ok (mkifu (append _channel x (xifu m))
                          (append _channel y (yifu m))
                          n_fibers'
                          (append _channel _fib_n (fib_number m))
                          (append _channel t (throughput m)))
            else Ok m
        end
    | _ => Raise ValueError
    end.

(** [_read_ifu_map]: [for line in f: ...] over the lines left in the file. *)
Fixpoint read_rows (ls : list string) (m : ifu) : result ifu :=
  match ls with
  | [] => Ok m
  | l :: ls' => do m' <- read_row l m; read_rows ls' m'
  end.

Definition _read_ifu_map (f : FileTools.file) (m : ifu) : result ifu :=
  read_rows (Py.readlines (FileTools.remaining f)) m.

End Builtins.

(** ** Rows by fiber number and throughput *)

Section Facts.

Variable float_of_string : string -> option float.
Variable int_of_string : string -> option Z.

Local Abbreviation read_row := (read_row float_of_string int_of_string).
Local Abbreviation read_rows := (read_rows float_of_string int_of_string).

(** The five fields a row is unpacked into. *)
Lemma row_fields line fid x y ch fib t rest :
  Py.split line = fid :: x :: y :: ch :: fib :: t :: rest ->
  take 5 (drop 1 (Py.split line)) = [x; y; ch; fib; t].
Proof. by intros ->. Qed.

Lemma read_rows_app l1 l2 m :
  read_rows (l1 ++ l2) m = do m' <- read_rows l1 m; read_rows l2 m'.
Proof.
  revert m. induction l1 as [|l l1 IH]; intros m; [reflexivity|].
  cbn [app IFUCenter.read_rows]. destruct (read_row l m); [apply IH|reflexivity].
Qed.

(** A row that leaves the dictionaries as they are can be taken out of the
    file without changing the result. *)
Lemma read_rows_skip l1 line l2 m :
  (forall m', read_row line m' = Ok m') ->
  read_rows (l1 ++ line :: l2) m = read_rows (l1 ++ l2) m.
Proof.
  intros Hskip. rewrite !read_rows_app. destruct (read_rows l1 m) as [m'|]; [|done].
  cbn [bind IFUCenter.read_rows]. by rewrite Hskip.
Qed.


End Facts.

(** ** The theorems on concrete rows *)

Definition row_dead : string := "0001  -19.8000  -19.6876 L -5    0.500".
Definition row_negative : string := "0001  -19.8000  -19.6876 L  3   -0.1".
Definition row_zero : string := "0001  -19.8000  -19.6876 L  3    0.0".


(** C3. A row with a positive fiber number and a throughput of zero does not
    raise: [read_row] accepts it and stores it in the channel's lists. *)
Theorem read_row_zero_throughput :
  read_row Ref.float_of_string Ref.int_of_string
    "0001  -19.8000  -19.6876 L 0001    0.000" init
  = Ok (mkifu {["L" := [-19.8]%float]} {["L" := [-19.6876]%float]}
              {["L" := 1%Z]} {["L" := [1%Z]]} {["L" := [0.0]%float]}).
Proof. reflexivity. Qed.

(** ** What the fiber map holds for a channel *)

(** [m[ch]] on a [defaultdict(list)], and on a [defaultdict(int)]. *)
Definition chan {A} (m : gmap string (list A)) (ch : string) : list A :=
  default [] (m !! ch).
Definition fibers (m : gmap string Z) (ch : string) : Z := default 0%Z (m !! ch).

(** The dictionaries go together: they have the same channels, and for each
    channel as many x, y, fiber numbers and throughputs as fibers counted;
    the fiber numbers are positive and no throughput is below zero. *)
Record coherent (m : ifu) : Prop := mkcoherent {
  coherent_xifu : dom (xifu m) = dom (n_fibers m);
  coherent_yifu : dom (yifu m) = dom (n_fibers m);
  coherent_fib : dom (fib_number m) = dom (n_fibers m);
  coherent_thr : dom (throughput m) = dom (n_fibers m);
  coherent_nx : forall ch,
    Z.of_nat (length (chan (xifu m) ch)) = fibers (n_fibers m) ch;
  coherent_ny : forall ch,
    Z.of_nat (length (chan (yifu m) ch)) = fibers (n_fibers m) ch;
  coherent_nf : forall ch,
    Z.of_nat (length (chan (fib_number m) ch)) = fibers (n_fibers m) ch;
  coherent_nt : forall ch,
    Z.of_nat (length (chan (throughput m) ch)) = fibers (n_fibers m) ch;
  coherent_pos : forall ch, Forall (fun n => (0 < n)%Z) (chan (fib_number m) ch);
  coherent_thr0 : forall ch,
    Forall (fun t => PrimFloat.ltb t 0 = false) (chan (throughput m) ch)
}.

Lemma chan_append {A} (m : gmap string (list A)) (ch ch' : string) (x : A) :
  chan (append ch x m) ch'
  = if decide (ch = ch') then chan m ch ++ [x] else chan m ch'.
Proof.
  unfold chan, append. destruct (decide (ch = ch')) as [<-|Hne].
  - by rewrite lookup_insert_eq.
  - by rewrite lookup_insert_ne.
Qed.

Lemma fibers_incr (m : gmap string Z) (ch ch' : string) :
  fibers (incr ch m) ch'
  = if decide (ch = ch') then (fibers m ch + 1)%Z else fibers m ch'.
Proof.
  unfold fibers, incr. destruct (decide (ch = ch')) as [<-|Hne].
  - by rewrite lookup_insert_eq.
  - by rewrite lookup_insert_ne.
Qed.

Lemma coherent_init : coherent init.
Proof. by split. Qed.

Section MapFacts.

Variable float_of_string : string -> option float.
Variable int_of_string : string -> option Z.

Lemma read_row_coherent line m m' :
  read_row float_of_string int_of_string line m = Ok m' ->
  coherent m -> coherent m'.
Proof.
  unfold read_row. destruct (Py.startswith "#" line); [by intros [= <-]|].
  destruct (take 5 (drop 1 (Py.split line)))
    as [|x [|y [|ch [|fib [|t [|? ?]]]]]]; try discriminate.
  destruct (int_of_string fib) as [n|]; [|by intros [= <-]].
  destruct (Z.ltb_spec 0 n) as [Hn|Hn]; [|by intros [= <-]].
  intros (tv & _ & H)%bind_Ok.
  destruct (PrimFloat.ltb tv 0) eqn:Ht; [discriminate|].
  apply bind_Ok in H as (xv & _ & H). apply bind_Ok in H as (yv & _ & [= <-]).
  intros [H1 H2 H3 H4 H5 H6 H7 H8 H9 H10].
  split; cbn [xifu yifu n_fibers fib_number throughput];
    try (unfold append, incr; rewrite !dom_insert_L; congruence);
    intros ch'; rewrite ?chan_append, ?fibers_incr;
    destruct (decide (ch = ch')) as [<-|Hne]; try done;
    rewrite ?length_app; cbn [length];
    try (specialize (H5 ch); specialize (H6 ch); specialize (H7 ch);
         specialize (H8 ch); lia).
  - apply Forall_app. split; [apply H9|by constructor].
  - apply Forall_app. split; [apply H10|by constructor].
Qed.

Lemma read_rows_coherent ls m m' :
  read_rows float_of_string int_of_string ls m = Ok m' ->
  coherent m -> coherent m'.
Proof.
  revert m. induction ls as [|l ls IH]; intros m; cbn [read_rows].
  - by intros [= <-].
  - intros (m1 & H1 & H2)%bind_Ok Hm. eapply IH; [done|].
    by eapply read_row_coherent.
Qed.

(** When [_read_ifu_map] returns on the dictionaries of a new [IFUCenter],
    every channel has as many x positions, y positions, fiber numbers and
    throughputs as fibers counted, every fiber number is positive and no
    throughput is below zero. *)
Theorem read_ifu_map_coherent f m :
  _read_ifu_map float_of_string int_of_string f init = Ok m -> coherent m.
Proof. intros H. eapply read_rows_coherent; [exact H|apply coherent_init]. Qed.

(** X7. A row that is not a comment and has fewer than six fields, a blank line
    for one, is a [ValueError]. *)
Theorem read_row_short line m :
  Py.startswith "#" line = false ->
  (length (Py.split line) < 6)%nat ->
  read_row float_of_string int_of_string line m = Raise ValueError.
Proof.
  intros Hc Hlen. unfold read_row. rewrite Hc.
  destruct (Py.split line) as [|a [|b [|c [|d [|e [|g ?]]]]]]; cbn in *;
    try reflexivity; lia.
Qed.

(** X8. A comment line, or a row whose fiber number [int()] does not read, can be
    taken out of the file: what the fiber map gives is the same, result or
    exception. *)
Theorem read_rows_dead_row l1 line l2 m :
  Py.startswith "#" line = true
  \/ (exists fid x y ch fib t rest,
        Py.split line = fid :: x :: y :: ch :: fib :: t :: rest
        /\ int_of_string fib = None) ->
  read_rows float_of_string int_of_string (l1 ++ line :: l2) m
  = read_rows float_of_string int_of_string (l1 ++ l2) m.
Proof.
  intros H. apply read_rows_skip. intros m'. unfold read_row.
  destruct H as [->|(fid & x & y & ch & fib & t & rest & Hs & Hi)]; [done|].
  destruct (Py.startswith "#" line); [done|].
  by rewrite (row_fields _ _ _ _ _ _ _ _ Hs), Hi.
Qed.

End MapFacts.

(** ** The header of the file *)

Definition bundle_msg : string := "Failed to find IFU bundle ID in file header".

(** The scalar attributes [_read_header] sets. *)
Record header : Type := mkheader {
  ifuid : Z;
  fiber_d : float;
  fiber_sep : float;
  nfibx : Z;
  nfiby : Z
}.

(** A line that is a comment for the header loop, which strips the line
    first, and a comment that names the bundle. *)
Definition is_header_comment (l : string) : bool :=
  Py.startswith "#" (Py.strip l).
Definition names_bundle (l : string) : bool :=
  let line := Py.strip (Py.drop_str 1 (Py.strip l)) in
  Py.startswith "IFU " line || Py.startswith "VIFU" line.

Section Header.

Variable float_of_string : string -> option float.
Variable int_of_string : string -> option Z.

(** The [while True] loop of [_read_header]. [ls] are the lines left in the
    file [f], which the calls of [f.readline()] give one after the other
    ([FileTools.readline_next]); at the end of the file the line read is
    empty, and no comment. *)
Fixpoint read_bundle_id (ls : list string) (f : FileTools.file)
  : result (Z * FileTools.file) :=
  match ls with
  | [] => Raise (IFUCenterError bundle_msg)
  | l :: ls' =>
      let f := FileTools.seek f (FileTools.pos f + String.length l) in
      let line := Py.strip l in
      if negb (Py.startswith "#" line) then Raise (IFUCenterError bundle_msg)
      else
        let line := Py.strip (Py.drop_str 1 line) in
        if negb (Py.startswith "IFU " line) && negb (Py.startswith "VIFU" line)
        then read_bundle_id ls' f
        else
          do id <- conv (int_of_string (Py.drop_str 4 line));
          Ok (id, FileTools.skip_comments f)
  end.

(** [a, b = [cast(i) for i in line.split()]] *)
Definition two {A} (cast : string -> option A) (line : string) : result (A * A) :=
  do l <- conv_all cast (Py.split line);
  match l with
  | [a; b] => Ok (a, b)
  | _ => Raise ValueError
  end.

Definition _read_header (f : FileTools.file) : result (header * FileTools.file) :=
  do (id, f) <- read_bundle_id (Py.readlines (FileTools.remaining f)) f;
  let '(line, f) := FileTools.readline f in
  do (d, sep) <- two float_of_string line;
  let f := FileTools.skip_comments f in
  let '(line, f) := FileTools.readline f in
  do (nx, ny) <- two int_of_string line;
  let f := FileTools.skip_comments f in
  Ok (mkheader id d sep nx ny, f).

(** [IFUCenter(ifu_center_file)] for a file of text [text]: the header, then
    the fiber map. *)
Definition _read_ifu (text : string) : result (header * ifu) :=
  do (h, f) <- _read_header (FileTools.mkfile text 0);
  do m <- _read_ifu_map float_of_string int_of_string f init;
  Ok (h, m).

End Header.

Section HeaderFacts.

Variable float_of_string : string -> option float.
Variable int_of_string : string -> option Z.

Lemma read_bundle_id_none ls1 ls2 f :
  Forall (fun l => is_header_comment l = true /\ names_bundle l = false) ls1 ->
  match ls2 with
  | [] => True
  | l :: _ => is_header_comment l = false
  end ->
  read_bundle_id int_of_string (ls1 ++ ls2) f = Raise (IFUCenterError bundle_msg).
Proof.
  intros H1 H2. revert f. induction H1 as [|l ls1 [Hc Hn] _ IH]; intros f.
  - destruct ls2 as [|l ls2]; [done|]. cbn [app read_bundle_id].
    unfold is_header_comment in H2. by rewrite H2.
  - cbn [app read_bundle_id]. unfold is_header_comment in Hc. rewrite Hc.
    cbn [negb]. unfold names_bundle in Hn.
    apply orb_false_iff in Hn as [-> ->]. cbn [negb andb]. apply IH.
Qed.

(** X9. When no comment names the bundle before the first line that is not a
    comment, or before the end of the file, [_read_header] raises
    [IFUCenterError]: so for an empty file, and for a file that starts with a
    line of data. *)
Theorem read_header_no_bundle_id f ls1 ls2 :
  Py.readlines (FileTools.remaining f) = ls1 ++ ls2 ->
  Forall (fun l => is_header_comment l = true /\ names_bundle l = false) ls1 ->
  match ls2 with
  | [] => True
  | l :: _ => is_header_comment l = false
  end ->
  _read_header float_of_string int_of_string f
  = Raise (IFUCenterError bundle_msg).
Proof.
  intros Hls H1 H2. unfold _read_header.
  by rewrite Hls, (read_bundle_id_none _ _ _ H1 H2).
Qed.

(** X11. The fiber map of an [IFUCenter] that is built is coherent: every channel
    has as many x positions, y positions, fiber numbers and throughputs as
    fibers counted, every fiber number is positive and no throughput is
    below zero. *)
Theorem read_ifu_coherent text h m :
  _read_ifu float_of_string int_of_string text = Ok (h, m) -> coherent m.
Proof.
  unfold _read_ifu. intros ([h1 f1] & _ & H)%bind_Ok.
  apply bind_Ok in H as (m1 & Hm & [= _ <-]).
  by eapply read_ifu_map_coherent.
Qed.

End HeaderFacts.

(** ** The theorems on the file of the documentation *)

Definition sample_file : string :=
  Py.unlines
    ["# HETDEX IFU description file";
     "#";
     "# IFU 00001";
     "#";
     "# FIBERD   FIBERSEP";
     "1.55      2.20";
     "# NFIBX NFIBY";
     "20 23";
     "#";
     "# col 6: relative throughput at fiducial wavelength";
     "#";
     "0001  -19.8000  -19.6876 L 0001    1.000";
     "0002  -17.6000  -19.6876 L 0002    1.000";
     "0447   17.6000   19.6876 R 0223    1.000"].

Definition sample_header : header := mkheader 1 1.55 2.20 20 23.

Definition sample_map : ifu :=
  mkifu {["L" := [-19.8; -17.6]%float; "R" := [17.6]%float]}
        {["L" := [-19.6876; -19.6876]%float; "R" := [19.6876]%float]}
        {["L" := 2%Z; "R" := 1%Z]}
        {["L" := [1; 2]%Z; "R" := [223%Z]]}
        {["L" := [1.0; 1.0]%float; "R" := [1.0]%float]}.

Lemma read_ifu_sample :
  _read_ifu Ref.float_of_string Ref.int_of_string sample_file
  = Ok (sample_header, sample_map).
Proof. vm_compute. reflexivity. Qed.

Lemma read_ifu_coherent_sample : coherent sample_map.
Proof.
  exact (read_ifu_coherent Ref.float_of_string Ref.int_of_string sample_file
           sample_header sample_map read_ifu_sample).
Defined.

Lemma read_header_no_bundle_id_sample :
  _read_header Ref.float_of_string Ref.int_of_string
    (FileTools.mkfile
       (Py.unlines ["# HETDEX IFU description file"; "1.55      2.20"]) 0)
  = Raise (IFUCenterError bundle_msg).
Proof.
  apply (read_header_no_bundle_id Ref.float_of_string Ref.int_of_string _
           [Py.unlines ["# HETDEX IFU description file"]]
           [Py.unlines ["1.55      2.20"]]).
  - reflexivity.
  - repeat constructor.
  - reflexivity.
Defined.

Lemma read_row_short_blank :
  read_row Ref.float_of_string Ref.int_of_string (String Py.nl "") init
  = Raise ValueError.
Proof.
  apply (read_row_short Ref.float_of_string Ref.int_of_string); [reflexivity|].
  vm_compute. lia.
Defined.

Lemma read_rows_dead_row_sample :
  read_rows Ref.float_of_string Ref.int_of_string
    (["0001  -19.8000  -19.6876 L 0001    1.000"]
     ++ "0002  -17.6000  -19.6876 L nan    1.000"
     :: ["0447   17.6000   19.6876 R 0223    1.000"]) init
  = read_rows Ref.float_of_string Ref.int_of_string
      (["0001  -19.8000  -19.6876 L 0001    1.000"]
       ++ ["0447   17.6000   19.6876 R 0223    1.000"]) init.
Proof.
  apply (read_rows_dead_row Ref.float_of_string Ref.int_of_string).
  right. by exists "0002", "-17.6000", "-19.6876", "L", "nan", "1.000", [].
Defined.

End IFUCenter.

(* ===================================================================== *)
(** * pyhetdex.tools.configuration *)
(* ===================================================================== *)

Module Configuration.

(** ** The configuration store of [configparser]

    [ConfigParser] of pyhetdex adds methods to [configparser.ConfigParser]
    and keeps its store: the dictionary [_sections] of the sections, each a
    dictionary from option to value, and the dictionary [_defaults] of the
    section named [default_section]. *)
Record conf : Type := mkconf {
  _sections : gmap string (gmap string string);
  _defaults : gmap string string
}.

Definition default_section : string := "DEFAULT".

(** [k in d] *)
Definition present {A} (o : option A) : bool :=
  match o with
  | Some _ => true
  | None => false
  end.

(** The values found as attributes of [args]: [None], strings, integers and
    booleans, and lists of them. *)
Inductive atom : Type :=
  | ANone
  | AStr (s : string)
  | AInt (z : Z)
  | ABool (b : bool).

Inductive value : Type :=
  | Atom (a : atom)
  | List (l : list atom).

(** [str(v)] *)
Definition str_atom (a : atom) : string :=
  match a with
  | ANone => "None"
  | AStr s => s
  | AInt z => Py.str_of_Z z
  | ABool true => "True"
  | ABool false => "False"
  end.

(** [', '.join(l)] *)
Fixpoint join_comma (l : list string) : string :=
  match l with
  | [] => ""
  | [s] => s
  | s :: l' => s +:+ ", " +:+ join_comma l'
  end.

(** The text [override_conf] makes of a value: the items of a list joined by
    a comma and a space, and [str(value)] otherwise. *)
Definition str_value (v : value) : string :=
  match v with
  | List l => join_comma (map str_atom l)
  | Atom a => str_atom a
  end.

(** [a == b]: a boolean equals the integer 1 or 0. *)
Definition atom_eq (a b : atom) : bool :=
  match a, b with
  | ANone, ANone => true
  | AStr s, AStr t => String.eqb s t
  | AInt x, AInt y => Z.eqb x y
  | ABool x, ABool y => Bool.eqb x y
  | AInt x, ABool y | ABool y, AInt x => Z.eqb x (if y then 1 else 0)
  | _, _ => false
  end.

Fixpoint atoms_eq (l l' : list atom) : bool :=
  match l, l' with
  | [], [] => true
  | a :: l, b :: l' => atom_eq a b && atoms_eq l l'
  | _, _ => false
  end.

Definition value_eq (v w : value) : bool :=
  match v, w with
  | Atom a, Atom b => atom_eq a b
  | List l, List l' => atoms_eq l l'
  | _, _ => false
  end.

(** [v in nones] *)
Definition py_in (v : value) (nones : list value) : bool :=
  existsb (fun n => value_eq n v) nones.

(** The default [nones] of [override_conf]: [[None, []]]. *)
Definition default_nones : list value := [Atom ANone; List []].

(** The results of a cast of [get_list] and [get_list_of_list]. *)
Inductive pyval : Type :=
  | PNone
  | PStr (s : string)
  | PBool (b : bool)
  | PInt (z : Z)
  | PFloat (x : float).

(** The argument [cast_to]: one of the types [str], [int], [float] and
    [bool], or another callable. *)
Inductive cast : Type :=
  | cast_str
  | cast_int
  | cast_float
  | cast_bool
  | cast_fun (f : string -> result pyval).

(** [BOOLEAN_STATES] *)
Definition BOOLEAN_STATES : gmap string bool :=
  list_to_map [("1", true); ("yes", true); ("true", true); ("on", true);
               ("0", false); ("no", false); ("false", false); ("off", false)].

(** [_to_boolean]: a key that is missing is a [ValueError]. *)
Definition _to_boolean (value : string) : result pyval :=
  match BOOLEAN_STATES !! Py.lower value with
  | Some b => Ok (PBool b)
  | None => Raise ValueError
  end.

(** [[f(x) for x in l]], which raises what the first failing call raises. *)
Fixpoint map_result {A B} (f : A -> result B) (l : list A) : result (list B) :=
  match l with
  | [] => Ok []
  | a :: l' => do b <- f a; do bs <- map_result f l'; Ok (b :: bs)
  end.

Section Parser.

(** [optionxform], the normal form of an option name (by default the name in
    lower case), and the two hooks of the interpolation of the parser:
    [before_get] gives the value to return for a stored value, [None] when
    it raises its [InterpolationError]; [before_set] gives the value to
    store, [None] when it refuses the value with a [ValueError]. *)
Variable optionxform : string -> string.
Variable before_get : conf -> string -> string -> string -> option string.
Variable before_set : string -> option string.

(** [float(s)] and [int(s)] *)
Variable float_of_string : string -> option float.
Variable int_of_string : string -> option Z.

(** [section in conf] *)
Definition contains (c : conf) (section : string) : bool :=
  String.eqb section default_section || present (_sections c !! section).

(** [conf.has_option(section, option)] *)
Definition has_option (c : conf) (section option : string) : bool :=
  if String.eqb section "" || String.eqb section default_section
  then present (_defaults c !! optionxform option)
  else match _sections c !! section with
       | None => false
       | Some d => present (d !! optionxform option)
                   || present (_defaults c !! optionxform option)
       end.

(** [conf.add_section(section)] *)
Definition add_section (c : conf) (section : string) : result conf :=
  if String.eqb section default_section then Raise ValueError
  else if present (_sections c !! section)
       then Raise (DuplicateSectionError section)
       else Ok (mkconf (<[section := ∅]> (_sections c)) (_defaults c)).

(** [_unify_values]: the options of a section, over the defaults. *)
Definition _unify_values (c : conf) (section : string)
  : result (gmap string string) :=
  match _sections c !! section with
  | Some sectiondict => Ok (sectiondict ∪ _defaults c)
  | None =>
      if String.eqb section default_section then Ok (_defaults c)
      else Raise (NoSectionError section)
  end.

(** [conf.get(section, option)] *)
Definition get (c : conf) (section option : string) : result string :=
  do d <- _unify_values c section;
  let option := optionxform option in
  match d !! option with
  | None => Raise (NoOptionError option section)
  | Some value =>
      match before_get c section option value with
      | Some value => Ok value
      | None => Raise InterpolationError
      end
  end.

(** [conf.set(section, option, value)] *)
Definition set (c : conf) (section option value : string) : result conf :=
  do value <- (if String.eqb value "" then Ok value else conv (before_set value));
  if String.eqb section "" || String.eqb section default_section
  then Ok (mkconf (_sections c) (<[optionxform option := value]> (_defaults c)))
  else match _sections c !! section with
       | Some sectdict =>
           Ok (mkconf (<[section := <[optionxform option := value]> sectdict]>
                         (_sections c))
                      (_defaults c))
       | None => Raise (NoSectionError section)
       end.

(** The lookup errors [override_conf] catches. *)
Definition is_lookup_error (e : exn) : bool :=
  match e with
  | NoSectionError _ | NoOptionError _ _ => true
  | _ => false
  end.

(** One iteration of the loop of [override_conf], for the attribute [attr]
    of value [v]: the store after it, or the exception that leaves the
    loop. *)
Definition override_attr (prefix sep : string) (nones : list value)
  (c : conf) (attr : string) (v : value) : result conf :=
  let _prefix := prefix +:+ sep in
  if negb (Py.startswith _prefix attr) then Ok c
  else match Py.split_sep sep attr with
       | Ok [_; section; option] =>
           if py_in v nones then Ok c
           else
             let value := str_value v in
             match (do _ <- get c section option; set c section option value) with
             | Ok c' => Ok c'
             | Raise e => if is_lookup_error e then Ok c else Raise e
             end
       | _ => Ok c
       end.

(** [override_conf]. [args] lists the attributes of the object, in the
    order of [dir(args)], each with its value. The store is changed in
    place: the result is the store as the call leaves it, and the exception
    when it raises. *)
Fixpoint override_conf (c : conf) (args : list (string * value))
  (prefix sep : string) (nones : list value) : conf * option exn :=
  match args with
  | [] => (c, None)
  | (attr, v) :: rest =>
      match override_attr prefix sep nones c attr v with
      | Ok c' => override_conf c' rest prefix sep nones
      | Raise e => (c, Some e)
      end
  end.

(** [cast_to(s)], with [_to_boolean] in the place of [bool]. *)
Definition apply_cast (cast_to : cast) (s : string) : result pyval :=
  match cast_to with
  | cast_str => Ok (PStr s)
  | cast_int => do z <- conv (int_of_string s); Ok (PInt z)
  | cast_float => do x <- conv (float_of_string s); Ok (PFloat x)
  | cast_bool => _to_boolean s
  | cast_fun f => f s
  end.

Definition get_list_of_list (c : conf) (section option : string)
  (use_default : bool) (cast_to : cast) : result (list (list pyval)) :=
  match get c section option with
  | Raise (NoOptionError o s) =>
      if use_default then Ok [[PNone; PNone]] else Raise (NoOptionError o s)
  | Raise e => Raise e
  | Ok value =>
      if String.eqb (Py.strip value) "" then Ok [[PNone; PNone]]
      else
        map_result
          (fun v => map_result (fun i => apply_cast cast_to (Py.strip i))
                      (Py.split_char "-" v))
          (Py.split_char "," value)
  end.

Definition get_list (c : conf) (section option : string)
  (use_default : bool) (cast_to : cast) : result (list pyval) :=
  match get c section option with
  | Raise (NoOptionError o s) =>
      if use_default then Ok [] else Raise (NoOptionError o s)
  | Raise e => Raise e
  | Ok value =>
      if String.eqb (Py.strip value) "" then Ok []
      else map_result (fun v => apply_cast cast_to (Py.strip v))
             (Py.split_char "," value)
  end.

End Parser.

(** ** A parser without interpolation

    [ConfigParser(interpolation=None)]: option names are put in lower case
    and the interpolation hands every value through as it is. *)
Definition plain_get (c : conf) (section opt value : string) : option string :=
  Some value.
Definition plain_set (value : string) : option string := Some value.

(** ** What [override_conf] changes *)

(** The stores a parser builds: the default section is kept in [_defaults],
    never in [_sections], and a section whose name is empty holds no option
    of its own, since [set] files the options given for it with the
    defaults. The empty store is one, and [add_section] and [set] keep them
    so ([add_section_wf], [set_wf]). *)
Definition wf (c : conf) : Prop :=
  _sections c !! default_section = None
  /\ forall d, _sections c !! "" = Some d -> d = ∅.

(** The value stored for a key in a section, or in the defaults for the
    default section. *)
Definition stored (c : conf) (section k : string) : option string :=
  if String.eqb section default_section then _defaults c !! k
  else _sections c !! section ≫= (fun d => d !! k).

Section OverrideFacts.

Variable optionxform : string -> string.
Variable before_get : conf -> string -> string -> string -> option string.
Variable before_set : string -> option string.

Local Abbreviation has_option := (has_option optionxform).
Local Abbreviation get := (get optionxform before_get).
Local Abbreviation set := (set optionxform before_set).
Local Abbreviation override_attr := (override_attr optionxform before_get before_set).
Local Abbreviation override_conf := (override_conf optionxform before_get before_set).

Lemma present_insert {A} (m : gmap string A) (k k' : string) (v : A) :
  present (m !! k) = true -> present (<[k := v]> m !! k') = present (m !! k').
Proof.
  intros H. destruct (decide (k = k')) as [->|Hne].
  - by rewrite lookup_insert_eq, H.
  - by rewrite lookup_insert_ne.
Qed.

(** The default section, under its name or under the empty name. *)
Definition names_default (section : string) : bool :=
  String.eqb section "" || String.eqb section default_section.

(** [set] puts a value at a key [k] of the defaults, or of a section. *)
Inductive update (c : conf) (section k : string) : conf -> Prop :=
  | update_default value :
      names_default section = true ->
      update c section k
        (mkconf (_sections c) (<[k := value]> (_defaults c)))
  | update_section value sectdict :
      names_default section = false ->
      _sections c !! section = Some sectdict ->
      update c section k
        (mkconf (<[section := <[k := value]> sectdict]> (_sections c))
                (_defaults c)).

Lemma set_update c section option value c' :
  set c section option value = Ok c' ->
  update c section (optionxform option) c'.
Proof.
  unfold Configuration.set. intros (val & _ & H)%bind_Ok. revert H.
  fold (names_default section).
  destruct (names_default section) eqn:E.
  - intros [= <-]. by constructor.
  - destruct (_sections c !! section) as [d|] eqn:Ed; [|discriminate].
    intros [= <-]. by constructor.
Qed.

(** Under [wf], an option [get] finds is one [has_option] reports. *)
Lemma get_has_option c section option value :
  wf c -> get c section option = Ok value -> has_option c section option = true.
Proof.
  intros [Hd He]. unfold Configuration.get, Configuration.has_option, _unify_values.
  destruct (String.eqb_spec section "") as [->|Hne].
  - cbn [orb]. destruct (_sections c !! "") as [d|] eqn:Ed; [|discriminate].
    rewrite (He d eq_refl), (left_id_L ∅ (∪)). cbn [bind].
    by destruct (_defaults c !! optionxform option).
  - cbn [orb]. destruct (String.eqb_spec section default_section) as [->|Hnd].
    + rewrite Hd. cbn [bind]. by destruct (_defaults c !! optionxform option).
    + destruct (_sections c !! section) as [d|]; [|discriminate]. cbn [bind].
      rewrite lookup_union.
      by destruct (d !! optionxform option), (_defaults c !! optionxform option).
Qed.

Lemma names_default_has_option c section option :
  names_default section = true ->
  has_option c section option = present (_defaults c !! optionxform option).
Proof. unfold Configuration.has_option, names_default. by intros ->. Qed.

Lemma update_wf c section k c' :
  wf c -> update c section k c' -> wf c'.
Proof.
  intros [Hd He] [v Hn|v d Hn Hs]; [done|].
  unfold names_default in Hn. apply orb_false_iff in Hn as [Hn1 Hn2].
  apply String.eqb_neq in Hn1, Hn2.
  split; cbn [_sections]; by rewrite lookup_insert_ne.
Qed.

Lemma update_sections c section k c' :
  update c section k c' -> dom (_sections c') = dom (_sections c).
Proof.
  intros [v Hn|v d Hn Hs]; [done|]. cbn [_sections].
  apply set_eq. intros x. rewrite dom_insert, elem_of_union, elem_of_singleton.
  split; [intros [->|?]; [|done]|by right]. apply elem_of_dom. eauto.
Qed.

(** An update of an option that exists leaves [has_option] as it is, for
    every section and option. *)
Lemma update_has_option c section option c' s o :
  has_option c section option = true ->
  update c section (optionxform option) c' ->
  has_option c' s o = has_option c s o.
Proof.
  intros Hex [v Hn|v d Hn Hs].
  - rewrite names_default_has_option in Hex by done.
    unfold Configuration.has_option. cbn [_sections _defaults].
    rewrite !(present_insert _ _ _ _ Hex). done.
  - unfold Configuration.has_option in *. cbn [_sections _defaults].
    fold (names_default section) in Hex. rewrite Hn, Hs in Hex.
    destruct (String.eqb s "" || String.eqb s default_section); [done|].
    destruct (decide (section = s)) as [<-|Hne].
    + rewrite lookup_insert_eq, Hs.
      destruct (decide (optionxform option = optionxform o)) as [<-|Hk].
      * rewrite lookup_insert_eq. cbn. by rewrite Hex.
      * by rewrite lookup_insert_ne.
    + by rewrite lookup_insert_ne.
Qed.

(** What is stored changes at the key of the update only, in the section
    of the update, the section of the empty name standing for the
    defaults. *)
Lemma update_stored c section k c' s k' :
  wf c -> update c section k c' ->
  stored c' s k' <> stored c s k' ->
  k' = k /\ (section = s \/ (section = "" /\ s = default_section)).
Proof.
  intros [Hd He] [v Hn|v d Hn Hs]; unfold stored; cbn [_sections _defaults].
  - destruct (String.eqb_spec s default_section) as [->|Hnd]; [|done].
    intros Hch. destruct (decide (k = k')) as [<-|Hk];
      [|by rewrite lookup_insert_ne in Hch].
    split; [done|]. unfold names_default in Hn.
    apply orb_true_iff in Hn as [->%String.eqb_eq| ->%String.eqb_eq]; auto.
  - unfold names_default in Hn. apply orb_false_iff in Hn as [Hn1 Hn2].
    apply String.eqb_neq in Hn1, Hn2.
    destruct (String.eqb_spec s default_section) as [->|Hnd]; [done|].
    destruct (decide (section = s)) as [<-|Hne];
      [|by rewrite lookup_insert_ne].
    rewrite lookup_insert_eq, Hs. cbn. intros Hch.
    destruct (decide (k = k')) as [<-|Hk]; [auto|by rewrite lookup_insert_ne in Hch].
Qed.

Lemma wf_empty : wf (mkconf ∅ ∅).
Proof. split; [done|]. intros d. cbn [_sections]. by rewrite lookup_empty. Qed.

Lemma add_section_wf c section c' :
  wf c -> add_section c section = Ok c' -> wf c'.
Proof.
  intros [Hd He]. unfold add_section.
  destruct (String.eqb_spec section default_section) as [->|Hnd]; [discriminate|].
  destruct (_sections c !! section) as [d0|] eqn:Hs; [discriminate|].
  intros [= <-]. split; cbn [_sections].
  - by rewrite lookup_insert_ne.
  - intros d. destruct (decide (section = "")) as [->|Hne].
    + rewrite lookup_insert_eq. by intros [= <-].
    + rewrite lookup_insert_ne by done. apply He.
Qed.

Lemma set_wf c section option value c' :
  wf c -> set c section option value = Ok c' -> wf c'.
Proof. intros Hwf Hset%set_update. by eapply update_wf. Qed.

(** One iteration leaves the store as it is, or updates an option that
    [has_option] reports, named by an attribute that starts with the prefix
    and splits in three, whose value is not in [nones]. *)
Lemma override_attr_inv prefix sep nones c attr v c' :
  wf c ->
  override_attr prefix sep nones c attr v = Ok c' ->
  c' = c
  \/ exists p section option,
      Py.startswith (prefix +:+ sep) attr = true
      /\ Py.split_sep sep attr = Ok [p; section; option]
      /\ py_in v nones = false
      /\ has_option c section option = true
      /\ update c section (optionxform option) c'.
Proof.
  intros Hwf. unfold Configuration.override_attr.
  destruct (Py.startswith (prefix +:+ sep) attr) eqn:Hp; cbn [negb];
    [|intros [= <-]; by left].
  destruct (Py.split_sep sep attr) as [[|p [|section [|option [|? ?]]]]|];
    try (intros [= <-]; by left).
  destruct (py_in v nones) eqn:Hin; [intros [= <-]; by left|].
  destruct (get c section option) as [x|e] eqn:Hget; cbn [bind].
  - destruct (set c section option (str_value v)) as [c1|e] eqn:Hset.
    + intros [= <-]. right. exists p, section, option.
      repeat split; try done.
      * by eapply get_has_option.
      * by eapply set_update.
    + destruct (is_lookup_error e); [intros [= <-]; by left|discriminate].
  - destruct (is_lookup_error e); [intros [= <-]; by left|discriminate].
Qed.

(** The entry of section [s] and key [k] is named by an attribute of [args]
    that [override_conf] takes up: it starts with the prefix, splits in
    three, its value is not in [nones], and its section and option exist in
    [c]. *)
Definition named (c : conf) (args : list (string * value))
  (prefix sep : string) (nones : list value) (s k : string) : Prop :=
  exists attr v p section option,
    (attr, v) ∈ args
    /\ Py.startswith (prefix +:+ sep) attr = true
    /\ Py.split_sep sep attr = Ok [p; section; option]
    /\ optionxform option = k
    /\ py_in v nones = false
    /\ has_option c section option = true
    /\ (section = s \/ (section = "" /\ s = default_section)).

Lemma named_tail c a args prefix sep nones s k :
  named c args prefix sep nones s k -> named c (a :: args) prefix sep nones s k.
Proof.
  intros (attr & v & p & sec & o & Hin & H). exists attr, v, p, sec, o.
  split; [by right|done].
Qed.

Lemma override_conf_inv c args prefix sep nones :
  wf c ->
  wf (override_conf c args prefix sep nones).1
  /\ dom (_sections (override_conf c args prefix sep nones).1) = dom (_sections c)
  /\ (forall s o,
        has_option (override_conf c args prefix sep nones).1 s o
        = has_option c s o)
  /\ (forall s k,
        stored (override_conf c args prefix sep nones).1 s k <> stored c s k ->
        named c args prefix sep nones s k).
Proof.
  revert c. induction args as [|[attr v] args IH]; intros c Hwf;
    cbn [Configuration.override_conf].
  { cbn [fst]. do 3 (split; [done|]). by intros s k []. }
  destruct (override_attr prefix sep nones c attr v) as [c1|e] eqn:Hstep;
    [|cbn [fst]; do 3 (split; [done|]); by intros s k []].
  apply override_attr_inv in Hstep as [->|(p & sec & o & Hp & Hs & Hn & Hex & Hup)];
    [| |done].
  - destruct (IH c Hwf) as (Hw & Hd & Ho & Hst).
    do 3 (split; [done|]). intros s k Hch. by apply named_tail, Hst.
  - destruct (IH c1 (update_wf _ _ _ _ Hwf Hup)) as (Hw & Hd & Ho & Hst).
    assert (Hopt : forall s0 o0, has_option c1 s0 o0 = has_option c s0 o0)
      by (intros; by eapply update_has_option).
    split; [done|]. split; [by rewrite Hd, (update_sections _ _ _ _ Hup)|].
    split; [intros; by rewrite Ho, Hopt|].
    intros s k Hch.
    destruct (decide (stored (override_conf c1 args prefix sep nones).1 s k
                      = stored c1 s k)) as [Heq|Hne].
    + rewrite Heq in Hch.
      destruct (update_stored _ _ _ _ _ _ Hwf Hup Hch) as [-> Hsec].
      exists attr, v, p, sec, o. split; [by left|done].
    + destruct (Hst s k Hne) as (attr' & v' & p' & sec' & o' & Hin & ? & ? & ? & ? & Hex' & ?).
      exists attr', v', p', sec', o'. rewrite Hopt in Hex'.
      split; [by right|done].
Qed.

(** C8. In a store as a parser builds it, [override_conf] creates no section
    and no option: the sections are the same after the call, returned or
    raised, and [has_option] answers the same for every section and option;
    and a stored value that differs after the call is that of an option that
    existed in the store, named by an attribute of [args] that starts with
    the prefix and whose value is not in [nones]. Every other stored value is
    unchanged. *)
Theorem override_conf_frame c args prefix sep nones :
  wf c ->
  dom (_sections (override_conf c args prefix sep nones).1) = dom (_sections c)
  /\ (forall s o,
        has_option (override_conf c args prefix sep nones).1 s o
        = has_option c s o)
  /\ (forall s k,
        stored (override_conf c args prefix sep nones).1 s k <> stored c s k ->
        named c args prefix sep nones s k).
Proof. intros Hwf. by destruct (override_conf_inv c args prefix sep nones Hwf) as (_ & ?). Qed.

End OverrideFacts.

(** ** Lists and lists of lists *)

Lemma map_result_Forall2 {A B} (f : A -> result B) (l : list A) (r : list B) :
  map_result f l = Ok r -> Forall2 (fun a b => f a = Ok b) l r.
Proof.
  revert r. induction l as [|a l IH]; intros r; cbn [map_result].
  - intros [= <-]. constructor.
  - intros (b & Hb & H)%bind_Ok. apply bind_Ok in H as (bs & Hbs & [= <-]).
    constructor; [done|by apply IH].
Qed.

Lemma map_result_length {A B} (f : A -> result B) (l : list A) (r : list B) :
  map_result f l = Ok r -> length r = length l.
Proof. intros H%map_result_Forall2. symmetry. by eapply Forall2_length. Qed.

(** What a comprehension raises, one of its calls raises. *)
Lemma map_result_Raise {A B} (f : A -> result B) (l : list A) (e : exn) :
  map_result f l = Raise e -> exists a, a ∈ l /\ f a = Raise e.
Proof.
  induction l as [|a l IH]; cbn [map_result]; [discriminate|].
  destruct (f a) as [b|e'] eqn:Ha; cbn [bind].
  - destruct (map_result f l) as [bs|e'] eqn:Hl; cbn [bind]; [discriminate|].
    intros [= ->]. destruct (IH eq_refl) as (a' & Hin & Hf).
    exists a'. split; [by right|done].
  - intros [= ->]. exists a. split; [by left|done].
Qed.

Lemma map_result_total {A B} (f : A -> result B) (g : A -> B) (l : list A) :
  (forall a, f a = Ok (g a)) -> map_result f l = Ok (map g l).
Proof.
  intros H. induction l as [|a l IH]; [reflexivity|].
  cbn [map_result map]. by rewrite H, IH.
Qed.

Section ListFacts.

Variable optionxform : string -> string.
Variable before_get : conf -> string -> string -> string -> option string.
Variable float_of_string : string -> option float.
Variable int_of_string : string -> option Z.

Local Abbreviation get := (get optionxform before_get).
Local Abbreviation get_list :=
  (get_list optionxform before_get float_of_string int_of_string).
Local Abbreviation get_list_of_list :=
  (get_list_of_list optionxform before_get float_of_string int_of_string).
Local Abbreviation apply_cast := (apply_cast float_of_string int_of_string).

(** C5, as the code has it. For a value that is not blank, every group
    between commas is split on the dash and every token of it is stripped and
    cast, however many tokens the group has: a list that is returned holds,
    for each group, as many elements as the group has tokens; an exception
    that is raised is one a cast raised on a token; and with [cast_to=str]
    the call returns for every value. *)
Theorem get_list_of_list_groups c section option use_default cast_to value :
  get c section option = Ok value ->
  String.eqb (Py.strip value) "" = false ->
  (forall r,
      get_list_of_list c section option use_default cast_to = Ok r ->
      Forall2 (fun v inner => length inner = length (Py.split_char "-" v))
        (Py.split_char "," value) r)
  /\ (forall e,
        get_list_of_list c section option use_default cast_to = Raise e ->
        exists v i,
          v ∈ Py.split_char "," value /\ i ∈ Py.split_char "-" v
          /\ apply_cast cast_to (Py.strip i) = Raise e)
  /\ get_list_of_list c section option use_default cast_str
     = Ok (map (fun v => map (fun i => PStr (Py.strip i)) (Py.split_char "-" v))
             (Py.split_char "," value)).
Proof.
  intros Hget Hne. unfold Configuration.get_list_of_list. rewrite Hget, Hne.
  split; [|split].
  - intros r Hr%map_result_Forall2.
    eapply Forall2_impl; [exact Hr|]. intros v inner Hv. cbn in Hv.
    by apply map_result_length in Hv.
  - intros e (v & Hv & He)%map_result_Raise.
    apply map_result_Raise in He as (i & Hi & He). eauto.
  - apply map_result_total. intros v. by apply map_result_total.
Qed.

(** The options that are read in a section exist, in the section or in the
    defaults, for the sections [contains] reports. *)
Lemma unify_values_contains c section :
  contains c section = true <-> exists d, _unify_values c section = Ok d.
Proof.
  unfold contains, _unify_values.
  destruct (_sections c !! section) as [d|]; cbn [present].
  - rewrite orb_true_r. split; eauto.
  - rewrite orb_false_r. destruct (String.eqb section default_section).
    + split; eauto.
    + split; [discriminate|]. by intros [d [=]].
Qed.

(** C10. For a section that is not in the configuration, [get_list] and
    [get_list_of_list] raise [NoSectionError], with [use_default] or without.
    For a section that is there and an option that is not among the options
    read in it, they return the default with [use_default] and raise
    [NoOptionError] without. In every other case [use_default] changes
    nothing of what they return or raise. *)
Theorem get_list_no_section c section option cast_to :
  (contains c section = false ->
   forall use_default,
     get_list c section option use_default cast_to
       = Raise (NoSectionError section)
     /\ get_list_of_list c section option use_default cast_to
        = Raise (NoSectionError section))
  /\ (forall d,
        _unify_values c section = Ok d -> d !! optionxform option = None ->
        get_list c section option true cast_to = Ok []
        /\ get_list_of_list c section option true cast_to = Ok [[PNone; PNone]]
        /\ get_list c section option false cast_to
           = Raise (NoOptionError (optionxform option) section)
        /\ get_list_of_list c section option false cast_to
           = Raise (NoOptionError (optionxform option) section))
  /\ ((forall d, _unify_values c section = Ok d ->
                 d !! optionxform option <> None) ->
      get_list c section option true cast_to
        = get_list c section option false cast_to
      /\ get_list_of_list c section option true cast_to
         = get_list_of_list c section option false cast_to).
Proof.
  unfold Configuration.get_list, Configuration.get_list_of_list, Configuration.get.
  split; [|split].
  - intros Hc use_default.
    destruct (_unify_values c section) as [d|e] eqn:Hu.
    + assert (contains c section = true) by (apply unify_values_contains; eauto).
      congruence.
    + unfold _unify_values in Hu.
      destruct (_sections c !! section); [discriminate|].
      destruct (String.eqb section default_section); [discriminate|].
      injection Hu as <-. done.
  - intros d Hu Hd. rewrite Hu. cbn [bind]. by rewrite Hd.
  - intros Hpresent. destruct (_unify_values c section) as [d|e] eqn:Hu; cbn [bind].
    + specialize (Hpresent d eq_refl).
      destruct (d !! optionxform option) as [value|]; [|done].
      by destruct (before_get c section (optionxform option) value).
    + unfold _unify_values in Hu.
      destruct (_sections c !! section); [discriminate|].
      destruct (String.eqb section default_section); [discriminate|].
      injection Hu as <-. done.
Qed.

End ListFacts.

(** ** The theorems on the configuration of the tests *)

(** The store of [c.read_dict({'sec1': {'opt1': 'val1'}})]. *)
Definition test_conf : conf := mkconf {["sec1" := {["opt1" := "val1"]}]} ∅.

Lemma test_conf_wf : wf test_conf.
Proof. split; [reflexivity|]. intros d. vm_compute. discriminate. Qed.

(** The hypothesis [wf] of [override_conf_frame] is used: in a store whose
    section of the empty name held an option of its own, which no parser
    builds, [get] would find the option in that section and [set] would file
    the new value with the defaults. *)
Remark override_conf_outside_wf :
  override_conf Py.lower plain_get plain_set
    (mkconf {["" := {["o" := "v"]}]} ∅)
    [("setting____o", Atom (AStr "w"))] "setting" "__" default_nones
  = (mkconf {["" := {["o" := "v"]}]} {["o" := "w"]}, None).
Proof. by vm_compute. Qed.

Definition test_args : list (string * value) :=
  [("other", Atom (AStr "test"));
   ("setting__sec1__opt1", List [AInt 42; AInt 43]);
   ("setting__sec1__opt2", Atom (AStr "test"));
   ("setting__sec2__opt1", Atom (AStr "test"))].

Lemma override_conf_frame_test :
  override_conf Py.lower plain_get plain_set test_conf test_args
    "setting" "__" default_nones
  = (mkconf {["sec1" := {["opt1" := "42, 43"]}]} ∅, None)
  /\ dom (_sections (override_conf Py.lower plain_get plain_set test_conf
                       test_args "setting" "__" default_nones).1)
     = dom (_sections test_conf)
  /\ (forall s o,
        has_option Py.lower
          (override_conf Py.lower plain_get plain_set test_conf test_args
             "setting" "__" default_nones).1 s o
        = has_option Py.lower test_conf s o)
  /\ (forall s k,
        stored (override_conf Py.lower plain_get plain_set test_conf test_args
                  "setting" "__" default_nones).1 s k
        <> stored test_conf s k ->
        named Py.lower test_conf test_args "setting" "__" default_nones s k).
Proof.
  split; [by vm_compute|].
  exact (override_conf_frame Py.lower plain_get plain_set test_conf test_args
           "setting" "__" default_nones test_conf_wf).
Defined.

(** The store of
    [c.read_dict({'section': {'wranges_bkg': '3500-4500,5500'}})]. *)
Definition ranges_conf : conf :=
  mkconf {["section" := {["wranges_bkg" := "3500-4500,5500"]}]} ∅.

(** A group of one token gives an inner list of one element. *)
Lemma get_list_of_list_single_token :
  get_list_of_list Py.lower plain_get Ref.float_of_string Ref.int_of_string
    ranges_conf "section" "wranges_bkg" false cast_str
  = Ok [[PStr "3500"; PStr "4500"]; [PStr "5500"]].
Proof. reflexivity. Qed.

Lemma get_list_of_list_groups_ranges :
  Forall2 (fun v inner => length inner = length (Py.split_char "-" v))
    ["3500-4500"; "5500"] [[PInt 3500; PInt 4500]; [PInt 5500]]
  /\ get_list_of_list Py.lower plain_get Ref.float_of_string Ref.int_of_string
       ranges_conf "section" "wranges_bkg" false cast_str
     = Ok [[PStr "3500"; PStr "4500"]; [PStr "5500"]].
Proof.
  pose proof (get_list_of_list_groups Py.lower plain_get Ref.float_of_string
                Ref.int_of_string ranges_conf "section" "wranges_bkg" false
                cast_int "3500-4500,5500" eq_refl eq_refl) as (Hlen & _ & Hstr).
  split; [by apply Hlen|exact Hstr].
Defined.

Lemma get_list_no_section_test :
  (get_list Py.lower plain_get Ref.float_of_string Ref.int_of_string
     ranges_conf "other" "wranges_bkg" true cast_str
   = Raise (NoSectionError "other")
   /\ get_list_of_list Py.lower plain_get Ref.float_of_string Ref.int_of_string
        ranges_conf "other" "wranges_bkg" true cast_str
      = Raise (NoSectionError "other"))
  /\ get_list Py.lower plain_get Ref.float_of_string Ref.int_of_string
       ranges_conf "section" "other_option" true cast_str = Ok []
  /\ get_list_of_list Py.lower plain_get Ref.float_of_string Ref.int_of_string
       ranges_conf "section" "other_option" true cast_str = Ok [[PNone; PNone]].
Proof.
  pose proof (get_list_no_section Py.lower plain_get Ref.float_of_string
                Ref.int_of_string ranges_conf "other" "wranges_bkg" cast_str)
    as (Habsent & _).
  pose proof (get_list_no_section Py.lower plain_get Ref.float_of_string
                Ref.int_of_string ranges_conf "section" "other_option" cast_str)
    as (_ & Hmissing & _).
  split; [exact (Habsent eq_refl true)|].
  destruct (Hmissing _ eq_refl eq_refl) as (H1 & H2 & _). by split.
Defined.

(** ** Reading back what [override_conf] has set

    The parser of this part has no interpolation: [get] returns the stored
    value and [set] stores the value it is given. *)

(** The section that holds the options filed under a name: the defaults for
    the empty name. *)
Definition home (section : string) : string :=
  if names_default section then default_section else section.

Section Override.

Variable optionxform : string -> string.

Local Abbreviation has_option := (has_option optionxform).
Local Abbreviation get := (get optionxform plain_get).
Local Abbreviation set := (set optionxform plain_set).
Local Abbreviation override_attr := (override_attr optionxform plain_get plain_set).
Local Abbreviation override_conf := (override_conf optionxform plain_get plain_set).

(** An attribute that splits in three and names the key [k] of the section
    [section]. *)
Definition aims (sep attr section k : string) : bool :=
  match Py.split_sep sep attr with
  | Ok [_; s; o] => String.eqb (home s) (home section) && String.eqb (optionxform o) k
  | _ => false
  end.

Lemma set_plain c section option value :
  set c section option value
  = if names_default section
    then Ok (mkconf (_sections c) (<[optionxform option := value]> (_defaults c)))
    else match _sections c !! section with
         | Some sectdict =>
             Ok (mkconf (<[section := <[optionxform option := value]> sectdict]>
                           (_sections c))
                        (_defaults c))
         | None => Raise (NoSectionError section)
         end.
Proof.
  unfold Configuration.set, plain_set, names_default.
  by destruct (String.eqb value "").
Qed.

Lemma get_plain_lookup_error c section option e :
  get c section option = Raise e -> is_lookup_error e = true.
Proof.
  unfold Configuration.get, _unify_values, plain_get.
  destruct (_sections c !! section) as [d|]; cbn [bind].
  - destruct ((d ∪ _defaults c) !! optionxform option); [discriminate|].
    by intros [= <-].
  - destruct (String.eqb section default_section); cbn [bind].
    + destruct (_defaults c !! optionxform option); [discriminate|].
      by intros [= <-].
    + by intros [= <-].
Qed.

Lemma set_plain_lookup_error c section option value e :
  set c section option value = Raise e -> is_lookup_error e = true.
Proof.
  rewrite set_plain. destruct (names_default section); [discriminate|].
  destruct (_sections c !! section); [discriminate|]. by intros [= <-].
Qed.

Lemma override_attr_plain prefix sep nones c attr v :
  exists c', override_attr prefix sep nones c attr v = Ok c'.
Proof.
  unfold Configuration.override_attr.
  destruct (negb _); [by eauto|].
  destruct (Py.split_sep sep attr) as [[|p [|section [|option [|? ?]]]]|];
    try by eauto.
  destruct (py_in v nones); [by eauto|].
  destruct (get c section option) as [x|e] eqn:Hget; cbn [bind].
  - destruct (set c section option (str_value v)) as [c1|e] eqn:Hset; [by eauto|].
    rewrite (set_plain_lookup_error _ _ _ _ _ Hset). by eauto.
  - rewrite (get_plain_lookup_error _ _ _ _ Hget). by eauto.
Qed.

Lemma override_conf_plain_snd c args prefix sep nones :
  (override_conf c args prefix sep nones).2 = None.
Proof.
  revert c. induction args as [|[attr v] args IH]; intros c;
    cbn [Configuration.override_conf]; [done|].
  destruct (override_attr_plain prefix sep nones c attr v) as [c' ->]. apply IH.
Qed.

Lemma override_conf_plain c args prefix sep nones :
  exists c', override_conf c args prefix sep nones = (c', None).
Proof.
  exists (override_conf c args prefix sep nones).1.
  rewrite <- (override_conf_plain_snd c args prefix sep nones).
  by destruct (override_conf c args prefix sep nones).
Qed.

(** X12. Without interpolation [override_conf] raises nothing: whatever the
    store and the attributes, the call returns. The sections and options
    that are missing are passed over, and there is no other exception that
    [get] and [set] raise on a text. *)
Theorem override_conf_returns c args prefix sep nones :
  exists c', override_conf c args prefix sep nones = (c', None).
Proof. apply override_conf_plain. Qed.

Lemma override_conf_app c args1 args2 prefix sep nones :
  override_conf c (args1 ++ args2) prefix sep nones
  = override_conf (override_conf c args1 prefix sep nones).1 args2 prefix sep nones.
Proof.
  revert c. induction args1 as [|[attr v] args1 IH]; intros c;
    cbn [app Configuration.override_conf]; [done|].
  destruct (override_attr_plain prefix sep nones c attr v) as [c' ->]. apply IH.
Qed.

Lemma home_home section : home (home section) = home section.
Proof. unfold home. by destruct (names_default section) eqn:E; [|rewrite E]. Qed.

(** What [get] finds, under [wf], for a value stored in the home of the
    section. *)
Lemma get_stored c section option w :
  wf c ->
  (section = "" -> is_Some (_sections c !! "")) ->
  stored c (home section) (optionxform option) = Some w ->
  get c section option = Ok w.
Proof.
  intros [Hd He] Hempty. unfold home, names_default, stored,
    Configuration.get, _unify_values, plain_get.
  destruct (String.eqb_spec section "") as [->|Hne]; cbn [orb].
  - cbn. destruct (Hempty eq_refl) as [d Hs]. rewrite Hs, (He d Hs).
    rewrite (left_id_L ∅ (∪)). cbn [bind]. by intros ->.
  - destruct (String.eqb_spec section default_section) as [->|Hnd].
    + cbn. rewrite Hd. cbn [bind]. by intros ->.
    + destruct (String.eqb_spec section default_section); [done|].
      destruct (_sections c !! section) as [d|]; [|done]. cbn.
      intros Hk. by rewrite (lookup_union_Some_l _ _ _ _ Hk).
Qed.

Lemma set_stored c section option value c' :
  set c section option value = Ok c' ->
  stored c' (home section) (optionxform option) = Some value.
Proof.
  rewrite set_plain. unfold home, stored.
  destruct (names_default section) eqn:Hn.
  - intros [= <-]. cbn. by rewrite lookup_insert_eq.
  - unfold names_default in Hn. apply orb_false_iff in Hn as [_ Hn].
    rewrite Hn. destruct (_sections c !! section) as [d|]; [|discriminate].
    intros [= <-]. cbn. rewrite lookup_insert_eq. cbn. by rewrite lookup_insert_eq.
Qed.

Lemma get_section c section option w :
  get c section option = Ok w ->
  section <> default_section -> is_Some (_sections c !! section).
Proof.
  unfold Configuration.get, _unify_values.
  destruct (_sections c !! section) as [d|]; [by eauto|].
  intros H Hne. apply String.eqb_neq in Hne. by rewrite Hne in H.
Qed.

Lemma has_option_get c section option :
  wf c ->
  (section <> default_section -> is_Some (_sections c !! section)) ->
  has_option c section option = true ->
  exists w, get c section option = Ok w.
Proof.
  intros [Hd He] Hs. unfold Configuration.has_option, Configuration.get,
    _unify_values, plain_get.
  destruct (String.eqb_spec section "") as [->|Hne]; cbn [orb].
  - destruct Hs as [d Hs]; [done|]. rewrite Hs, (He d Hs), (left_id_L ∅ (∪)).
    cbn [bind]. destruct (_defaults c !! optionxform option); [by eauto|done].
  - destruct (String.eqb_spec section default_section) as [->|Hnd].
    + rewrite Hd. cbn [bind].
      destruct (_defaults c !! optionxform option); [by eauto|done].
    + destruct (_sections c !! section) as [d|]; [|done]. cbn [bind].
      rewrite lookup_union.
      destruct (d !! optionxform option), (_defaults c !! optionxform option);
        cbn; by eauto.
Qed.

Lemma dom_is_Some (c c' : conf) (section : string) :
  dom (_sections c') = dom (_sections c) ->
  is_Some (_sections c !! section) -> is_Some (_sections c' !! section).
Proof. intros Hdom. rewrite <- !elem_of_dom. by rewrite Hdom. Qed.

(** X13. An attribute that names an option of the store, with a value that is
    not in [nones], overrides it: after the call [get] returns the text of
    the value, when no attribute handled after it names the same entry. The
    attributes handled before it change nothing of this. *)
Theorem override_conf_get c pre attr v post p section option old prefix sep nones :
  wf c ->
  Py.startswith (prefix +:+ sep) attr = true ->
  Py.split_sep sep attr = Ok [p; section; option] ->
  py_in v nones = false ->
  get c section option = Ok old ->
  forallb (fun a => negb (aims sep a.1 section (optionxform option))) post = true ->
  exists c',
    override_conf c (pre ++ (attr, v) :: post) prefix sep nones = (c', None)
    /\ get c' section option = Ok (str_value v).
Proof.
  intros Hwf Hp Hs Hn Hget Hpost.
  destruct (override_conf_plain c (pre ++ (attr, v) :: post) prefix sep nones)
    as [c3 Hc3].
  exists c3. split; [done|].
  pose proof (override_conf_inv optionxform plain_get plain_set c
                (pre ++ (attr, v) :: post) prefix sep nones Hwf)
    as (Hwf3 & Hdom3 & _ & _).
  rewrite Hc3 in Hwf3, Hdom3. cbn [fst] in Hwf3, Hdom3.
  rewrite override_conf_app in Hc3.
  pose proof (override_conf_inv optionxform plain_get plain_set c pre prefix sep
                nones Hwf) as (Hwf1 & Hdom1 & Hopt1 & _).
  set (c1 := (override_conf c pre prefix sep nones).1) in *.
  assert (Hsec : section <> default_section -> is_Some (_sections c !! section))
    by (by eapply get_section).
  destruct (has_option_get c1 section option Hwf1) as [old1 Hget1].
  { intros Hne. by eapply dom_is_Some, Hsec. }
  { rewrite Hopt1. by eapply get_has_option. }
  cbn [Configuration.override_conf] in Hc3.
  unfold Configuration.override_attr in Hc3.
  rewrite Hp, Hs, Hn, Hget1 in Hc3. cbn [negb bind] in Hc3.
  destruct (set c1 section option (str_value v)) as [c2|e] eqn:Hset.
  2:{ exfalso. revert Hset. rewrite set_plain.
      destruct (names_default section) eqn:Hnd; [discriminate|].
      unfold names_default in Hnd. apply orb_false_iff in Hnd as [_ Hnd].
      apply String.eqb_neq in Hnd.
      destruct (dom_is_Some c c1 section Hdom1 (Hsec Hnd)) as [d ->]. discriminate. }
  pose proof (set_wf optionxform plain_set _ _ _ _ _ Hwf1 Hset) as Hwf2.
  pose proof (override_conf_inv optionxform plain_get plain_set c2 post prefix sep
                nones Hwf2) as (_ & _ & _ & Hst).
  rewrite Hc3 in Hst. cbn [fst] in Hst.
  apply get_stored; [done| |].
  - intros ->. apply (dom_is_Some c c3 ""); [done|]. by apply Hsec.
  - destruct (decide (stored c3 (home section) (optionxform option)
                      = stored c2 (home section) (optionxform option)))
      as [->|Hch]; [by eapply set_stored|].
    exfalso. destruct (Hst _ _ Hch)
      as (attr' & v' & p' & s' & o' & Hin & _ & Hs' & Hk & _ & _ & Hhome).
    rewrite forallb_forall in Hpost.
    apply list_elem_of_In, Hpost in Hin. cbn [fst] in Hin.
    unfold aims in Hin. rewrite Hs', Hk, String.eqb_refl, andb_true_r in Hin.
    apply negb_true_iff, String.eqb_neq in Hin. apply Hin.
    destruct Hhome as [->|[-> Heq]]; [apply home_home|by rewrite Heq].
Qed.

End Override.

(** ** A list that is joined and read again *)

Lemma append_empty_r (a : string) : a +:+ "" = a.
Proof.
  induction a as [|x a IH]; [done|].
  by rewrite (FileTools.append_cons x a ""), IH.
Qed.

Lemma split_sep_go_plain (c : ascii) (tok s : string) :
  Py.contains c s = false ->
  Py.split_sep_go (String c "") 0 tok s = [tok +:+ s].
Proof.
  revert tok. induction s as [|a s IH]; intros tok; cbn [Py.contains Py.split_sep_go].
  - by rewrite append_empty_r.
  - intros [Ha Hs]%orb_false_iff. cbn [Py.startswith].
    rewrite Ascii.eqb_sym, Ha. cbn [andb]. rewrite IH by done.
    by rewrite FileTools.append_assoc, (FileTools.append_cons a ""),
         FileTools.append_nil_l.
Qed.

Lemma split_sep_go_sep (c : ascii) (tok s r : string) :
  Py.contains c s = false ->
  Py.split_sep_go (String c "") 0 tok (s +:+ String c r)
  = (tok +:+ s) :: Py.split_sep_go (String c "") 0 "" r.
Proof.
  revert tok. induction s as [|a s IH]; intros tok; cbn [Py.contains].
  - intros _. rewrite FileTools.append_nil_l, append_empty_r.
    cbn [Py.split_sep_go Py.startswith]. by rewrite Ascii.eqb_refl.
  - intros [Ha Hs]%orb_false_iff. rewrite FileTools.append_cons.
    cbn [Py.split_sep_go Py.startswith].
    rewrite Ascii.eqb_sym, Ha. cbn [andb]. rewrite IH by done.
    by rewrite FileTools.append_assoc, (FileTools.append_cons a ""),
         FileTools.append_nil_l.
Qed.

Lemma strip_space (s : string) : Py.strip (String " " s) = Py.strip s.
Proof.
  unfold Py.strip. cbn [Py.rstrip]. by destruct (Py.rstrip s).
Qed.

(** An item of a list that [get_list] gives back as it is: it holds no
    comma and no white space at its ends. *)
Definition plain_item (s : string) : Prop :=
  Py.contains "," s = false /\ Py.strip s = s.

Lemma split_join_comma_from (s : string) (ss : list string) (tok : string) :
  Forall plain_item (s :: ss) ->
  Py.contains "," tok = false -> Py.strip (tok +:+ s) = s ->
  map Py.strip (Py.split_sep_go "," 0 tok (join_comma (s :: ss))) = s :: ss.
Proof.
  revert s tok. induction ss as [|s' ss IH]; intros s tok Hall Htok Hs;
    inversion Hall as [|? ? [Hc _] Hall']; subst.
  - cbn [join_comma]. rewrite split_sep_go_plain by done. cbn [map]. by rewrite Hs.
  - change (join_comma (s :: s' :: ss))
      with (s +:+ String "," (String " " (join_comma (s' :: ss)))).
    rewrite split_sep_go_sep by done. cbn [map]. rewrite Hs. f_equal.
    change (Py.split_sep_go "," 0 "" (String " " (join_comma (s' :: ss))))
      with (Py.split_sep_go "," 0 " " (join_comma (s' :: ss))).
    apply IH; [done|done|].
    inversion Hall' as [|? ? [_ Hs'] _]; subst.
    by rewrite (FileTools.append_cons " " ""), FileTools.append_nil_l, strip_space.
Qed.

Lemma split_join_comma (ss : list string) :
  ss <> [] -> Forall plain_item ss ->
  map Py.strip (Py.split_char "," (join_comma ss)) = ss.
Proof.
  destruct ss as [|s ss]; [done|]. intros _ Hall.
  apply split_join_comma_from; [done|done|].
  inversion Hall as [|? ? [_ Hs] _]; subst. by rewrite FileTools.append_nil_l.
Qed.

Lemma map_result_map {A B C} (f : B -> result C) (g : A -> B) (l : list A) :
  map_result f (map g l) = map_result (fun a => f (g a)) l.
Proof. induction l as [|a l IH]; [done|]. cbn [map map_result]. by rewrite IH. Qed.

Section JoinedList.

Variable optionxform : string -> string.
Variable before_get : conf -> string -> string -> string -> option string.
Variable float_of_string : string -> option float.
Variable int_of_string : string -> option Z.

Local Abbreviation get := (get optionxform before_get).
Local Abbreviation get_list :=
  (get_list optionxform before_get float_of_string int_of_string).
Local Abbreviation apply_cast := (apply_cast float_of_string int_of_string).

(** X14. [get_list] undoes the joining of [override_conf]: for an option that
    holds the items of a list joined by a comma and a space, it casts the
    items of the list, one by one, when no item holds a comma or has white
    space at its ends and the joined text is not blank. *)
Theorem get_list_join_comma c section option use_default cast_to ss :
  get c section option = Ok (join_comma ss) ->
  String.eqb (Py.strip (join_comma ss)) "" = false ->
  Forall plain_item ss ->
  get_list c section option use_default cast_to
  = map_result (apply_cast cast_to) ss.
Proof.
  intros Hget Hblank Hall. unfold Configuration.get_list.
  rewrite Hget, Hblank.
  rewrite <- (map_result_map (apply_cast cast_to) Py.strip).
  rewrite split_join_comma; [done| |done].
  intros ->. by vm_compute in Hblank.
Qed.

End JoinedList.

(** ** The theorems on the overridden configuration of the tests *)

Lemma override_conf_returns_test :
  exists c',
    override_conf Py.lower plain_get plain_set test_conf test_args
      "setting" "__" default_nones = (c', None).
Proof.
  exact (override_conf_returns Py.lower test_conf test_args "setting" "__"
           default_nones).
Defined.

Lemma override_conf_get_test :
  exists c',
    override_conf Py.lower plain_get plain_set test_conf test_args
      "setting" "__" default_nones = (c', None)
    /\ Configuration.get Py.lower plain_get c' "sec1" "opt1" = Ok "42, 43".
Proof.
  exact (override_conf_get Py.lower test_conf
           [("other", Atom (AStr "test"))]
           "setting__sec1__opt1" (List [AInt 42; AInt 43])
           [("setting__sec1__opt2", Atom (AStr "test"));
            ("setting__sec2__opt1", Atom (AStr "test"))]
           "setting" "sec1" "opt1" "val1" "setting" "__" default_nones
           test_conf_wf eq_refl eq_refl eq_refl eq_refl eq_refl).
Defined.

Lemma get_list_join_comma_test :
  Configuration.get_list Py.lower plain_get Ref.float_of_string Ref.int_of_string
    (mkconf {["sec1" := {["opt1" := "42, 43"]}]} ∅) "sec1" "opt1" false cast_int
  = Ok [PInt 42; PInt 43].
Proof.
  apply (get_list_join_comma Py.lower plain_get Ref.float_of_string
           Ref.int_of_string (mkconf {["sec1" := {["opt1" := "42, 43"]}]} ∅)
           "sec1" "opt1" false cast_int ["42"; "43"]); [done|done|].
  repeat constructor.
Defined.

End Configuration.

(* ===================================================================== *)
(** * pyhetdex.het.dither: writing a dither file *)
(* ===================================================================== *)

Module DitherFile.

(** The exceptions of this part of the module: those of the parsers, and
    the ones of the builtins and of the creation of the file. *)
Inductive error : Type :=
  | Parser (e : exn)
  | IndexError
  | KeyError (key : string)
  | DitherCreationError (msg : string)
  | StopIteration
  | IOError (path : string)
  | SystemExit (code : nat).

Inductive outcome (A : Type) : Type :=
  | Return (a : A)
  | Throw (e : error).
Arguments Return {A} a.
Arguments Throw {A} e.

Definition and_then {A B} (r : outcome A) (k : A -> outcome B) : outcome B :=
  match r with
  | Return a => k a
  | Throw e => Throw e
  end.

Notation "'try' x <- r ; k" := (and_then r (fun x => k))
  (at level 10, x pattern, r at level 100, k at level 200).

(** A call of the parsers, with its exception if it raises. *)
Definition lift {A} (r : result A) : outcome A :=
  match r with
  | Ok a => Return a
  | Raise e => Throw (Parser e)
  end.

(** [d[key]] *)
Definition getitem {A} (d : gmap string A) (key : string) : outcome A :=
  match d !! key with
  | Some a => Return a
  | None => Throw (KeyError key)
  end.

(** ** [DitherCreator.from_file] *)

(** The loop over the lines of the file of positions: a line is split, a
    line whose first word holds the comment mark is passed, and the words of
    any other line make a row. A line with no word has no first word. *)
Fixpoint read_positions (ls : list string)
  : outcome (list (string * list Dither.cell)) :=
  match ls with
  | [] => Return []
  | line :: ls' =>
      match Py.split (Py.strip line) with
      | [] => Throw IndexError
      | el0 :: els =>
          try rows <- read_positions ls';
          Return (if Py.contains "#" el0 then rows
                  else (el0, map Dither.CStr els) :: rows)
      end
  end.

Definition from_file (float_of_string : string -> option float)
  (text : string) : outcome Dither.creator :=
  try dither_positions <- read_positions (Py.readlines text);
  lift (Dither.DitherCreator float_of_string dither_positions).

(** ** [check_dithers] and [format_names] *)

Definition check_dithers (n_dithers : nat) (basenames modelbases : list string)
  : bool :=
  let ok_basenames :=
    (length basenames =? 1)%nat || (length basenames =? n_dithers)%nat in
  let ok_modelbases :=
    (length modelbases =? 1)%nat || (length modelbases =? n_dithers)%nat in
  ok_basenames && ok_modelbases.

Section Names.

(** [name.format(id=id_, dither=n)], which raises on a name that asks for
    another field. *)
Variable format : string -> string -> nat -> outcome string.

(** The loop of [format_names] over [enumerate(names)], from the index
    [i]. *)
Fixpoint format_from (i : nat) (names : list string) (id_ : string)
  : outcome (list string) :=
  match names with
  | [] => Return []
  | name :: names' =>
      try out <- format name id_ (i + 1);
      try outs <- format_from (S i) names' id_;
      Return (out :: outs)
  end.

Definition format_names (names : list string) (n_dithers : nat) (id_ : string)
  : outcome (list string) :=
  let names :=
    match names with
    | [name] => replicate n_dithers name
    | _ => names
    end in
  format_from 0 names id_.

End Names.

(** ** [DitherCreator.create_dither] *)

(** What [fplane.by_id] gives of an IFU: its slot and its position. *)
Record ifu_place : Type := mkplace { ifuslot : string; x : float; y : float }.

Definition header_line : string :=
  "# basename          modelbase           ditherx dithery                seeing norm airmass"
  +:+ String Py.nl "".

Definition creation_msg (what : string) (n expected : nat) : string :=
  "The number of elements in '" +:+ what +:+ "' (" +:+ Py.str_of_nat n
  +:+ ") doesn't agree with the expected number of dithers ("
  +:+ Py.str_of_nat expected +:+ ")".

Section Create.

(** The focal plane and the shot, which the module takes from outside, and
    the three formats of a number in a line of the file: [{:f}], [{:4.3f}]
    and [{:5.4f}]. *)
Variable by_id : string -> string -> outcome ifu_place.
Variable fwhm : float -> float -> nat -> outcome float.
Variable normalisation : float -> float -> nat -> outcome float.
Variable fmt_f : float -> string.
Variable fmt_4_3f : float -> string.
Variable fmt_5_4f : float -> string.

(** [DitherCreator.dxs] and [DitherCreator.dys] *)
Definition dxs (c : Dither.creator) (id_ idtype : string) : outcome (list float) :=
  try ifu <- by_id id_ idtype; getitem (Dither.ifu_dxs c) (ifuslot ifu).
Definition dys (c : Dither.creator) (id_ idtype : string) : outcome (list float) :=
  try ifu <- by_id id_ idtype; getitem (Dither.ifu_dys c) (ifuslot ifu).

(** One line of the file. *)
Definition dither_line (bn mb : string) (dx dy seeing norm airmass : float)
  : string :=
  bn +:+ " " +:+ mb +:+ " " +:+ fmt_f dx +:+ " " +:+ fmt_f dy +:+ " "
  +:+ fmt_4_3f seeing +:+ " " +:+ fmt_5_4f norm +:+ " " +:+ fmt_5_4f airmass
  +:+ String Py.nl "".

(** The loop over [zip(it.count(start=1), basenames, modelbases, dxs, dys)],
    from the dither number [dither]: it ends with the shortest list. *)
Fixpoint dither_lines (ifu : ifu_place) (dither : nat)
  (basenames modelbases : list string) (dxs dys : list float)
  : outcome (list string) :=
  match basenames, modelbases, dxs, dys with
  | bn :: basenames, mb :: modelbases, dx :: dxs, dy :: dys =>
      try seeing <- fwhm (x ifu) (y ifu) dither;
      try norm <- normalisation (x ifu) (y ifu) dither;
      let airmass := 1.22%float in
      try rest <- dither_lines ifu (S dither) basenames modelbases dxs dys;
      Return (dither_line bn mb dx dy seeing norm airmass :: rest)
  | _, _, _, _ => Return []
  end.

(** [create_dither]: the text written to [outfile], or the exception raised
    before the file is opened. *)
Definition create_dither (c : Dither.creator) (id_ : string)
  (basenames modelbases : list string) (idtype : string) : outcome string :=
  try ifu <- by_id id_ idtype;
  try dxs <- dxs c id_ idtype;
  try dys <- dys c id_ idtype;
  if negb (length basenames =? length dxs)%nat
  then Throw (DitherCreationError
                (creation_msg "basenames" (length basenames) (length dxs)))
  else if negb (length modelbases =? length dxs)%nat
  then Throw (DitherCreationError
                (creation_msg "modelbases" (length modelbases) (length dxs)))
  else
    try lines <- dither_lines ifu 1 basenames modelbases dxs dys;
    Return (header_line +:+ FileTools.join lines).

End Create.

(** ** Facts about [from_file] *)

Lemma and_then_Return {A B} (r : outcome A) (k : A -> outcome B) (b : B) :
  and_then r k = Return b -> exists a, r = Return a /\ k a = Return b.
Proof. destruct r as [a|e]; [by eauto|discriminate]. Qed.

Lemma read_positions_blank ls :
  Exists (fun l => Py.split (Py.strip l) = []) ls ->
  read_positions ls = Throw IndexError.
Proof.
  induction 1 as [l ls Hl|l ls _ IH]; cbn [read_positions].
  - by rewrite Hl.
  - destruct (Py.split (Py.strip l)); [done|]. by rewrite IH.
Qed.

(** X15. A file of positions with a line that holds no word, an empty line at its
    end for one, cannot be read: [from_file] raises [IndexError], whatever
    the other lines hold. *)
Theorem from_file_blank_line float_of_string text :
  Exists (fun l => Py.split (Py.strip l) = []) (Py.readlines text) ->
  from_file float_of_string text = Throw IndexError.
Proof. intros H. unfold from_file. by rewrite (read_positions_blank _ H). Qed.

Lemma read_positions_app l1 l2 :
  read_positions (l1 ++ l2)
  = try rows1 <- read_positions l1;
    try rows2 <- read_positions l2;
    Return (rows1 ++ rows2).
Proof.
  induction l1 as [|l l1 IH]; cbn [app read_positions and_then].
  - by destruct (read_positions l2).
  - destruct (Py.split (Py.strip l)) as [|el0 els]; [done|]. rewrite IH.
    destruct (read_positions l1) as [rows1|]; [|done]. cbn [and_then].
    destruct (read_positions l2) as [rows2|]; [|done]. cbn [and_then].
    by destruct (Py.contains "#" el0).
Qed.

(** X16. A line whose first word holds the comment mark, at its start or further
    on, counts for nothing: two files that differ by such a line give the
    same table, or the same exception. *)
Theorem from_file_comment float_of_string text text' l1 line l2 el0 els :
  Py.readlines text = l1 ++ line :: l2 ->
  Py.readlines text' = l1 ++ l2 ->
  Py.split (Py.strip line) = el0 :: els ->
  Py.contains "#" el0 = true ->
  from_file float_of_string text = from_file float_of_string text'.
Proof.
  intros H H' Hs Hc. unfold from_file. rewrite H, H', !read_positions_app.
  destruct (read_positions l1) as [rows1|]; [|done]. cbn [and_then read_positions].
  rewrite Hs, Hc. by destruct (read_positions l2).
Qed.

(** ** Facts about the names *)

Section NamesFacts.

Variable format : string -> string -> nat -> outcome string.

Lemma format_from_lookup i names id_ outs :
  format_from format i names id_ = Return outs ->
  length outs = length names
  /\ forall j name, names !! j = Some name ->
       exists out, outs !! j = Some out
                   /\ format name id_ (i + j + 1) = Return out.
Proof.
  revert i outs. induction names as [|name0 names IH]; intros i outs;
    cbn [format_from].
  - intros [= <-]. split; [done|]. intros j name. by rewrite lookup_nil.
  - intros (out & Hout & H)%and_then_Return.
    apply and_then_Return in H as (outs' & Houts & [= <-]).
    destruct (IH _ _ Houts) as [Hlen Hnth]. split; [cbn; by rewrite Hlen|].
    intros [|j] name; cbn.
    + intros [= <-]. exists out. by rewrite Nat.add_0_r.
    + intros Hj. destruct (Hnth _ _ Hj) as (o & Ho & Hf). exists o.
      split; [done|]. by replace (i + S j + 1)%nat with (S i + j + 1)%nat by lia.
Qed.

(** X17. A single name stands for all the dithers: [format_names] gives
    [n_dithers] names, the name formatted with the dither numbers 1, 2 and
    so on. *)
Theorem format_names_single name n_dithers id_ outs :
  format_names format [name] n_dithers id_ = Return outs ->
  length outs = n_dithers
  /\ forall j, (j < n_dithers)%nat ->
       exists out, outs !! j = Some out /\ format name id_ (j + 1) = Return out.
Proof.
  unfold format_names. intros [Hlen Hnth]%format_from_lookup.
  rewrite length_replicate in Hlen. split; [done|].
  intros j Hj. apply (Hnth j name). by apply lookup_replicate_2.
Qed.

(** X18. When [check_dithers] passes, the names formatted for [n_dithers] dithers
    are [n_dithers], base names and model base names alike. *)
Theorem check_dithers_format_names n_dithers basenames modelbases id_ bs ms :
  check_dithers n_dithers basenames modelbases = true ->
  format_names format basenames n_dithers id_ = Return bs ->
  format_names format modelbases n_dithers id_ = Return ms ->
  length bs = n_dithers /\ length ms = n_dithers.
Proof.
  assert (Hone : forall names outs,
             (length names =? 1)%nat || (length names =? n_dithers)%nat = true ->
             format_names format names n_dithers id_ = Return outs ->
             length outs = n_dithers).
  { intros names outs Hn. unfold format_names.
    destruct names as [|name [|name' names]].
    - intros [Hlen _]%format_from_lookup. apply orb_true_iff in Hn as [Hn|Hn];
        apply Nat.eqb_eq in Hn; cbn in *; lia.
    - intros [Hlen _]%format_from_lookup. by rewrite length_replicate in Hlen.
    - intros [Hlen _]%format_from_lookup. apply orb_true_iff in Hn as [Hn|Hn];
        apply Nat.eqb_eq in Hn; cbn in *; lia. }
  unfold check_dithers. intros [Hb Hm]%andb_true_iff Hbs Hms. split; eauto.
Qed.

End NamesFacts.

(** ** Facts about [create_dither] *)

Section CreateFacts.

Variable by_id : string -> string -> outcome ifu_place.
Variable fwhm : float -> float -> nat -> outcome float.
Variable normalisation : float -> float -> nat -> outcome float.
Variable fmt_f : float -> string.
Variable fmt_4_3f : float -> string.
Variable fmt_5_4f : float -> string.

Local Abbreviation create_dither :=
  (create_dither by_id fwhm normalisation fmt_f fmt_4_3f fmt_5_4f).
Local Abbreviation dither_lines :=
  (dither_lines fwhm normalisation fmt_f fmt_4_3f fmt_5_4f).

(** An IFU of the focal plane whose slot has no row in the table of
    positions has no shifts: [dxs] and [create_dither] raise [KeyError]. *)
Theorem create_dither_no_positions c id_ basenames modelbases idtype ifu :
  by_id id_ idtype = Return ifu ->
  Dither.ifu_dxs c !! ifuslot ifu = None ->
  dxs by_id c id_ idtype = Throw (KeyError (ifuslot ifu))
  /\ create_dither c id_ basenames modelbases idtype
     = Throw (KeyError (ifuslot ifu)).
Proof.
  intros Hid Hx. unfold DitherFile.create_dither, dxs, getitem.
  rewrite Hid. cbn [and_then]. by rewrite Hx.
Qed.

(** [create_dither] wants as many base names, and as many model base names,
    as the IFU has dithers: otherwise it raises [DitherCreationError] and
    writes nothing, the message giving the two numbers, for the base names
    first. *)
Theorem create_dither_counts c id_ basenames modelbases idtype ifu xs ys :
  by_id id_ idtype = Return ifu ->
  Dither.ifu_dxs c !! ifuslot ifu = Some xs ->
  Dither.ifu_dys c !! ifuslot ifu = Some ys ->
  (length basenames <> length xs ->
   create_dither c id_ basenames modelbases idtype
   = Throw (DitherCreationError
              (creation_msg "basenames" (length basenames) (length xs))))
  /\ (length basenames = length xs -> length modelbases <> length xs ->
      create_dither c id_ basenames modelbases idtype
      = Throw (DitherCreationError
                 (creation_msg "modelbases" (length modelbases) (length xs)))).
Proof.
  intros Hid Hx Hy. unfold DitherFile.create_dither, dxs, dys, getitem.
  rewrite Hid. cbn [and_then]. rewrite Hx, Hy. cbn [and_then]. split.
  - intros Hb. by destruct (Nat.eqb_spec (length basenames) (length xs)).
  - intros Hb Hm.
    destruct (Nat.eqb_spec (length basenames) (length xs)); [|done].
    by destruct (Nat.eqb_spec (length modelbases) (length xs)).
Qed.

End CreateFacts.

(** ** Reading back what [create_dither] writes *)

(** Splitting on white space goes through a white space character. *)
Lemma split_go_space tok a c b :
  Py.isspace c = true ->
  Py.split_go tok (a +:+ String c b) = Py.split_go tok a ++ Py.split_go "" b.
Proof.
  intros Hc. revert tok. induction a as [|x a IH]; intros tok.
  - rewrite FileTools.append_nil_l. cbn [Py.split_go]. rewrite Hc.
    by destruct (String.eqb tok "").
  - rewrite FileTools.append_cons. cbn [Py.split_go].
    destruct (Py.isspace x); [|apply IH].
    destruct (String.eqb tok ""); by rewrite IH.
Qed.

Lemma split_space a c b :
  Py.isspace c = true ->
  Py.split (a +:+ String c b) = Py.split a ++ Py.split b.
Proof. apply split_go_space. Qed.

Lemma contains_app c a b :
  Py.contains c (a +:+ b) = Py.contains c a || Py.contains c b.
Proof.
  induction a as [|x a IH]; [reflexivity|].
  rewrite FileTools.append_cons. cbn [Py.contains]. by rewrite IH, orb_assoc.
Qed.

(** A text with no newline, followed by a newline, is read as one line. *)
Lemma readlines_line l rest :
  Py.contains Py.nl l = false ->
  Py.readlines (l +:+ String Py.nl rest) = (l +:+ String Py.nl "") :: Py.readlines rest.
Proof.
  induction l as [|x l IH].
  - intros _. rewrite !FileTools.append_nil_l. cbn [Py.readlines].
    by rewrite Ascii.eqb_refl.
  - cbn [Py.contains]. intros [Hx Hl]%orb_false_iff.
    rewrite !FileTools.append_cons. cbn [Py.readlines]. by rewrite Hx, (IH Hl).
Qed.

(** A field of a line: a text with no newline that holds one word. *)
Definition one_field (s : string) : Prop :=
  Py.contains Py.nl s = false /\ exists w, Py.split s = [w].

(** A line of text, ended by its newline. *)
Definition ended_line (l : string) : Prop :=
  exists body, l = body +:+ String Py.nl "" /\ Py.contains Py.nl body = false.

(** A text made of lines is read as those lines. *)
Lemma readlines_join lines :
  Forall ended_line lines -> Py.readlines (FileTools.join lines) = lines.
Proof.
  induction 1 as [|l lines (body & -> & Hb) _ IH]; [reflexivity|].
  rewrite FileTools.join_cons, !FileTools.append_assoc, FileTools.append_cons,
    FileTools.append_nil_l, readlines_line by done.
  by rewrite IH.
Qed.

Lemma Forall_drop_comments (P : string -> Prop) ls :
  Forall P ls -> Forall P (FileTools.drop_comments ls).
Proof.
  induction 1 as [|l ls Hl Hls IH]; cbn [FileTools.drop_comments]; [done|].
  destruct (FileTools.is_comment l); [done|by constructor].
Qed.

Section ReadBack.

Variable by_id : string -> string -> outcome ifu_place.
Variable fwhm : float -> float -> nat -> outcome float.
Variable normalisation : float -> float -> nat -> outcome float.
Variable fmt_f : float -> string.
Variable fmt_4_3f : float -> string.
Variable fmt_5_4f : float -> string.

Hypothesis fmt_f_field : forall x, one_field (fmt_f x).
Hypothesis fmt_4_3f_field : forall x, one_field (fmt_4_3f x).
Hypothesis fmt_5_4f_field : forall x, one_field (fmt_5_4f x).

Local Abbreviation create_dither :=
  (create_dither by_id fwhm normalisation fmt_f fmt_4_3f fmt_5_4f).
Local Abbreviation dither_lines :=
  (dither_lines fwhm normalisation fmt_f fmt_4_3f fmt_5_4f).
Local Abbreviation dither_line := (dither_line fmt_f fmt_4_3f fmt_5_4f).

Lemma space_is_space : Py.isspace " " = true.
Proof. reflexivity. Qed.

Lemma nl_is_space : Py.isspace Py.nl = true.
Proof. reflexivity. Qed.

(** A line made of fields is a line of text that unpacks into seven
    fields. *)
Lemma dither_line_unpacks bn mb dx dy seeing norm airmass :
  one_field bn -> one_field mb ->
  ended_line (dither_line bn mb dx dy seeing norm airmass)
  /\ is_Some (Dither.unpack (Py.split (dither_line bn mb dx dy seeing norm airmass))).
Proof.
  intros [Hbn [w1 H1]] [Hmb [w2 H2]].
  destruct (fmt_f_field dx) as [Hn3 [w3 H3]].
  destruct (fmt_f_field dy) as [Hn4 [w4 H4]].
  destruct (fmt_4_3f_field seeing) as [Hn5 [w5 H5]].
  destruct (fmt_5_4f_field norm) as [Hn6 [w6 H6]].
  destruct (fmt_5_4f_field airmass) as [Hn7 [w7 H7]].
  split.
  - exists (bn +:+ " " +:+ mb +:+ " " +:+ fmt_f dx +:+ " " +:+ fmt_f dy +:+ " "
            +:+ fmt_4_3f seeing +:+ " " +:+ fmt_5_4f norm +:+ " "
            +:+ fmt_5_4f airmass).
    split; [unfold DitherFile.dither_line; by rewrite !FileTools.append_assoc|].
    rewrite !contains_app, Hbn, Hmb, Hn3, Hn4, Hn5, Hn6, Hn7. reflexivity.
  - change (dither_line bn mb dx dy seeing norm airmass)
      with (bn +:+ String " " (mb +:+ String " " (fmt_f dx +:+ String " "
              (fmt_f dy +:+ String " " (fmt_4_3f seeing +:+ String " "
                 (fmt_5_4f norm +:+ String " "
                    (fmt_5_4f airmass +:+ String Py.nl ""))))))).
    rewrite !split_space by reflexivity.
    rewrite H1, H2, H3, H4, H5, H6, H7. cbn. eauto.
Qed.

Lemma dither_lines_shape ifu dither basenames modelbases xs ys lines :
  Forall one_field basenames -> Forall one_field modelbases ->
  dither_lines ifu dither basenames modelbases xs ys = Return lines ->
  Forall (fun l => ended_line l /\ is_Some (Dither.unpack (Py.split l))) lines
  /\ length lines
     = Nat.min (Nat.min (length basenames) (length modelbases))
         (Nat.min (length xs) (length ys)).
Proof.
  intros Hbs. revert dither modelbases xs ys lines.
  induction Hbs as [|bn basenames Hbn _ IH]; intros dither modelbases xs ys lines Hms;
    cbn [DitherFile.dither_lines]; [by intros [= <-]|].
  destruct Hms as [|mb modelbases Hmb Hms]; [by intros [= <-]|].
  destruct xs as [|dx xs]; [intros [= <-]; split; [done|cbn; lia]|].
  destruct ys as [|dy ys]; [intros [= <-]; split; [done|cbn; lia]|].
  intros (seeing & _ & H)%and_then_Return.
  apply and_then_Return in H as (norm & _ & H).
  apply and_then_Return in H as (rest & Hrest & [= <-]).
  destruct (IH _ _ _ _ _ Hms Hrest) as [Hall Hlen]. split.
  - constructor; [by apply dither_line_unpacks|done].
  - cbn [length]. rewrite Hlen. lia.
Qed.

(** What [create_dither] writes is read as a header line and the lines of
    the dithers. *)
Lemma create_dither_text c id_ basenames modelbases idtype s :
  Forall one_field basenames -> Forall one_field modelbases ->
  create_dither c id_ basenames modelbases idtype = Return s ->
  exists xs ys lines,
    dxs by_id c id_ idtype = Return xs /\ dys by_id c id_ idtype = Return ys
    /\ length basenames = length xs /\ length modelbases = length xs
    /\ Py.readlines s = header_line :: lines
    /\ Forall (fun l => ended_line l /\ is_Some (Dither.unpack (Py.split l))) lines
    /\ length lines = Nat.min (length xs) (length ys).
Proof.
  intros Hbs Hms. unfold DitherFile.create_dither.
  intros (ifu & Hid & H)%and_then_Return.
  apply and_then_Return in H as (xs & Hxs & H).
  apply and_then_Return in H as (ys & Hys & H).
  destruct (Nat.eqb_spec (length basenames) (length xs)) as [Hb|]; [|done].
  destruct (Nat.eqb_spec (length modelbases) (length xs)) as [Hm|]; [|done].
  cbn [negb] in H. apply and_then_Return in H as (lines & Hlines & [= <-]).
  destruct (dither_lines_shape _ _ _ _ _ _ _ Hbs Hms Hlines) as [Hall Hlen].
  exists xs, ys, lines. repeat split; try done.
  - unfold header_line.
    rewrite FileTools.append_assoc, (FileTools.append_cons Py.nl ""),
      FileTools.append_nil_l, readlines_line by reflexivity.
    f_equal. apply readlines_join. eapply Forall_impl; [exact Hall|]. by intros l [? _].
  - rewrite Hlen. lia.
Qed.


(** X20. For a table in which the shifts go in pairs, as [DitherCreator] builds
    it, the file holds the header line and one line for each dither of the
    IFU. *)
Theorem create_dither_one_line_per_dither c id_ basenames modelbases idtype s xs :
  Forall one_field basenames -> Forall one_field modelbases ->
  Dither.paired c ->
  dxs by_id c id_ idtype = Return xs ->
  create_dither c id_ basenames modelbases idtype = Return s ->
  exists lines,
    Py.readlines s = header_line :: lines /\ length lines = length xs.
Proof.
  intros Hbs Hms Hp Hxs Hs.
  destruct (create_dither_text _ _ _ _ _ _ Hbs Hms Hs)
    as (xs' & ys & lines & Hxs' & Hys & _ & _ & Hrl & _ & Hlen).
  rewrite Hxs in Hxs'. injection Hxs' as <-.
  exists lines. split; [done|]. rewrite Hlen.
  unfold dxs, dys, getitem in Hxs, Hys.
  destruct (by_id id_ idtype) as [ifu|]; [|done]. cbn [and_then] in Hxs, Hys.
  specialize (Hp (ifuslot ifu)).
  destruct (Dither.ifu_dxs c !! ifuslot ifu); [|done].
  destruct (Dither.ifu_dys c !! ifuslot ifu); [|done].
  injection Hxs as ->. injection Hys as ->. lia.
Qed.

End ReadBack.

(** ** Reading a file that was written *)

Section ParseBack.

Variable float_of_string : string -> option float.
Variable hash_first : list string -> nat.
Variable by_id : string -> string -> outcome ifu_place.
Variable fwhm : float -> float -> nat -> outcome float.
Variable normalisation : float -> float -> nat -> outcome float.
Variable fmt_f : float -> string.
Variable fmt_4_3f : float -> string.
Variable fmt_5_4f : float -> string.

(** A number is written as one word, and [float()] reads that word. *)
Definition number_field (s : string) : Prop :=
  one_field s /\ forall w, Py.split s = [w] -> is_Some (float_of_string w).

Hypothesis fmt_f_number : forall x, number_field (fmt_f x).
Hypothesis fmt_4_3f_number : forall x, number_field (fmt_4_3f x).
Hypothesis fmt_5_4f_number : forall x, number_field (fmt_5_4f x).

Local Abbreviation create_dither :=
  (create_dither by_id fwhm normalisation fmt_f fmt_4_3f fmt_5_4f).
Local Abbreviation dither_lines :=
  (dither_lines fwhm normalisation fmt_f fmt_4_3f fmt_5_4f).
Local Abbreviation dither_line := (dither_line fmt_f fmt_4_3f fmt_5_4f).
Local Abbreviation read_line := (Dither.read_line float_of_string hash_first).
Local Abbreviation read_lines := (Dither.read_lines float_of_string hash_first).
Local Abbreviation ParseDither := (Dither.ParseDither float_of_string hash_first).

(** The words of a line are the words of its fields. *)
Lemma dither_line_split bn mb dx dy seeing norm airmass :
  Py.split (dither_line bn mb dx dy seeing norm airmass)
  = Py.split bn ++ Py.split mb ++ Py.split (fmt_f dx) ++ Py.split (fmt_f dy)
    ++ Py.split (fmt_4_3f seeing) ++ Py.split (fmt_5_4f norm)
    ++ Py.split (fmt_5_4f airmass).
Proof.
  change (dither_line bn mb dx dy seeing norm airmass)
    with (bn +:+ String " " (mb +:+ String " " (fmt_f dx +:+ String " "
            (fmt_f dy +:+ String " " (fmt_4_3f seeing +:+ String " "
               (fmt_5_4f norm +:+ String " "
                  (fmt_5_4f airmass +:+ String Py.nl ""))))))).
  rewrite !split_space by reflexivity. cbn [Py.split Py.split_go String.eqb].
  by rewrite app_nil_r.
Qed.

Lemma set_first_nonempty l :
  l <> [] -> is_Some (Dither.set_first hash_first l).
Proof.
  intros Hne. unfold Dither.set_first. apply lookup_lt_is_Some.
  apply Nat.mod_upper_bound. destruct l as [|x l]; [done|]. cbn. lia.
Qed.

(** A model base name that holds a dither key, the letter D and a digit. *)
Definition has_key (mb : string) : Prop :=
  forall w, Py.split mb = [w] -> Py.findall_Dd w <> [].

(** A line [_read_dither] takes in, whatever came before it. *)
Definition parses (l : string) : Prop :=
  forall st, exists st', read_line l st = Ok st'.

Lemma dither_line_parses bn mb dx dy seeing norm airmass :
  one_field bn -> one_field mb -> has_key mb ->
  parses (dither_line bn mb dx dy seeing norm airmass).
Proof.
  intros [_ [w1 H1]] [_ [w2 H2]] Hkey [loc d].
  destruct (fmt_f_number dx) as [[_ [w3 H3]] F3].
  destruct (fmt_f_number dy) as [[_ [w4 H4]] F4].
  destruct (fmt_4_3f_number seeing) as [[_ [w5 H5]] F5].
  destruct (fmt_5_4f_number norm) as [[_ [w6 H6]] F6].
  destruct (fmt_5_4f_number airmass) as [[_ [w7 H7]] F7].
  unfold Dither.read_line. rewrite dither_line_split, H1, H2, H3, H4, H5, H6, H7.
  cbn [app Dither.unpack Dither._d Dither._bn Dither._x Dither._y
       Dither._seeing Dither._norm Dither._airmass].
  destruct (set_first_nonempty _ (Hkey _ H2)) as [k ->].
  destruct (F3 _ H3) as [x3 ->], (F4 _ H4) as [x4 ->], (F5 _ H5) as [x5 ->],
    (F6 _ H6) as [x6 ->], (F7 _ H7) as [x7 ->].
  cbn. by eauto.
Qed.

Lemma dither_lines_parse ifu dither basenames modelbases xs ys lines :
  Forall one_field basenames -> Forall one_field modelbases ->
  Forall has_key modelbases ->
  dither_lines ifu dither basenames modelbases xs ys = Return lines ->
  Forall parses lines.
Proof.
  intros Hbs. revert dither modelbases xs ys lines.
  induction Hbs as [|bn basenames Hbn _ IH];
    intros dither modelbases xs ys lines Hms Hks;
    cbn [DitherFile.dither_lines]; [by intros [= <-]|].
  destruct Hms as [|mb modelbases Hmb Hms]; [by intros [= <-]|].
  destruct xs as [|dx xs]; [by intros [= <-]|].
  destruct ys as [|dy ys]; [by intros [= <-]|].
  inversion Hks as [|? ? Hk Hks']; subst.
  intros (seeing & _ & H)%and_then_Return.
  apply and_then_Return in H as (norm & _ & H).
  apply and_then_Return in H as (rest & Hrest & [= <-]).
  constructor; [by apply dither_line_parses|by eapply IH].
Qed.

Lemma read_lines_parse ls st :
  Forall parses ls -> exists st', read_lines ls st = Ok st'.
Proof.
  intros H. revert st. induction H as [|l ls Hl _ IH]; intros st;
    cbn [Dither.read_lines]; [by eauto|].
  destruct (Hl st) as [st1 ->]. cbn [bind]. apply IH.
Qed.

(** What [_read_dither] reads of a file [create_dither] has written: the
    lines of the dithers, but for those at the head that start with the
    comment mark. *)
Lemma create_dither_read c id_ basenames modelbases idtype s :
  Forall one_field basenames -> Forall one_field modelbases ->
  create_dither c id_ basenames modelbases idtype = Return s ->
  exists ifu xs ys lines,
    by_id id_ idtype = Return ifu
    /\ dxs by_id c id_ idtype = Return xs /\ dys by_id c id_ idtype = Return ys
    /\ length basenames = length xs
    /\ dither_lines ifu 1 basenames modelbases xs ys = Return lines
    /\ Py.readlines
         (FileTools.remaining (FileTools.skip_comments (FileTools.mkfile s 0)))
       = FileTools.drop_comments lines.
Proof.
  intros Hbs Hms. unfold DitherFile.create_dither.
  intros (ifu & Hid & H)%and_then_Return.
  apply and_then_Return in H as (xs & Hxs & H).
  apply and_then_Return in H as (ys & Hys & H).
  destruct (Nat.eqb_spec (length basenames) (length xs)) as [Hb|]; [|done].
  destruct (Nat.eqb_spec (length modelbases) (length xs)) as [Hm|]; [|done].
  cbn [negb] in H. apply and_then_Return in H as (lines & Hlines & [= <-]).
  exists ifu, xs, ys, lines. do 5 (split; [done|]).
  assert (Hfields : forall (f : float -> string),
             (forall x, number_field (f x)) -> forall x, one_field (f x))
    by (intros f Hf x; apply Hf).
  destruct (dither_lines_shape fwhm normalisation fmt_f fmt_4_3f fmt_5_4f
              (Hfields _ fmt_f_number) (Hfields _ fmt_4_3f_number)
              (Hfields _ fmt_5_4f_number) _ _ _ _ _ _ _ Hbs Hms Hlines)
    as [Hall _].
  assert (Hended : Forall ended_line lines)
    by (eapply Forall_impl; [exact Hall|]; by intros l [? _]).
  rewrite FileTools.remaining_skip_comments.
  change (FileTools.remaining (FileTools.mkfile (header_line +:+ FileTools.join lines) 0))
    with (header_line +:+ FileTools.join lines).
  unfold header_line.
  rewrite FileTools.append_assoc, (FileTools.append_cons Py.nl ""),
    FileTools.append_nil_l, readlines_line by reflexivity.
  rewrite (readlines_join _ Hended).
  change (FileTools.drop_comments (?h :: lines)) with (FileTools.drop_comments lines).
  apply readlines_join. by apply Forall_drop_comments.
Qed.



End ParseBack.

(** ** The theorems on a shot of three dithers *)

(** [name.format(id=id_, dither=n)] for names that hold their text and the
    two fields [{id}] and [{dither}]; a brace of any other use is given as a
    [KeyError]. *)
Fixpoint format_go (id_ : string) (dither skip : nat) (s : string)
  : outcome string :=
  match s with
  | EmptyString => Return ""
  | String c s' =>
      match skip with
      | S k => format_go id_ dither k s'
      | O =>
          if Py.startswith "{id}" s
          then try r <- format_go id_ dither 3 s'; Return (id_ +:+ r)
          else if Py.startswith "{dither}" s
          then try r <- format_go id_ dither 7 s';
               Return (Py.str_of_nat dither +:+ r)
          else if Ascii.eqb c "{" || Ascii.eqb c "}" then Throw (KeyError "")
          else try r <- format_go id_ dither 0 s'; Return (String c r)
      end
  end.

Definition sample_format (name id_ : string) (dither : nat) : outcome string :=
  format_go id_ dither 0 name.

(** The focal plane of the sample knows the IFU 046, in the slot 046, and
    the shot has a seeing of 1.6 and a normalisation of 1. *)
Definition sample_by_id (id_ idtype : string) : outcome ifu_place :=
  if String.eqb id_ "046" then Return (mkplace "046" 0 0)
  else if String.eqb id_ "047" then Return (mkplace "047" 100 0)
  else Throw (KeyError id_).
Definition sample_fwhm (x y : float) (dither : nat) : outcome float :=
  Return 1.6%float.
Definition sample_normalisation (x y : float) (dither : nat) : outcome float :=
  Return 1%float.

(** The three formats on the numbers of the sample; any other number is
    written as a NaN is. *)
Definition sample_fmt_f (x : float) : string :=
  if PrimFloat.eqb x 0 then "0.000000"
  else if PrimFloat.eqb x 0.61 then "0.610000"
  else if PrimFloat.eqb x 1.07 then "1.070000"
  else if PrimFloat.eqb x 1.23 then "1.230000"
  else "nan".
Definition sample_fmt_4_3f (x : float) : string :=
  if PrimFloat.eqb x 1.6 then "1.600" else " nan".
Definition sample_fmt_5_4f (x : float) : string :=
  if PrimFloat.eqb x 1 then "1.0000"
  else if PrimFloat.eqb x 1.22 then "1.2200"
  else "  nan".

Lemma sample_fmt_f_field x : one_field (sample_fmt_f x).
Proof.
  unfold sample_fmt_f.
  repeat (destruct (PrimFloat.eqb x _); [by split; [|eexists]|]).
  by split; [|eexists].
Qed.

Lemma sample_fmt_4_3f_field x : one_field (sample_fmt_4_3f x).
Proof.
  unfold sample_fmt_4_3f.
  repeat (destruct (PrimFloat.eqb x _); [by split; [|eexists]|]).
  by split; [|eexists].
Qed.

Lemma sample_fmt_5_4f_field x : one_field (sample_fmt_5_4f x).
Proof.
  unfold sample_fmt_5_4f.
  repeat (destruct (PrimFloat.eqb x _); [by split; [|eexists]|]).
  by split; [|eexists].
Qed.

Definition sample_positions : string :=
  Py.unlines ["# ifuslot x1 x2 x3 y1 y2 y3";
              "046 0.00 0.61 1.23 0.00 1.07 0.00"].

Definition sample_creator : Dither.creator :=
  Dither.mkcreator {["046" := [0; 0.61; 1.23]%float]}
                   {["046" := [0; 1.07; 0]%float]}.

Definition sample_names : list string :=
  ["SIMDEX-obs-1_D1_046"; "SIMDEX-obs-1_D2_046"; "SIMDEX-obs-1_D3_046"].

Definition sample_text : string :=
  header_line +:+ Py.unlines
    ["SIMDEX-obs-1_D1_046 SIMDEX-obs-1_D1_046 0.000000 0.000000 1.600 1.0000 1.2200";
     "SIMDEX-obs-1_D2_046 SIMDEX-obs-1_D2_046 0.610000 1.070000 1.600 1.0000 1.2200";
     "SIMDEX-obs-1_D3_046 SIMDEX-obs-1_D3_046 1.230000 0.000000 1.600 1.0000 1.2200"].

Lemma sample_names_fields : Forall one_field sample_names.
Proof. repeat constructor; by eexists. Qed.

Lemma from_file_sample :
  from_file Ref.float_of_string sample_positions = Return sample_creator.
Proof. vm_compute. reflexivity. Qed.

Lemma format_names_sample :
  format_names sample_format ["SIMDEX-obs-1_D{dither}_{id}"] 3 "046"
  = Return sample_names.
Proof. vm_compute. reflexivity. Qed.

Lemma create_dither_sample :
  create_dither sample_by_id sample_fwhm sample_normalisation
    sample_fmt_f sample_fmt_4_3f sample_fmt_5_4f
    sample_creator "046" sample_names sample_names "ifuslot"
  = Return sample_text.
Proof. vm_compute. reflexivity. Qed.

(** The file written for the sample is read back by [ParseDither] as the
    dither file of the documentation. *)
Lemma ParseDither_create_dither_sample :
  Dither.ParseDither Ref.float_of_string (fun _ => 0%nat) sample_text
  = Ok Dither.sample_dither.
Proof. vm_compute. reflexivity. Qed.

Lemma from_file_blank_line_sample :
  from_file Ref.float_of_string
    (Py.unlines ["046 0.00 0.61 1.23 0.00 1.07 0.00"; ""])
  = Throw IndexError.
Proof.
  apply from_file_blank_line. apply Exists_cons_tl, Exists_cons_hd. reflexivity.
Defined.

Lemma from_file_comment_sample :
  from_file Ref.float_of_string
    (Py.unlines ["046 0.00 0.61 1.23 0.00 1.07 0.00";
                 "047#old 0.00 0.61";
                 "047 0.50 0.25"])
  = from_file Ref.float_of_string
      (Py.unlines ["046 0.00 0.61 1.23 0.00 1.07 0.00"; "047 0.50 0.25"]).
Proof.
  apply (from_file_comment Ref.float_of_string _ _
           [Py.unlines ["046 0.00 0.61 1.23 0.00 1.07 0.00"]]
           (Py.unlines ["047#old 0.00 0.61"])
           [Py.unlines ["047 0.50 0.25"]] "047#old" ["0.00"; "0.61"]);
    reflexivity.
Defined.

Lemma format_names_single_sample :
  length sample_names = 3%nat
  /\ forall j, (j < 3)%nat ->
       exists out, sample_names !! j = Some out
         /\ sample_format "SIMDEX-obs-1_D{dither}_{id}" "046" (j + 1) = Return out.
Proof.
  exact (format_names_single sample_format "SIMDEX-obs-1_D{dither}_{id}" 3 "046"
           sample_names format_names_sample).
Defined.

Lemma check_dithers_format_names_sample :
  length sample_names = 3%nat /\ length sample_names = 3%nat.
Proof.
  exact (check_dithers_format_names sample_format 3
           ["SIMDEX-obs-1_D{dither}_{id}"] sample_names "046"
           sample_names sample_names eq_refl format_names_sample eq_refl).
Defined.

Lemma create_dither_no_positions_sample :
  dxs sample_by_id sample_creator "047" "ifuslot" = Throw (KeyError "047")
  /\ create_dither sample_by_id sample_fwhm sample_normalisation
       sample_fmt_f sample_fmt_4_3f sample_fmt_5_4f
       sample_creator "047" sample_names sample_names "ifuslot"
     = Throw (KeyError "047").
Proof.
  exact (create_dither_no_positions sample_by_id sample_fwhm sample_normalisation
           sample_fmt_f sample_fmt_4_3f sample_fmt_5_4f sample_creator "047"
           sample_names sample_names "ifuslot" (mkplace "047" 100 0)
           eq_refl eq_refl).
Defined.

Lemma create_dither_counts_sample :
  create_dither sample_by_id sample_fwhm sample_normalisation
    sample_fmt_f sample_fmt_4_3f sample_fmt_5_4f
    sample_creator "046" ["SIMDEX-obs-1_D1_046"] sample_names "ifuslot"
  = Throw (DitherCreationError
      "The number of elements in 'basenames' (1) doesn't agree with the expected number of dithers (3)")
  /\ create_dither sample_by_id sample_fwhm sample_normalisation
       sample_fmt_f sample_fmt_4_3f sample_fmt_5_4f
       sample_creator "046" sample_names ["masterflat_046"] "ifuslot"
     = Throw (DitherCreationError
         "The number of elements in 'modelbases' (1) doesn't agree with the expected number of dithers (3)").
Proof.
  split.
  - apply (proj1 (create_dither_counts sample_by_id sample_fwhm
                    sample_normalisation sample_fmt_f sample_fmt_4_3f
                    sample_fmt_5_4f sample_creator "046" ["SIMDEX-obs-1_D1_046"]
                    sample_names "ifuslot" (mkplace "046" 0 0)
                    [0; 0.61; 1.23]%float [0; 1.07; 0]%float
                    eq_refl eq_refl eq_refl)).
    cbn. lia.
  - apply (proj2 (create_dither_counts sample_by_id sample_fwhm
                    sample_normalisation sample_fmt_f sample_fmt_4_3f
                    sample_fmt_5_4f sample_creator "046" sample_names
                    ["masterflat_046"] "ifuslot" (mkplace "046" 0 0)
                    [0; 0.61; 1.23]%float [0; 1.07; 0]%float
                    eq_refl eq_refl eq_refl)); [reflexivity|cbn; lia].
Defined.


Lemma sample_creator_paired : Dither.paired sample_creator.
Proof.
  intros key. unfold sample_creator. cbn [Dither.ifu_dxs Dither.ifu_dys].
  destruct (decide (key = "046")) as [->|Hne]; [reflexivity|].
  by rewrite !lookup_singleton_ne.
Qed.

Lemma create_dither_one_line_per_dither_sample :
  exists lines,
    Py.readlines sample_text = header_line :: lines /\ length lines = 3%nat.
Proof.
  exact (create_dither_one_line_per_dither sample_by_id sample_fwhm
           sample_normalisation sample_fmt_f sample_fmt_4_3f sample_fmt_5_4f
           sample_fmt_f_field sample_fmt_4_3f_field sample_fmt_5_4f_field
           sample_creator "046" sample_names sample_names "ifuslot" sample_text
           [0; 0.61; 1.23]%float
           sample_names_fields sample_names_fields sample_creator_paired
           eq_refl create_dither_sample).
Defined.

(** ** Reading the file of the shot of three dithers *)

(** [float()] on the numbers of the sample, and on a NaN. *)
Definition sample_float (s : string) : option float :=
  if String.eqb s "nan" then Some PrimFloat.nan else Ref.float_of_string s.

Ltac sample_number :=
  split; [by split; [|eexists]|];
  let w := fresh "w" in let H := fresh "H" in
  intros w H; vm_compute in H; injection H as <-; vm_compute; by eexists.

Lemma sample_fmt_f_number x : number_field sample_float (sample_fmt_f x).
Proof.
  unfold sample_fmt_f.
  repeat (destruct (PrimFloat.eqb x _); [sample_number|]). sample_number.
Qed.

Lemma sample_fmt_4_3f_number x : number_field sample_float (sample_fmt_4_3f x).
Proof.
  unfold sample_fmt_4_3f.
  repeat (destruct (PrimFloat.eqb x _); [sample_number|]). sample_number.
Qed.

Lemma sample_fmt_5_4f_number x : number_field sample_float (sample_fmt_5_4f x).
Proof.
  unfold sample_fmt_5_4f.
  repeat (destruct (PrimFloat.eqb x _); [sample_number|]). sample_number.
Qed.

Lemma sample_names_keys : Forall has_key sample_names.
Proof.
  repeat constructor; intros w H; vm_compute in H; injection H as <-;
    vm_compute; discriminate.
Qed.

(** The model base names the command line gives by default, formatted for
    the IFU 046. *)
Definition masterflat_names : list string :=
  ["masterflat_046"; "masterflat_046"; "masterflat_046"].

Definition masterflat_text : string :=
  header_line +:+ Py.unlines
    ["SIMDEX-obs-1_D1_046 masterflat_046 0.000000 0.000000 1.600 1.0000 1.2200";
     "SIMDEX-obs-1_D2_046 masterflat_046 0.610000 1.070000 1.600 1.0000 1.2200";
     "SIMDEX-obs-1_D3_046 masterflat_046 1.230000 0.000000 1.600 1.0000 1.2200"].

Lemma create_dither_masterflat :
  create_dither sample_by_id sample_fwhm sample_normalisation
    sample_fmt_f sample_fmt_4_3f sample_fmt_5_4f
    sample_creator "046" sample_names masterflat_names "ifuslot"
  = Return masterflat_text.
Proof. vm_compute. reflexivity. Qed.

Lemma masterflat_names_fields : Forall one_field masterflat_names.
Proof. repeat constructor; by eexists. Qed.



(** ** [sort_basenames] and [create_dither_file] *)

(** The command line as [argument_parser] hands it over. *)
Record arguments : Type := mkargs {
  a_id : string;
  a_fplane : string;
  a_basenames : list string;
  a_outfile : string;
  a_modelbases : list string;
  a_id_type : string;
  a_fwhm : float;
  a_order_by : option string;
  a_use_hetpupil : bool;
  a_extension : string;
  a_ditherpos : list float;
  a_ditherpos_file : option string
}.

(** [if o:] for an option of the command line that is [None] or a string. *)
Definition truthy (o : option string) : bool :=
  match o with
  | Some s => negb (String.eqb s "")
  | None => false
  end.

(** [next(zip( *rows))]: the first elements of the rows, and
    [StopIteration] when there is no row. *)
Definition next_zip_star {V} (rows : list (string * V)) : outcome (list string) :=
  match rows with
  | [] => Throw StopIteration
  | _ => Return rows.*1
  end.

Section Command.

(** What the command takes from outside: [float()], [str.format], the
    focal plane, the shot with its [fwhm_fallback] and its illumination
    model, the three formats of a number, [fits.getval], [sorted] by the
    second element of a pair, and the text of a file that is opened. The
    focal plane file is taken to be one [FPlane] reads, and the comparisons
    of [sorted] not to raise. *)
Variable float_of_string : string -> option float.
Variable format : string -> string -> nat -> outcome string.
Variable by_id : string -> string -> outcome ifu_place.
Variable fwhm : float -> float -> float -> nat -> outcome float.
Variable Model : Type.
Variable HetpupilModel : list string -> outcome Model.
Variable normalisation : option Model -> float -> float -> nat -> outcome float.
Variable fmt_f : float -> string.
Variable fmt_4_3f : float -> string.
Variable fmt_5_4f : float -> string.
Variable Value : Type.
Variable getval : string -> string -> outcome Value.
Variable sorted_by_value : list (string * Value) -> list (string * Value).
Variable open_ : string -> outcome string.

(** [[fits.getval(bn + extension, headerkey, memmap=False) for bn in
    basenames]] *)
Fixpoint getvals (basenames : list string) (extension headerkey : string)
  : outcome (list Value) :=
  match basenames with
  | [] => Return []
  | bn :: basenames' =>
      try v <- getval (bn +:+ extension) headerkey;
      try vs <- getvals basenames' extension headerkey;
      Return (v :: vs)
  end.

Definition sort_basenames (basenames : list string) (extension headerkey : string)
  : outcome (list string) :=
  try values <- getvals basenames extension headerkey;
  next_zip_star (sorted_by_value (zip basenames values)).

(** [create_dither_file] after the command line is parsed, for the call
    [create] of [dithers.create_dither] on the shot: the name and the text
    of the file that is written, or the exception raised, [SystemExit] for
    [exit(1)]. *)
Definition create_dither_file_with
  (create : (float -> float -> nat -> outcome float) ->
            (float -> float -> nat -> outcome float) ->
            Dither.creator -> string -> list string -> list string -> string ->
            outcome string)
  (args : arguments) : outcome (string * string) :=
  try dithers <-
    (if truthy (a_ditherpos_file args)
     then try text <- open_ (default "" (a_ditherpos_file args));
          from_file float_of_string text
     else
       let dpos := (a_id args, map Dither.CFloat (a_ditherpos args)) in
       lift (Dither.DitherCreator float_of_string [dpos]));
  try xs <- dxs by_id dithers (a_id args) (a_id_type args);
  let n_dithers := length xs in
  if negb (check_dithers n_dithers (a_basenames args) (a_modelbases args))
  then Throw (SystemExit 1)
  else
    try basenames <- format_names format (a_basenames args) n_dithers (a_id args);
    try modelbases <- format_names format (a_modelbases args) n_dithers (a_id args);
    try basenames <-
      (if truthy (a_order_by args)
       then sort_basenames basenames (a_extension args)
              (default "" (a_order_by args))
       else Return basenames);
    try illumination_model <-
      (if a_use_hetpupil args
       then try hp_model <-
              HetpupilModel (map (fun b => b +:+ a_extension args) basenames);
            Return (Some hp_model)
       else Return None);
    try outfile <- format (a_outfile args) (a_id args) n_dithers;
    try text <- create (fwhm (a_fwhm args)) (normalisation illumination_model)
                  dithers (a_id args) basenames modelbases (a_id_type args);
    Return (outfile, text).

Definition create_dither_file : arguments -> outcome (string * string) :=
  create_dither_file_with
    (fun fwhm normalisation =>
       create_dither by_id fwhm normalisation fmt_f fmt_4_3f fmt_5_4f).

(** [create_dither] without its two checks of the numbers of names. *)
Definition write_dither (fwhm normalisation : float -> float -> nat -> outcome float)
  (c : Dither.creator) (id_ : string) (basenames modelbases : list string)
  (idtype : string) : outcome string :=
  try ifu <- by_id id_ idtype;
  try dxs <- dxs by_id c id_ idtype;
  try dys <- dys by_id c id_ idtype;
  try lines <- dither_lines fwhm normalisation fmt_f fmt_4_3f fmt_5_4f
                 ifu 1 basenames modelbases dxs dys;
  Return (header_line +:+ FileTools.join lines).

(** [sorted] returns the elements it is given, in some order. *)
Hypothesis sorted_by_value_perm : forall l, sorted_by_value l ≡ₚ l.

Lemma getvals_length basenames extension headerkey values :
  getvals basenames extension headerkey = Return values ->
  length values = length basenames.
Proof.
  revert values. induction basenames as [|bn basenames IH]; intros values;
    cbn [getvals].
  - by intros [= <-].
  - intros (v & _ & H)%and_then_Return.
    apply and_then_Return in H as (vs & Hvs & [= <-]). cbn. by rewrite (IH vs).
Qed.

Lemma sort_basenames_perm basenames extension headerkey sorted_basenames :
  sort_basenames basenames extension headerkey = Return sorted_basenames ->
  sorted_basenames ≡ₚ basenames.
Proof.
  unfold sort_basenames. intros (values & Hv%getvals_length & H)%and_then_Return.
  assert (Hperm : (sorted_by_value (zip basenames values)).*1 ≡ₚ basenames).
  { rewrite sorted_by_value_perm. by rewrite fst_zip by lia. }
  unfold next_zip_star in H.
  destruct (sorted_by_value (zip basenames values)) as [|r rows];
    [discriminate|].
  by injection H as <-.
Qed.

(** X23. [sort_basenames] gives back the base names it is given, in another
    order, when it returns; with no base name it does not return, it raises
    [StopIteration]. *)
Theorem sort_basenames_permutation basenames extension headerkey :
  sort_basenames [] extension headerkey = Throw StopIteration
  /\ forall sorted_basenames,
       sort_basenames basenames extension headerkey = Return sorted_basenames ->
       sorted_basenames ≡ₚ basenames.
Proof.
  assert (Hnil : sort_basenames [] extension headerkey = Throw StopIteration).
  { unfold sort_basenames. cbn [getvals and_then zip zip_with].
    pose proof (sorted_by_value_perm []) as H%Permutation_nil_r. by rewrite H. }
  split; [done|]. intros sorted_basenames H. by eapply sort_basenames_perm.
Qed.

Lemma format_names_length names n_dithers id_ outs :
  (length names =? 1)%nat || (length names =? n_dithers)%nat = true ->
  format_names format names n_dithers id_ = Return outs ->
  length outs = n_dithers.
Proof.
  intros Hn. unfold format_names. destruct names as [|name [|name' names]].
  - intros [Hlen _]%format_from_lookup. apply orb_true_iff in Hn as [Hn|Hn];
      apply Nat.eqb_eq in Hn; cbn in *; lia.
  - intros [Hlen _]%format_from_lookup. by rewrite length_replicate in Hlen.
  - intros [Hlen _]%format_from_lookup. apply orb_true_iff in Hn as [Hn|Hn];
      apply Nat.eqb_eq in Hn; cbn in *; lia.
Qed.

Lemma create_dither_checked fwhm' normalisation' c id_ basenames modelbases
    idtype xs :
  dxs by_id c id_ idtype = Return xs ->
  length basenames = length xs -> length modelbases = length xs ->
  create_dither by_id fwhm' normalisation' fmt_f fmt_4_3f fmt_5_4f
    c id_ basenames modelbases idtype
  = write_dither fwhm' normalisation' c id_ basenames modelbases idtype.
Proof.
  intros Hxs Hb Hm. unfold create_dither, write_dither. rewrite Hxs.
  destruct (by_id id_ idtype) as [ifu|]; [|done]. cbn [and_then].
  destruct (dys by_id c id_ idtype) as [ys|]; [|done]. cbn [and_then].
  by rewrite Hb, Hm, Nat.eqb_refl.
Qed.

(** X24. The checks [create_dither] makes of the numbers of names never fail
    under [create_dither_file]: the command has left with [exit(1)] before,
    or has formatted as many names as there are dithers, and sorting keeps
    their number. The command does what it would do without the checks. *)
Theorem create_dither_file_counts args :
  create_dither_file args = create_dither_file_with write_dither args.
Proof.
  unfold create_dither_file, create_dither_file_with.
  destruct (if truthy (a_ditherpos_file args) then _ else _) as [dithers|];
    [|done].
  cbn [and_then].
  destruct (dxs by_id dithers (a_id args) (a_id_type args)) as [xs|] eqn:Hxs;
    [|done].
  cbn [and_then].
  destruct (check_dithers (length xs) (a_basenames args) (a_modelbases args))
    eqn:Hcheck; [|done].
  cbn [negb]. unfold check_dithers in Hcheck.
  apply andb_true_iff in Hcheck as [Hb Hm].
  destruct (format_names format (a_basenames args) (length xs) (a_id args))
    as [bs|] eqn:Hbs; [|done].
  cbn [and_then].
  destruct (format_names format (a_modelbases args) (length xs) (a_id args))
    as [ms|] eqn:Hms; [|done].
  cbn [and_then].
  apply (format_names_length _ _ _ _ Hb) in Hbs.
  apply (format_names_length _ _ _ _ Hm) in Hms.
  destruct (if truthy (a_order_by args) then _ else _) as [bs'|] eqn:Hsort;
    [|done].
  cbn [and_then].
  assert (Hbs' : length bs' = length xs).
  { destruct (truthy (a_order_by args)).
    - apply sort_basenames_perm in Hsort. by rewrite Hsort.
    - by injection Hsort as <-. }
  destruct (if a_use_hetpupil args then _ else _) as [model|]; [|done].
  cbn [and_then].
  destruct (format (a_outfile args) (a_id args) (length xs)); [|done].
  cbn [and_then].
  by rewrite (create_dither_checked _ _ _ _ _ _ _ xs Hxs Hbs' Hms).
Qed.

Lemma conv_all_CFloat (l : list float) :
  conv_all (Dither.to_float float_of_string) (map Dither.CFloat l) = Ok l.
Proof. induction l as [|x l IH]; [done|]. cbn. by rewrite IH. Qed.

(** X25. With the positions of the command line, the table has one row, under
    the id of the command line itself: for an IFU whose slot is not that
    id, which the other types of id allow, the command raises [KeyError]
    on the slot. *)
Theorem create_dither_file_slot args ifu :
  truthy (a_ditherpos_file args) = false ->
  Nat.even (length (a_ditherpos args)) = true ->
  by_id (a_id args) (a_id_type args) = Return ifu ->
  ifuslot ifu <> a_id args ->
  create_dither_file args = Throw (KeyError (ifuslot ifu)).
Proof.
  intros Hfile Heven Hid Hslot.
  unfold create_dither_file, create_dither_file_with. rewrite Hfile.
  unfold Dither.DitherCreator. cbn [Dither._store_dither_positions].
  unfold Dither.store_row. rewrite length_map.
  apply Nat.even_spec in Heven as [n Hn]. rewrite Hn.
  replace (2 * n mod 2)%nat with 0%nat
    by (symmetry; rewrite Nat.mul_comm; apply Nat.Div0.mod_mul).
  cbn [Nat.eqb]. rewrite <- !fmap_take, <- !fmap_drop.
  change (@fmap list _ float Dither.cell Dither.CFloat)
    with (@map float Dither.cell Dither.CFloat).
  rewrite !conv_all_CFloat. cbn [bind lift and_then].
  unfold dxs. rewrite Hid. cbn [and_then]. unfold getitem. cbn [Dither.ifu_dxs].
  by rewrite lookup_insert_ne, lookup_empty.
Qed.

End Command.

(** ** The command on the shot of three dithers *)

(** The header keyword of the sample holds the number of the dither, and
    [sorted] is the stable sort by insertion. *)
Definition sample_getval (name headerkey : string) : outcome Z :=
  if String.eqb name "SIMDEX-obs-1_D1_046_L.fits" then Return 1%Z
  else if String.eqb name "SIMDEX-obs-1_D2_046_L.fits" then Return 2%Z
  else if String.eqb name "SIMDEX-obs-1_D3_046_L.fits" then Return 3%Z
  else Throw (IOError name).

Fixpoint insert_by_value (p : string * Z) (l : list (string * Z))
  : list (string * Z) :=
  match l with
  | [] => [p]
  | q :: l' => if (q.2 <? p.2)%Z then q :: insert_by_value p l' else p :: l
  end.

Definition sample_sorted (l : list (string * Z)) : list (string * Z) :=
  foldr insert_by_value [] l.

Lemma insert_by_value_perm p l : insert_by_value p l ≡ₚ p :: l.
Proof.
  induction l as [|q l IH]; [done|]. cbn [insert_by_value].
  destruct (q.2 <? p.2)%Z; [|done]. rewrite IH. apply Permutation_swap.
Qed.

Lemma sample_sorted_perm l : sample_sorted l ≡ₚ l.
Proof.
  induction l as [|p l IH]; [done|]. cbn [sample_sorted foldr].
  rewrite insert_by_value_perm. by constructor.
Qed.

(** The focal plane of the sample by the type of the id: the IFU of the
    slot 046 has the id 004. *)
Definition plane_by_id (id_ idtype : string) : outcome ifu_place :=
  if String.eqb idtype "ifuid"
  then (if String.eqb id_ "004" then Return (mkplace "046" 0 0)
        else Throw (KeyError id_))
  else sample_by_id id_ idtype.

Definition shot_fwhm (fwhm_fallback x y : float) (dither : nat) : outcome float :=
  Return fwhm_fallback.
Definition shot_normalisation (model : option unit) (x y : float) (dither : nat)
  : outcome float :=
  Return 1%float.
Definition no_file (path : string) : outcome string := Throw (IOError path).

Definition sample_args : arguments :=
  mkargs "046" "fplane.txt" ["SIMDEX-obs-1_D{dither}_{id}"] "dither_{id}.txt"
    ["SIMDEX-obs-1_D{dither}_{id}"] "ifuslot" 1.6 (Some "DITHER") false "_L.fits"
    [0; 0.61; 1.23; 0; 1.07; 0]%float None.

Lemma sort_basenames_permutation_sample :
  sort_basenames Z sample_getval sample_sorted [] "_L.fits" "DITHER"
  = Throw StopIteration
  /\ ["SIMDEX-obs-1_D1_046"; "SIMDEX-obs-1_D2_046"; "SIMDEX-obs-1_D3_046"]
     ≡ₚ ["SIMDEX-obs-1_D2_046"; "SIMDEX-obs-1_D3_046"; "SIMDEX-obs-1_D1_046"].
Proof.
  pose proof (sort_basenames_permutation Z sample_getval sample_sorted
                sample_sorted_perm
                ["SIMDEX-obs-1_D2_046"; "SIMDEX-obs-1_D3_046"; "SIMDEX-obs-1_D1_046"]
                "_L.fits" "DITHER") as [Hnil Hperm].
  split; [exact Hnil|]. apply Hperm. vm_compute. reflexivity.
Defined.

Lemma create_dither_file_counts_sample :
  create_dither_file_with Ref.float_of_string sample_format plane_by_id shot_fwhm
    unit (fun _ => Return tt) shot_normalisation Z sample_getval sample_sorted
    no_file
    (write_dither plane_by_id sample_fmt_f sample_fmt_4_3f sample_fmt_5_4f)
    sample_args
  = Return ("dither_046.txt", sample_text).
Proof.
  rewrite <- (create_dither_file_counts Ref.float_of_string sample_format
                plane_by_id shot_fwhm unit (fun _ => Return tt)
                shot_normalisation sample_fmt_f sample_fmt_4_3f sample_fmt_5_4f
                Z sample_getval sample_sorted no_file sample_sorted_perm
                sample_args).
  vm_compute. reflexivity.
Defined.

Lemma create_dither_file_slot_sample :
  create_dither_file Ref.float_of_string sample_format plane_by_id shot_fwhm
    unit (fun _ => Return tt) shot_normalisation
    sample_fmt_f sample_fmt_4_3f sample_fmt_5_4f Z sample_getval sample_sorted
    no_file
    (mkargs "004" "fplane.txt" ["SIMDEX-obs-1_D{dither}_{id}"] "dither_{id}.txt"
       ["masterflat_{id}"] "ifuid" 1.6 None false "_L.fits"
       [0; 0.61; 1.23; 0; 1.07; 0]%float None)
  = Throw (KeyError "046").
Proof.
  apply (create_dither_file_slot Ref.float_of_string sample_format plane_by_id
           shot_fwhm unit (fun _ => Return tt) shot_normalisation
           sample_fmt_f sample_fmt_4_3f sample_fmt_5_4f Z sample_getval
           sample_sorted no_file _ (mkplace "046" 0 0));
    [reflexivity|reflexivity|reflexivity|discriminate].
Defined.

End DitherFile.

(* ===================================================================== *)
(** * pyhetdex.common.file_tools: [prefix_filename] *)
(* ===================================================================== *)

Module PrefixFilename.

(** ** [os.path.split] and [os.path.join] of a system with POSIX paths *)

(** [s.rfind(c) + 1] *)
Fixpoint rfind_end (c : ascii) (s : string) : nat :=
  match s with
  | EmptyString => 0
  | String a s' =>
      match rfind_end c s' with
      | O => if Ascii.eqb a c then 1 else 0
      | S i => S (S i)
      end
  end.

(** [s[:n]] *)
Fixpoint take_str (n : nat) (s : string) : string :=
  match n, s with
  | S n', String a s' => String a (take_str n' s')
  | _, _ => EmptyString
  end.

(** [s.rstrip(c)] *)
Fixpoint rstrip_char (c : ascii) (s : string) : string :=
  match s with
  | EmptyString => EmptyString
  | String a s' =>
      match rstrip_char c s' with
      | EmptyString => if Ascii.eqb a c then EmptyString else String a EmptyString
      | r => String a r
      end
  end.

(** [s == c * len(s)] *)
Fixpoint all_char (c : ascii) (s : string) : bool :=
  match s with
  | EmptyString => true
  | String a s' => Ascii.eqb a c && all_char c s'
  end.

(** [s.endswith(c)] *)
Fixpoint endswith_char (c : ascii) (s : string) : bool :=
  match s with
  | EmptyString => false
  | String a EmptyString => Ascii.eqb a c
  | String _ s' => endswith_char c s'
  end.

Module posixpath.

Definition sep : ascii := "/".

(** The head as [split] returns it: without its trailing slashes, unless
    it is made of slashes only. *)
Definition strip_head (head : string) : string :=
  if negb (String.eqb head "") && negb (all_char sep head)
  then rstrip_char sep head
  else head.

Definition split (p : string) : string * string :=
  let i := rfind_end sep p in
  let head := take_str i p in
  let tail := Py.drop_str i p in
  (strip_head head, tail).

(** [join(a, b)] *)
Definition join (a b : string) : string :=
  if Py.startswith (String sep "") b then b
  else if String.eqb a "" || endswith_char sep a then a +:+ b
  else a +:+ String sep "" +:+ b.

End posixpath.

Definition prefix_filename (path prefix : string) : string :=
  let '(path, fname) := posixpath.split path in
  posixpath.join path (prefix +:+ fname).

(** ** Facts about the string operations *)

Lemma endswith_char_cons c a s :
  s <> "" -> endswith_char c (String a s) = endswith_char c s.
Proof. by destruct s. Qed.

Lemma rstrip_char_end c s : endswith_char c (rstrip_char c s) = false.
Proof.
  induction s as [|a s IH]; [done|]. cbn [rstrip_char].
  destruct (rstrip_char c s) as [|b r] eqn:Hr.
  - destruct (Ascii.eqb a c) eqn:Ha; [done|]. cbn. exact Ha.
  - by rewrite endswith_char_cons.
Qed.

Lemma rstrip_char_id c s : endswith_char c s = false -> rstrip_char c s = s.
Proof.
  induction s as [|a s IH]; [done|]. destruct s as [|b s].
  - cbn. by intros ->.
  - rewrite endswith_char_cons by done. intros H. specialize (IH H).
    cbn [rstrip_char] in IH |- *. by rewrite IH.
Qed.

Lemma rstrip_char_idem c s : rstrip_char c (rstrip_char c s) = rstrip_char c s.
Proof. apply rstrip_char_id, rstrip_char_end. Qed.

Lemma rstrip_char_snoc c s : rstrip_char c (s +:+ String c "") = rstrip_char c s.
Proof.
  induction s as [|a s IH].
  - rewrite FileTools.append_nil_l. cbn. by rewrite Ascii.eqb_refl.
  - rewrite FileTools.append_cons. cbn [rstrip_char]. by rewrite IH.
Qed.

Lemma endswith_char_snoc c s : endswith_char c (s +:+ String c "") = true.
Proof.
  induction s as [|a s IH].
  - rewrite FileTools.append_nil_l. cbn. apply Ascii.eqb_refl.
  - rewrite FileTools.append_cons, endswith_char_cons; [done|]. by destruct s.
Qed.

Lemma all_char_snoc c s : all_char c (s +:+ String c "") = all_char c s.
Proof.
  induction s as [|a s IH].
  - rewrite FileTools.append_nil_l. cbn. by rewrite Ascii.eqb_refl.
  - rewrite FileTools.append_cons. cbn [all_char]. by rewrite IH.
Qed.

Lemma all_char_end c s : all_char c s = true -> s <> "" -> endswith_char c s = true.
Proof.
  induction s as [|a s IH]; [done|]. cbn [all_char].
  intros [Ha Hs]%andb_true_iff _. destruct s as [|b s]; [exact Ha|].
  rewrite endswith_char_cons by done. by apply IH.
Qed.

Lemma take_str_app (a b : string) : take_str (String.length a) (a +:+ b) = a.
Proof.
  induction a as [|x a IH]; [by destruct b|].
  rewrite FileTools.append_cons. cbn. by rewrite IH.
Qed.

Lemma rfind_end_none c s : Py.contains c s = false -> rfind_end c s = 0%nat.
Proof.
  induction s as [|a s IH]; [done|]. cbn [Py.contains rfind_end].
  intros [Ha Hs]%orb_false_iff. by rewrite (IH Hs), Ha.
Qed.

Lemma rfind_end_app c x b :
  endswith_char c x = true -> Py.contains c b = false ->
  rfind_end c (x +:+ b) = String.length x.
Proof.
  intros Hx Hb. induction x as [|a x IH]; [done|].
  rewrite FileTools.append_cons. cbn [rfind_end String.length].
  destruct x as [|a' x].
  - rewrite FileTools.append_nil_l, (rfind_end_none _ _ Hb).
    cbn in Hx. by rewrite Hx.
  - rewrite endswith_char_cons in Hx by done. by rewrite (IH Hx).
Qed.

(** The cut [split] makes: the tail holds no separator, and the head is
    empty or ends with one. *)
Lemma rfind_end_cut c p :
  Py.contains c (Py.drop_str (rfind_end c p) p) = false
  /\ (take_str (rfind_end c p) p = ""
      \/ endswith_char c (take_str (rfind_end c p) p) = true).
Proof.
  induction p as [|a p [IHt IHh]]; [by auto|]. cbn [rfind_end].
  destruct (rfind_end c p) as [|i] eqn:Hi.
  - cbn [Py.drop_str] in IHt. destruct (Ascii.eqb a c) eqn:Ha; cbn.
    + by auto.
    + rewrite Ha, IHt. by auto.
  - cbn [Py.drop_str take_str]. split; [done|]. right.
    destruct p as [|b p]; [done|]. rewrite endswith_char_cons by done.
    by destruct IHh.
Qed.

Lemma strip_head_idem h :
  posixpath.strip_head (posixpath.strip_head h) = posixpath.strip_head h.
Proof.
  unfold posixpath.strip_head.
  destruct (negb (String.eqb h "") && negb (all_char posixpath.sep h)) eqn:E.
  - destruct (negb (String.eqb (rstrip_char posixpath.sep h) "") && _);
      [apply rstrip_char_idem|done].
  - by rewrite E.
Qed.

Lemma startswith_contains c b :
  Py.contains c b = false -> Py.startswith (String c "") b = false.
Proof.
  destruct b as [|a b]; [done|]. cbn. intros [Ha _]%orb_false_iff.
  by rewrite Ascii.eqb_sym, Ha.
Qed.

(** [split] of a head that ends with a separator, or is empty, followed by
    a name without separator. *)
Lemma split_app x b :
  x = "" \/ endswith_char posixpath.sep x = true ->
  Py.contains posixpath.sep b = false ->
  posixpath.split (x +:+ b) = (posixpath.strip_head x, b).
Proof.
  intros Hx Hb. unfold posixpath.split. destruct Hx as [->|Hx].
  - rewrite FileTools.append_nil_l, (rfind_end_none _ _ Hb). done.
  - by rewrite (rfind_end_app _ _ _ Hx Hb), take_str_app, FileTools.drop_str_app.
Qed.

(** X26. The file name gets the prefix and the directory stays: [split] of the
    new path gives the head of the old one, and the tail of the old one
    after the prefix, for a prefix that holds no separator. *)
Theorem prefix_filename_split path prefix :
  Py.contains posixpath.sep prefix = false ->
  posixpath.split (prefix_filename path prefix)
  = ((posixpath.split path).1, prefix +:+ (posixpath.split path).2).
Proof.
  intros Hp.
  destruct (rfind_end_cut posixpath.sep path) as [Ht _].
  assert (Hs : posixpath.split path
               = (posixpath.strip_head
                    (take_str (rfind_end posixpath.sep path) path),
                  Py.drop_str (rfind_end posixpath.sep path) path))
    by reflexivity.
  set (h := posixpath.strip_head (take_str (rfind_end posixpath.sep path) path))
    in *.
  set (t := Py.drop_str (rfind_end posixpath.sep path) path) in *.
  assert (Hb : Py.contains posixpath.sep (prefix +:+ t) = false)
    by (by rewrite DitherFile.contains_app, Hp, Ht).
  assert (Hh : posixpath.strip_head h = h) by apply strip_head_idem.
  unfold prefix_filename. rewrite Hs. cbn [fst snd].
  clearbody h t. unfold posixpath.join.
  rewrite (startswith_contains _ _ Hb).
  destruct (String.eqb_spec h "") as [->|Hne]; cbn [orb].
  - by rewrite split_app by auto.
  - destruct (endswith_char posixpath.sep h) eqn:He.
    + by rewrite split_app, Hh by auto.
    + rewrite <- FileTools.append_assoc, split_app;
        [|right; apply endswith_char_snoc|done].
      f_equal. unfold posixpath.strip_head.
      rewrite all_char_snoc, rstrip_char_snoc, (rstrip_char_id _ _ He).
      destruct (String.eqb_spec (h +:+ String posixpath.sep "") "") as [E|_].
      { by destruct h. }
      destruct (all_char posixpath.sep h) eqn:Ha; [|done].
      by rewrite (all_char_end _ _ Ha Hne) in He.
Qed.

Lemma startswith_app p a b :
  Py.startswith p a = true -> Py.startswith p (a +:+ b) = true.
Proof.
  revert a. induction p as [|x p IH]; intros a; [done|].
  destruct a as [|y a]; [done|]. rewrite FileTools.append_cons. cbn.
  intros [-> H]%andb_true_iff. by rewrite (IH _ H).
Qed.

(** X27. A prefix that starts with the separator takes the place of the
    directory: the new path is the prefix and the file name, whatever the
    directory of the path was. *)
Theorem prefix_filename_rooted_prefix path prefix :
  Py.startswith (String posixpath.sep "") prefix = true ->
  prefix_filename path prefix = prefix +:+ (posixpath.split path).2.
Proof.
  intros Hp. unfold prefix_filename.
  destruct (posixpath.split path) as [h t]. cbn [snd]. unfold posixpath.join.
  by rewrite (startswith_app _ _ _ Hp).
Qed.

(** ** The theorems on the path of the documentation *)

Lemma prefix_filename_doc :
  prefix_filename "/path/to/file.dat" "new_" = "/path/to/new_file.dat".
Proof. vm_compute. reflexivity. Qed.

Lemma prefix_filename_split_doc :
  posixpath.split "/path/to/new_file.dat" = ("/path/to", "new_file.dat").
Proof.
  exact (prefix_filename_split "/path/to/file.dat" "new_" eq_refl).
Defined.

Lemma prefix_filename_rooted_prefix_doc :
  prefix_filename "/path/to/file.dat" "/new_" = "/new_file.dat".
Proof.
  exact (prefix_filename_rooted_prefix "/path/to/file.dat" "/new_" eq_refl).
Defined.

End PrefixFilename.

(* ===================================================================== *)
(** * The file on the disk: [skip_comments] and the files that use it *)
(* ===================================================================== *)

Module TextIO.

(** ** A file opened for reading in text mode

    [open(name, 'r')] hands the bytes of the file to the program through a
    decoder. In an ASCII file every byte is a character, but for the ends
    of the lines: with the universal newlines of the default mode, a
    carriage return followed by a line feed, and a carriage return alone,
    are handed over as the one newline character. *)

Local Abbreviation cr := FileTools.cr.

(** The text the decoder makes of the bytes [b]. *)
Fixpoint translate (b : string) : string :=
  match b with
  | EmptyString => EmptyString
  | String c b' =>
      if Ascii.eqb c cr
      then match b' with
           | String d b'' =>
               if Ascii.eqb d Py.nl then String Py.nl (translate b'')
               else String Py.nl (translate b')
           | EmptyString => String Py.nl EmptyString
           end
      else String c (translate b')
  end.

(** A file that has just been opened, or put somewhere by [seek]: its bytes
    and the number of bytes before the cursor, from where the decoder starts
    afresh. For such a file [tell] gives that number, and [seek] takes it
    back. *)
Record stream : Type := mkstream { bytes : string; offset : nat }.

Definition open_r (b : string) : stream := mkstream b 0.
Definition tell (f : stream) : nat := offset f.
Definition seek (f : stream) (p : nat) : stream := mkstream (bytes f) p.

(** The text the program reads from the cursor on. *)
Definition text (f : stream) : string :=
  translate (Py.drop_str (offset f) (bytes f)).

(** [skip_comments]. [pos] starts as the number of bytes [f.tell()] gives,
    grows by [len(l)], the number of characters of the line read, for every
    comment line [for l in f] reads until the first other line, and is the
    place [f.seek(pos)] puts the file at. *)
Definition skip_comments (f : stream) : stream :=
  let pos := tell f in
  seek f (FileTools.skip_loop (Py.readlines (text f)) pos).

Section Dither.

Variable float_of_string : string -> option float.
Variable hash_first : list string -> nat.

(** [ParseDither._read_dither] on the file of bytes [b]: the file is opened,
    [skip_comments] puts it where it does, and the loop reads the lines from
    there. *)
Definition _read_dither (b : string) (d : Dither.dither) : result Dither.dither :=
  let f := skip_comments (open_r b) in
  do st <- Dither.read_lines float_of_string hash_first
             (Py.readlines (text f)) (None, d);
  Ok (snd st).

Definition ParseDither (b : string) : result Dither.dither :=
  _read_dither b Dither.init.

End Dither.

(** ** Files whose text is their bytes *)

Local Abbreviation plain := FileTools.plain.

(** The file as [FileTools] has it. *)
Definition view (f : stream) : FileTools.file :=
  FileTools.mkfile (bytes f) (offset f).

(** The lines of a text, each ended by a carriage return and a line feed. *)
Definition crlf_lines (ls : list string) : string :=
  fold_right (fun l r => l +:+ String cr (String Py.nl r)) "" ls.

Lemma plain_translate b : plain b = true -> translate b = b.
Proof.
  induction b as [|c b IH]; [done|]. cbn [FileTools.plain translate].
  intros [[_ Hc]%andb_true_iff Hb]%andb_true_iff.
  apply negb_true_iff in Hc. rewrite Hc. by rewrite (IH Hb).
Qed.

Lemma plain_drop n b : plain b = true -> plain (Py.drop_str n b) = true.
Proof.
  revert b. induction n as [|n IH]; intros b; [done|].
  destruct b as [|c b]; [done|]. cbn [FileTools.plain Py.drop_str].
  intros [_ Hb]%andb_true_iff. by apply IH.
Qed.

Lemma text_view f :
  plain (bytes f) = true -> text f = FileTools.remaining (view f).
Proof. intros H. unfold text. by rewrite plain_translate by by apply plain_drop. Qed.

(** On a file whose text is its bytes, [skip_comments] is what [FileTools]
    has. *)
Lemma skip_comments_view f :
  plain (bytes f) = true ->
  view (skip_comments f) = FileTools.skip_comments (view f).
Proof.
  intros H. unfold skip_comments, FileTools.skip_comments, seek, tell.
  by rewrite (text_view _ H).
Qed.

Lemma view_inj f g : view f = view g -> f = g.
Proof. destruct f, g. by intros [= -> ->]. Qed.

Lemma ParseDither_view float_of_string hash_first b :
  plain b = true ->
  ParseDither float_of_string hash_first b
  = Dither.ParseDither float_of_string hash_first b.
Proof.
  intros H. unfold ParseDither, _read_dither, Dither.ParseDither,
    Dither._read_dither.
  rewrite (text_view (skip_comments (open_r b))) by done.
  by rewrite (skip_comments_view (open_r b)) by done.
Qed.

(** ** Files with the line ends of DOS *)

(** A dither file with three comment lines, the third an empty comment, and
    the line of one dither, every line ended by a carriage return and a line
    feed. *)
Definition crlf_dither : string :=
  crlf_lines
    ["# dither file of the shot";
     "# basename modelbase ditherx dithery seeing norm airmass";
     "#";
     "SIMDEX-obs-1_D1_046 SIMDEX-obs-1_D1_046 0.00 0.00 1.60 1.00 1.22"].

(** C9. On [crlf_dither] a comment line has one byte more than it has
    characters, and [skip_comments] stops three bytes short of the line of
    the dither: it leaves the file on the third comment line, and a second
    call moves the cursor again, by the two characters of that line, on to
    the line feed that ends it. *)
Theorem skip_comments_crlf :
  offset (skip_comments (open_r crlf_dither)) = 85%nat
  /\ Py.readlines (text (skip_comments (open_r crlf_dither)))
     = [String "#" (String Py.nl "");
        "SIMDEX-obs-1_D1_046 SIMDEX-obs-1_D1_046 0.00 0.00 1.60 1.00 1.22"
        +:+ String Py.nl ""]
  /\ FileTools.is_comment (text (skip_comments (open_r crlf_dither))) = true
  /\ offset (skip_comments (skip_comments (open_r crlf_dither))) = 87%nat
  /\ Py.readlines (text (skip_comments (skip_comments (open_r crlf_dither))))
     = [String Py.nl "";
        "SIMDEX-obs-1_D1_046 SIMDEX-obs-1_D1_046 0.00 0.00 1.60 1.00 1.22"
        +:+ String Py.nl ""].
Proof. vm_compute. by repeat split. Qed.

(** What follows for [ParseDither]: the file of one dither is not read, the
    comment line the file is left on does not unpack and no line was parsed
    before it. The same file with line feeds alone gives the key D1. *)
Remark ParseDither_crlf :
  ParseDither Ref.float_of_string (fun _ => 0%nat) crlf_dither
  = Raise (UnboundLocalError "_d")
  /\ exists d,
      ParseDither Ref.float_of_string (fun _ => 0%nat)
        (Py.unlines
           ["# dither file of the shot";
            "# basename modelbase ditherx dithery seeing norm airmass";
            "#";
            "SIMDEX-obs-1_D1_046 SIMDEX-obs-1_D1_046 0.00 0.00 1.60 1.00 1.22"])
      = Ok d
      /\ Dither.basename d !! "D1" = Some "SIMDEX-obs-1_D1_046".
Proof.
  split; [vm_compute; reflexivity|].
  eexists. split; [vm_compute; reflexivity|]. reflexivity.
Qed.

(** ** Files with line feeds alone *)

(** X28. On an ASCII file with no carriage return, at any place [seek] has
    put it or just opened, [skip_comments] does what its documentation says:
    the program reads on from the first line that is not a comment, or finds
    the end of the file, and a second call leaves the file where it is. *)
Theorem skip_comments_plain f :
  plain (bytes f) = true ->
  text (skip_comments f)
  = FileTools.join (FileTools.drop_comments (Py.readlines (text f)))
  /\ FileTools.is_comment (text (skip_comments f)) = false
  /\ skip_comments (skip_comments f) = skip_comments f.
Proof.
  intros H.
  assert (H' : plain (bytes (skip_comments f)) = true) by exact H.
  destruct (FileTools.skip_comments_idempotent (view f)) as (_ & Hr & Hc & Hi).
  rewrite (text_view _ H'), (text_view _ H), (skip_comments_view _ H).
  split; [exact Hr|]. split; [exact Hc|].
  apply view_inj.
  by rewrite (skip_comments_view _ H'), (skip_comments_view _ H).
Qed.


(** With the line ends of DOS the same two comment lines leave the file on
    the end of the second one, which is read as an empty line. *)
Remark ParseDither_only_comments_crlf :
  ParseDither Ref.float_of_string (fun _ => 0%nat)
    (crlf_lines
       ["# basename          modelbase           ditherx dithery seeing norm airmass";
        "# SIMDEX-obs-1_D1_046 SIMDEX-obs-1_D1_046   0.00   0.00    1.60  1.00  1.22"])
  = Raise (UnboundLocalError "_d").
Proof. vm_compute. reflexivity. Qed.

(** The header of an IFU centre file is read from the same file all along. *)
Lemma read_bundle_id_content int_of_string ls f id f' :
  IFUCenter.read_bundle_id int_of_string ls f = Ok (id, f') ->
  FileTools.content f' = FileTools.content f.
Proof.
  revert f. induction ls as [|l ls IH]; intros f; cbn [IFUCenter.read_bundle_id];
    [discriminate|].
  destruct (negb (Py.startswith "#" (Py.strip l))); [discriminate|].
  destruct (negb _ && negb _).
  - intros H. by rewrite (IH _ H).
  - by intros (id' & _ & [= _ <-])%bind_Ok.
Qed.

Lemma readline_content f :
  FileTools.content (FileTools.readline f).2 = FileTools.content f.
Proof. unfold FileTools.readline. by destruct (Py.readlines _). Qed.

(** X10. When [_read_header] returns on an ASCII file with no carriage
    return, the program reads on from a line that is not a comment, or finds
    the end of the file: the fiber map starts on a row of data. On such a
    file the positions [tell] gives after a line is read, and the lengths
    [skip_comments] adds, count the same bytes. *)
Theorem read_header_cursor float_of_string int_of_string f h f' :
  plain (FileTools.content f) = true ->
  IFUCenter._read_header float_of_string int_of_string f = Ok (h, f') ->
  FileTools.content f' = FileTools.content f
  /\ FileTools.is_comment
       (text (mkstream (FileTools.content f') (FileTools.pos f'))) = false.
Proof.
  intros Hplain. unfold IFUCenter._read_header.
  intros ([id f1] & H1%read_bundle_id_content & H)%bind_Ok.
  pose proof (readline_content f1) as H2.
  destruct (FileTools.readline f1) as [line1 f2]. cbn [snd] in H2.
  apply bind_Ok in H as ([d sep] & _ & H).
  pose proof (readline_content (FileTools.skip_comments f2)) as H3.
  destruct (FileTools.readline (FileTools.skip_comments f2)) as [line2 f3].
  cbn [snd] in H3.
  apply bind_Ok in H as ([nx ny] & _ & [= _ <-]).
  assert (Hc : FileTools.content (FileTools.skip_comments f3) = FileTools.content f)
    by (cbn [FileTools.skip_comments FileTools.seek FileTools.content] in *;
        congruence).
  split; [exact Hc|].
  rewrite (text_view (mkstream _ _)) by (cbn [bytes]; by rewrite Hc).
  change (view (mkstream (FileTools.content (FileTools.skip_comments f3))
                  (FileTools.pos (FileTools.skip_comments f3))))
    with (FileTools.skip_comments f3).
  rewrite FileTools.remaining_skip_comments.
  apply FileTools.drop_comments_start.
Qed.

Lemma read_header_cursor_sample :
  exists h f',
    IFUCenter._read_header Ref.float_of_string Ref.int_of_string
      (FileTools.mkfile IFUCenter.sample_file 0) = Ok (h, f')
    /\ FileTools.content f' = IFUCenter.sample_file
    /\ FileTools.is_comment
         (text (mkstream (FileTools.content f') (FileTools.pos f'))) = false.
Proof.
  eexists _, _. split; [vm_compute; reflexivity|].
  eapply (read_header_cursor Ref.float_of_string Ref.int_of_string
            (FileTools.mkfile IFUCenter.sample_file 0)); [reflexivity|].
  vm_compute. reflexivity.
Defined.

Lemma skip_comments_plain_header :
  text (skip_comments (open_r (Py.unlines ["# IFU 23"; "#"; "#"; "0001 x"])))
  = FileTools.join
      (FileTools.drop_comments
         (Py.readlines (text (open_r (Py.unlines ["# IFU 23"; "#"; "#"; "0001 x"])))))
  /\ FileTools.is_comment
       (text (skip_comments (open_r (Py.unlines ["# IFU 23"; "#"; "#"; "0001 x"]))))
     = false
  /\ skip_comments
       (skip_comments (open_r (Py.unlines ["# IFU 23"; "#"; "#"; "0001 x"])))
     = skip_comments (open_r (Py.unlines ["# IFU 23"; "#"; "#"; "0001 x"])).
Proof.
  exact (skip_comments_plain
           (open_r (Py.unlines ["# IFU 23"; "#"; "#"; "0001 x"])) eq_refl).
Defined.


End TextIO.
